(** * Drone control core: world and ray-caster, simulated backend,
      waypoint executor and reactive navigator.

    Shallow embedding of
      - drone_control/core/environment.py
      - drone_control/core/simulator.py  (with core/drone.py)
      - drone_control/autopilot/flight_plan.py
      - drone_control/autopilot/obstacle_avoidance.py

    Numbers.  Python floats are read as exact rationals ([Q]); rounding,
    overflow, NaN and infinities of IEEE arithmetic are outside the model.
    The calls into [math] that have no rational counterpart ([sqrt],
    [cos], [sin], [radians]) are Section variables: every theorem holds for
    whatever these functions return, except where a hypothesis about them
    is named.  Python exceptions are a constructor of [result].

    Where rounding decides what the program does, the lines concerned are
    embedded a second time on IEEE binary64 (module [Float64], over the
    primitive floats), and evaluated there. *)

From Stdlib Require Import ZArith QArith Qround Qminmax Qabs.
From Stdlib Require Import List Bool String Lia Lqa.
From Stdlib Require Floats.PrimFloat Floats.SpecFloat Floats.FloatOps.
From Stdlib Require Numbers.Cyclic.Int63.Uint63.
Import ListNotations.
Open Scope Q_scope.

(* ================================================================= *)
(** ** Python primitives *)

Module Py.

Inductive exn : Set :=
  | ZeroDivisionError
  | ValueError
  | RuntimeError.

Inductive result (A : Type) : Type :=
  | Ok (a : A)
  | Raise (e : exn).
Arguments Ok {A} a.
Arguments Raise {A} e.

Definition bind {A B} (m : result A) (k : A -> result B) : result B :=
  match m with
  | Ok a => k a
  | Raise e => Raise e
  end.

(** [a < b] and [a <= b] on floats. *)
Definition ltb (a b : Q) : bool := negb (Qle_bool b a).
Definition leb (a b : Q) : bool := Qle_bool a b.

(** [min(a, b)] and [max(a, b)] of two arguments: the first argument is
    kept unless the second is strictly smaller (resp. larger). *)
Definition min (a b : Q) : Q := if ltb b a then b else a.
Definition max (a b : Q) : Q := if ltb a b then b else a.

(** [int(q)]: truncation toward zero. *)
Definition int (q : Q) : Z := if leb 0 q then Qfloor q else Qceiling q.

(** [abs(q)]. *)
Definition abs (q : Q) : Q := Qabs q.

(** [min(seq)] of one iterable argument: [ValueError] on an empty
    sequence, otherwise the first least element. *)
Definition min_list (l : list Q) : result Q :=
  match l with
  | [] => Raise ValueError
  | h :: t => Ok (fold_left (fun acc v => if ltb v acc then v else acc) t h)
  end.

(** [l[start:stop]] for non-negative bounds. *)
Definition slice {A : Type} (l : list A) (start stop : nat) : list A :=
  skipn start (firstn stop l).

(** [a % m] on floats read as rationals, for a positive modulus: the
    exact remainder, at least 0 and below [m].  On binary64 the result is rounded and
    can be [m] itself; [Float64.rem] is the operation as Python runs
    it. *)
Definition fmod (a m : Q) : Q := a - m * inject_Z (Qfloor (a / m)).

(** [time.sleep(secs)] raises [ValueError] on a negative argument and
    otherwise only lets time pass. *)
Definition sleep (secs : Q) : result unit :=
  if ltb secs 0 then Raise ValueError else Ok tt.

End Py.

Notation "x <- m ;; k" := (Py.bind m (fun x => k))
  (at level 61, m at next level, right associativity).

(* ================================================================= *)
(** ** Python floats as they are: IEEE binary64 *)

Module Float64.
Import PrimFloat SpecFloat FloatOps.

(** An [int] operand of a float operation, converted as Python converts
    it; exact below 2^53 in magnitude (the model is for [|z| < 2^63]). *)
Definition of_int (z : Z) : float :=
  match z with
  | Z0 => zero
  | Zpos _ => of_uint63 (Uint63.of_Z z)
  | Zneg p => opp (of_uint63 (Uint63.of_Z (Zpos p)))
  end.

(** The rational a finite float stands for. *)
Definition to_Q (f : float) : option Q :=
  match Prim2SF f with
  | S754_zero _ => Some 0
  | S754_finite s m e =>
    let v := if (0 <=? e)%Z then inject_Z (Zpos m * 2 ^ e)
             else Qmake (Zpos m) (2 ^ Z.to_pos (- e)) in
    Some (if s then - v else v)
  | _ => None
  end.

(** C's [fmod(a, m)], which Python's [%] calls: the exact remainder of
    the division truncated toward zero, with the sign of [a]. *)
Definition fmod (a m : float) : float :=
  match Prim2SF a, Prim2SF m with
  | S754_nan, _ | _, S754_nan => nan
  | S754_infinity _, _ | _, S754_zero _ => nan
  | S754_zero _, _ => a
  | S754_finite _ _ _, S754_infinity _ => a
  | S754_finite sa ma ea, S754_finite _ mm em =>
    let e := Z.min ea em in
    match Z.rem (Zpos ma * 2 ^ (ea - e)) (Zpos mm * 2 ^ (em - e)) with
    | Zpos r => SF2Prim (S754_finite sa r e)
    | _ => SF2Prim (S754_zero sa)
    end
  end.

(** [a % m] on floats: [fmod], moved by [m] when its sign differs from
    the sign of [m].  The move is a float addition, and is rounded. *)
Definition rem (a m : float) : Py.result float :=
  if eqb m zero then Py.Raise Py.ZeroDivisionError
  else
    let r := fmod a m in
    if eqb r zero then Py.Ok (if ltb m zero then neg_zero else zero)
    else if xorb (ltb m zero) (ltb r zero) then Py.Ok (add r m)
    else Py.Ok r.

(** The literals [0.05] and [0.9]. *)
Definition interval : float := 0x1.999999999999ap-5%float.
Definition nine_tenths : float := 0x1.ccccccccccccdp-1%float.

(** The yaw line of [_rc_loop] (simulator.py, line 220):
    [(self._state.yaw + yaw_rate * 0.9 * interval) % 360], for the [int]
    stick [yaw_rate] that [send_rc] latched. *)
Definition rc_loop_yaw (yaw : float) (yaw_rate : Z) : Py.result float :=
  rem (add yaw (mul (mul (of_int yaw_rate) nine_tenths) interval))
      (of_int 360).

(** Successive passes of the loop, one latched yaw stick per pass. *)
Fixpoint rc_loop_yaws (rates : list Z) (yaw : float) : Py.result float :=
  match rates with
  | [] => Py.Ok yaw
  | r :: rest => y <- rc_loop_yaw yaw r ;; rc_loop_yaws rest y
  end.

(** [overlaps_altitude] (environment.py, line 37). *)
Definition overlaps_altitude (z_base height z margin : float) : bool :=
  leb z_base (add z margin) && leb (sub z margin) (add z_base height).

(** The footprint test of [check_collision] for a box (environment.py,
    lines 147-150) at the point [(px, py)]. *)
Definition box_overlap (px py x y width depth radius : float) : bool :=
  let half_w := add (div width (of_int 2)) radius in
  let half_d := add (div depth (of_int 2)) radius in
  ltb (abs (sub px x)) half_w && ltb (abs (sub py y)) half_d.

(** [check_collision] over a scene that holds one box. *)
Definition check_collision_box (x y z_base width depth height : float)
    (px py pz radius : float) : bool :=
  if negb (overlaps_altitude z_base height pz radius) then false
  else box_overlap px py x y width depth radius.

(** The least positive float, [5e-324], and its double. *)
Definition least : float := 0x1p-1074%float.
Definition twice_least : float := 0x1p-1073%float.

(** [2^-1073], the value of [twice_least]: the least width whose half is
    still positive on binary64. *)
Definition min_halvable : Q := 1 # (2 ^ 1073).

End Float64.

(* ================================================================= *)
(** ** core/environment.py *)

Module Env.

Inductive ObstacleType : Set := BUILDING | TREE | WALL | PILLAR.

Record Obstacle : Set := mkObstacle {
  x : Q;               (* center x (cm) *)
  y : Q;               (* center y (cm) *)
  z_base : Q;          (* base altitude (cm) *)
  width : Q;           (* extent in x, or diameter when cylindrical *)
  depth : Q;           (* extent in y, ignored when cylindrical *)
  height : Q;          (* vertical extent (cm) *)
  obstacle_type : ObstacleType;
  is_cylindrical : bool
}.

(** Default of the [margin] argument of [overlaps_altitude]. *)
Definition default_margin : Q := 30.

Definition overlaps_altitude (o : Obstacle) (z margin : Q) : bool :=
  Py.leb (z_base o) (z + margin) && Py.leb (z - margin) (z_base o + height o).

Definition EPS : Q := 1 # 1000000000.
(** The literal [1e18] that stands for an unbounded slab parameter. *)
Definition BIG : Q := 1000000000000000000.

(** [_ray_aabb_intersect].  The quotients are exact here; what is proved
    of the result below rests on its comparisons, not on
    [(lo - o) / d * d] being [lo - o], which rounding does not keep. *)
Definition _ray_aabb_intersect (o : Obstacle) (ox oy dx dy max_range : Q)
  : option Q :=
  let half_w := width o / 2 in
  let half_d := depth o / 2 in
  let x_min := x o - half_w in
  let x_max := x o + half_w in
  let y_min := y o - half_d in
  let y_max := y o + half_d in
  let slab_x :=
    if Py.ltb (Qabs dx) EPS then
      if Py.ltb ox x_min || Py.ltb x_max ox then None
      else Some (- BIG, BIG)
    else
      let t1 := (x_min - ox) / dx in
      let t2 := (x_max - ox) / dx in
      Some (Py.min t1 t2, Py.max t1 t2) in
  match slab_x with
  | None => None
  | Some (t_min_x, t_max_x) =>
    let slab_y :=
      if Py.ltb (Qabs dy) EPS then
        if Py.ltb oy y_min || Py.ltb y_max oy then None
        else Some (- BIG, BIG)
      else
        let t1 := (y_min - oy) / dy in
        let t2 := (y_max - oy) / dy in
        Some (Py.min t1 t2, Py.max t1 t2) in
    match slab_y with
    | None => None
    | Some (t_min_y, t_max_y) =>
      let t_enter := Py.max t_min_x t_min_y in
      let t_exit := Py.min t_max_x t_max_y in
      if Py.ltb t_exit t_enter || Py.ltb t_exit 0 then None
      else
        let t := if Py.leb 0 t_enter then t_enter else t_exit in
        if Py.ltb max_range t || Py.ltb t 0 then None
        else Some t
    end
  end.

(** *** The slab method as the specification words it

    Slab parameters range over the rationals extended with the two
    infinities; a parallel axis whose origin lies within the slab
    contributes [(-oo, +oo)]. *)
Inductive ext : Set :=
  | NegInf
  | Fin (q : Q)
  | PosInf.

Definition ext_ltb (a b : ext) : bool :=
  match a, b with
  | _, NegInf => false
  | NegInf, _ => true
  | PosInf, _ => false
  | Fin _, PosInf => true
  | Fin p, Fin q => Py.ltb p q
  end.

Definition ext_leb (a b : ext) : bool := negb (ext_ltb b a).

Definition ext_max (a b : ext) : ext := if ext_ltb a b then b else a.
Definition ext_min (a b : ext) : ext := if ext_ltb b a then b else a.

(** One axis: [lo, hi] are the slab bounds, [o] and [d] the origin and
    direction coordinates.  [None] is a miss. *)
Definition slab_spec (lo hi o d : Q) : option (ext * ext) :=
  if Py.ltb (Qabs d) EPS then
    if Py.leb lo o && Py.leb o hi then Some (NegInf, PosInf) else None
  else
    let t1 := (lo - o) / d in
    let t2 := (hi - o) / d in
    Some (Fin (Py.min t1 t2), Fin (Py.max t1 t2)).

Definition ray_aabb_spec (o : Obstacle) (ox oy dx dy max_range : Q)
  : option ext :=
  match slab_spec (x o - width o / 2) (x o + width o / 2) ox dx,
        slab_spec (y o - depth o / 2) (y o + depth o / 2) oy dy with
  | Some (t_min_x, t_max_x), Some (t_min_y, t_max_y) =>
    let t_enter := ext_max t_min_x t_min_y in
    let t_exit := ext_min t_max_x t_max_y in
    if ext_ltb t_exit t_enter || ext_ltb t_exit (Fin 0) then None
    else
      let t := if ext_leb (Fin 0) t_enter then t_enter else t_exit in
      if ext_ltb (Fin max_range) t || ext_ltb t (Fin 0) then None
      else Some t
  | _, _ => None
  end.

Section RayCaster.

(** [math.sqrt]. *)
Variable sqrt : Q -> Q.

Definition _ray_circle_intersect (o : Obstacle) (ox oy dx dy max_range : Q)
  : Py.result (option Q) :=
  let radius := width o / 2 in
  let fx := ox - x o in
  let fy := oy - y o in
  let a := dx * dx + dy * dy in
  let b := 2 * (fx * dx + fy * dy) in
  let c := fx * fx + fy * fy - radius * radius in
  let discriminant := b * b - 4 * a * c in
  if Py.ltb discriminant 0 then Py.Ok None
  else
    let sqrt_disc := sqrt discriminant in
    if Qeq_bool (2 * a) 0 then Py.Raise Py.ZeroDivisionError
    else
      let t1 := (- b - sqrt_disc) / (2 * a) in
      let t2 := (- b + sqrt_disc) / (2 * a) in
      let t := if Py.leb 0 t1 then t1 else t2 in
      if Py.ltb t 0 || Py.ltb max_range t then Py.Ok None
      else Py.Ok (Some t).

Definition ray_intersect_2d (o : Obstacle) (ox oy dx dy max_range : Q)
  : Py.result (option Q) :=
  if is_cylindrical o then _ray_circle_intersect o ox oy dx dy max_range
  else Py.Ok (_ray_aabb_intersect o ox oy dx dy max_range).

(** [o] overlaps the altitude [oz] (default margin) and its silhouette is
    pierced by the ray within range, at distance [t]. *)
Definition pierced (o : Obstacle) (ox oy oz dx dy max_range t : Q) : Prop :=
  overlaps_altitude o oz default_margin = true /\
  ray_intersect_2d o ox oy dx dy max_range = Py.Ok (Some t).

(** An environment is its list of obstacles, in insertion order
    ([add_obstacle] appends).  A reference to one of its obstacles is the
    position of that obstacle in the list. *)
Definition Environment : Set := list Obstacle.

Definition add_obstacle (env : Environment) (o : Obstacle) : Environment :=
  env ++ [o].

(** The [for obs in self.obstacles] loop of [ray_cast]; [i] is the
    position of the head of [obs] in the environment. *)
Fixpoint ray_cast_loop (ox oy oz dx dy max_range : Q)
    (obs : list Obstacle) (i : nat)
    (nearest_dist : Q) (nearest_obs : option nat)
  : Py.result (Q * option nat) :=
  match obs with
  | [] => Py.Ok (nearest_dist, nearest_obs)
  | o :: rest =>
    if negb (overlaps_altitude o oz default_margin) then
      ray_cast_loop ox oy oz dx dy max_range rest (S i) nearest_dist nearest_obs
    else
      dist <- ray_intersect_2d o ox oy dx dy max_range ;;
      match dist with
      | Some d =>
        if Py.ltb d nearest_dist then
          ray_cast_loop ox oy oz dx dy max_range rest (S i) d (Some i)
        else
          ray_cast_loop ox oy oz dx dy max_range rest (S i) nearest_dist nearest_obs
      | None =>
        ray_cast_loop ox oy oz dx dy max_range rest (S i) nearest_dist nearest_obs
      end
  end.

(** [ray_cast], after its first two lines [dx = cos(angle_rad)] and
    [dy = sin(angle_rad)]: the direction takes the place of the angle. *)
Definition ray_cast (env : Environment) (ox oy oz dx dy max_range : Q)
  : Py.result (Q * option nat) :=
  ray_cast_loop ox oy oz dx dy max_range env 0%nat max_range None.

(** [check_collision].  The halves [width / 2] and [depth / 2] are exact
    here; on binary64 they are too, except that the half of the least
    positive float is [0.0] ([Float64.check_collision_box]). *)
Fixpoint check_collision (env : Environment) (px py pz radius : Q) : bool :=
  match env with
  | [] => false
  | o :: rest =>
    if negb (overlaps_altitude o pz radius) then
      check_collision rest px py pz radius
    else if is_cylindrical o then
      let dist := sqrt ((px - x o) ^ 2 + (py - y o) ^ 2) in
      if Py.ltb dist (width o / 2 + radius) then true
      else check_collision rest px py pz radius
    else
      let half_w := width o / 2 + radius in
      let half_d := depth o / 2 + radius in
      if Py.ltb (Qabs (px - x o)) half_w && Py.ltb (Qabs (py - y o)) half_d
      then true
      else check_collision rest px py pz radius
  end.

End RayCaster.

Definition default_environment : Environment :=
  [ mkObstacle 180 200 0 80 80 200 BUILDING false;
    mkObstacle (-150) 120 0 100 60 180 BUILDING false;
    mkObstacle (-200) (-180) 0 70 90 160 BUILDING false;
    mkObstacle 100 (-200) 0 60 60 140 BUILDING false;
    mkObstacle 60 280 0 50 50 250 TREE true;
    mkObstacle (-80) (-100) 0 40 40 200 TREE true;
    mkObstacle 250 80 0 45 45 220 TREE true;
    mkObstacle (-250) 50 0 35 35 180 TREE true;
    mkObstacle 0 380 0 300 20 150 WALL false;
    mkObstacle 300 0 0 20 250 170 WALL false;
    mkObstacle (-30) 150 0 25 25 300 PILLAR true;
    mkObstacle 150 (-80) 0 20 20 280 PILLAR true ].

(** A computable stand-in for [math.sqrt] used to run the model on
    concrete scenes: exact on squares of rationals, rounded down to a
    multiple of the denominator's inverse elsewhere. *)
Definition sqrt_floor (q : Q) : Q :=
  Qmake (Z.sqrt (Qnum q * Zpos (Qden q))) (Qden q).

(** [ObstacleType.value] *)
Definition type_value (t : ObstacleType) : string :=
  match t with
  | BUILDING => "building"
  | TREE => "tree"
  | WALL => "wall"
  | PILLAR => "pillar"
  end.

(** *** Scenes used to run the model *)

(** Two boxes whose near faces both lie at [x = 500]. *)
Definition near_box : Obstacle := mkObstacle 510 0 0 20 100 100 BUILDING false.
Definition far_box : Obstacle := mkObstacle 520 0 0 40 100 100 WALL false.

(** The wall of the default environment, seen from the origin along +y. *)
Definition north_wall : Obstacle := mkObstacle 0 380 0 300 20 150 WALL false.

(** A box two units wide and 4e18 long, centred on the origin. *)
Definition long_box : Obstacle :=
  mkObstacle 0 0 0 2 4000000000000000000 10 WALL false.

(** An obstacle without footprint. *)
Definition flat_box : Obstacle := mkObstacle 0 0 0 0 0 10 BUILDING false.

(** The first tree of the default environment. *)
Definition first_tree : Obstacle := mkObstacle 60 280 0 50 50 250 TREE true.

(** A box whose top, at 100 cm, is 30 cm below the query altitude 130:
    it is still returned. *)
Definition low_box : Obstacle := mkObstacle 100 0 0 20 20 100 BUILDING false.

(** A box nearer on the same ray whose top, at 50 cm, is 80 cm below the
    query altitude 130. *)
Definition short_box : Obstacle := mkObstacle 50 0 0 20 20 50 BUILDING false.

End Env.

(* ================================================================= *)
(** ** core/drone.py *)

Module Drone.

Record DroneState : Set := mkState {
  x : Q;               (* cm from origin *)
  y : Q;
  z : Q;               (* altitude, cm *)
  yaw : Q;             (* degrees *)
  speed : Q;           (* cm/s *)
  battery : Q;         (* percent *)
  is_flying : bool;
  is_connected : bool;
  flight_time : Q;     (* seconds *)
  temperature : Q;     (* celsius *)
  timestamp : Q
}.

(** [DroneState()] created at wall-clock time [now]. *)
Definition default_state (now : Q) : DroneState :=
  mkState 0 0 0 0 0 100 false false 0 25 now.

End Drone.

(* ================================================================= *)
(** ** core/simulator.py *)

Module Sim.
Import Drone.

Definition MOVE_SPEED : Q := 50.
Definition ASCEND_SPEED : Q := 40.
Definition ROTATE_SPEED : Q := 90.

(** The fields of [SimulatedDrone] that carry state.  The lock and the
    thread handle have no counterpart (operations run one at a time); the
    message log is left out, no operation reads it. *)
Record SimulatedDrone : Set := mkSim {
  _state : DroneState;
  _speed : Q;
  _rc_active : bool;
  _rc_values : Q * Q * Q * Q;
  _flight_start : option Q
}.

(** [SimulatedDrone()]. *)
Definition init (now : Q) : SimulatedDrone :=
  mkSim (default_state now) MOVE_SPEED false (0, 0, 0, 0) None.

Definition with_state (d : SimulatedDrone) (s : DroneState) : SimulatedDrone :=
  mkSim s (_speed d) (_rc_active d) (_rc_values d) (_flight_start d).

(** Truth value of [self._flight_start]: [None] and [0.0] are false. *)
Definition truthy (t : option Q) : bool :=
  match t with
  | Some v => negb (Qeq_bool v 0)
  | None => false
  end.

Definition _drain_battery (seconds : Q) (s : DroneState) : DroneState :=
  mkState (x s) (y s) (z s) (yaw s) (speed s)
    (Py.max 0 (battery s - seconds * (1 # 2)))
    (is_flying s) (is_connected s) (flight_time s)
    (Py.min 45 (temperature s + seconds * (1 # 10)))
    (timestamp s).

(** [_start_rc_loop] marks the loop active and starts its thread.  The
    passes of that thread are the [RcTick] operations below: they run
    whenever the scheduler lets them, between or during later calls. *)
Definition _start_rc_loop (d : SimulatedDrone) : SimulatedDrone :=
  if _rc_active d then d
  else mkSim (_state d) (_speed d) true (_rc_values d) (_flight_start d).

Definition _stop_rc_loop (d : SimulatedDrone) : SimulatedDrone :=
  mkSim (_state d) (_speed d) false (0, 0, 0, 0) (_flight_start d).

(** Every operation returns the drone it leaves behind together with its
    return value or the exception it raised. *)
Definition connect (d : SimulatedDrone) : SimulatedDrone * Py.result bool :=
  let s := _state d in
  (with_state d
     (mkState (x s) (y s) (z s) (yaw s) (speed s) 100
        (is_flying s) true (flight_time s) 25 (timestamp s)),
   Py.Ok true).

(** The locked block shared by [land] and [emergency_stop]; [now] is the
    value of [time.time()]. *)
Definition ground (now : Q) (d : SimulatedDrone) : SimulatedDrone :=
  let s := _state d in
  let ft := if truthy (_flight_start d)
            then match _flight_start d with
                 | Some t0 => flight_time s + (now - t0)
                 | None => flight_time s
                 end
            else flight_time s in
  let fs := if truthy (_flight_start d) then None else _flight_start d in
  mkSim (mkState (x s) (y s) 0 (yaw s) 0 (battery s)
           false (is_connected s) ft (temperature s) (timestamp s))
        (_speed d) (_rc_active d) (_rc_values d) fs.

Definition emergency_stop (now : Q) (d : SimulatedDrone)
  : SimulatedDrone * Py.result unit :=
  (ground now (_stop_rc_loop d), Py.Ok tt).

(** The locked block that ends [disconnect]. *)
Definition mark_disconnected (d : SimulatedDrone) : SimulatedDrone :=
  let s := _state d in
  with_state d
    (mkState (x s) (y s) (z s) (yaw s) (speed s) (battery s)
       (is_flying s) false (flight_time s) (temperature s) (timestamp s)).

(** [disconnect] takes the lock twice: inside [emergency_stop], then for
    [mark_disconnected].  Here the two follow each other at once; a call
    of another thread between them is written out where it matters. *)
Definition disconnect (now : Q) (d : SimulatedDrone)
  : SimulatedDrone * Py.result unit :=
  (mark_disconnected (fst (emergency_stop now d)), Py.Ok tt).

Definition takeoff (now : Q) (d : SimulatedDrone)
  : SimulatedDrone * Py.result bool :=
  let s := _state d in
  if negb (is_connected s) || is_flying s then (d, Py.Ok false)
  else
    let d1 :=
      mkSim (mkState (x s) (y s) 80 (yaw s) (speed s) (battery s)
               true (is_connected s) (flight_time s) (temperature s)
               (timestamp s))
            (_speed d) (_rc_active d) (_rc_values d) (Some now) in
    (_start_rc_loop d1, Py.Ok true).

Definition land (now : Q) (d : SimulatedDrone)
  : SimulatedDrone * Py.result bool :=
  let d1 := _stop_rc_loop d in
  if negb (is_flying (_state d1)) then (d1, Py.Ok false)
  else (ground now d1, Py.Ok true).

Definition rotate (degrees : Q) (d : SimulatedDrone)
  : SimulatedDrone * Py.result bool :=
  let s := _state d in
  if negb (is_flying s) then (d, Py.Ok false)
  else
    let d1 := with_state d
      (mkState (x s) (y s) (z s) (Py.fmod (yaw s + degrees) 360) (speed s)
         (battery s) (is_flying s) (is_connected s) (flight_time s)
         (temperature s) (timestamp s)) in
    let duration := Py.abs degrees / ROTATE_SPEED in
    match Py.sleep (Py.min duration 2) with
    | Py.Raise e => (d1, Py.Raise e)
    | Py.Ok _ => (d1, Py.Ok true)
    end.

Definition set_speed (speed_cm_s : Q) (d : SimulatedDrone)
  : SimulatedDrone * Py.result bool :=
  (mkSim (_state d) (Py.max 10 (Py.min 100 speed_cm_s))
         (_rc_active d) (_rc_values d) (_flight_start d),
   Py.Ok true).

Definition send_rc (left_right forward_back up_down yaw_rate : Q)
    (d : SimulatedDrone) : SimulatedDrone * Py.result unit :=
  (mkSim (_state d) (_speed d) (_rc_active d)
     (Py.max (-100) (Py.min 100 left_right),
      Py.max (-100) (Py.min 100 forward_back),
      Py.max (-100) (Py.min 100 up_down),
      Py.max (-100) (Py.min 100 yaw_rate))
     (_flight_start d),
   Py.Ok tt).

(** [get_state] stamps the time and returns a copy of the state. *)
Definition get_state (now : Q) (d : SimulatedDrone)
  : SimulatedDrone * DroneState :=
  let s := _state d in
  let s' := mkState (x s) (y s) (z s) (yaw s) (speed s) (battery s)
              (is_flying s) (is_connected s) (flight_time s)
              (temperature s) now in
  (with_state d s', s').

Definition interval : Q := 1 # 20.

(** The state invariant of the backend. *)
Definition inv (s : DroneState) : Prop :=
  0 <= battery s <= 100 /\
  0 <= z s /\
  0 <= yaw s < 360 /\
  temperature s <= 45 /\
  (is_flying s = true -> is_connected s = true).

Section Libm.

(** [math.sqrt], [math.cos], [math.sin] and [math.radians]. *)
Variables sqrt cos sin radians : Q -> Q.

Definition move (direction : string) (distance_cm : Q) (d : SimulatedDrone)
  : SimulatedDrone * Py.result bool :=
  let s := _state d in
  if negb (is_flying s) then (d, Py.Ok false)
  else
    let rad := radians (yaw s) in
    let delta :=
      if String.eqb direction "forward" then
        Some (distance_cm * cos rad, distance_cm * sin rad, 0)
      else if String.eqb direction "back" then
        Some (- distance_cm * cos rad, - distance_cm * sin rad, 0)
      else if String.eqb direction "left" then
        Some (distance_cm * sin rad, - distance_cm * cos rad, 0)
      else if String.eqb direction "right" then
        Some (- distance_cm * sin rad, distance_cm * cos rad, 0)
      else if String.eqb direction "up" then
        Some (0, 0, distance_cm)
      else if String.eqb direction "down" then
        Some (0, 0, - distance_cm)
      else None in
    match delta with
    | None => (d, Py.Ok false)
    | Some (dx, dy, dz) =>
      if Qeq_bool (_speed d) 0 then (d, Py.Raise Py.ZeroDivisionError)
      else
        let duration := distance_cm / _speed d in
        match Py.sleep (Py.min duration 2) with
        | Py.Raise e => (d, Py.Raise e)
        | Py.Ok _ =>
          let s1 := mkState (x s + dx) (y s + dy) (Py.max 0 (z s + dz))
                      (yaw s) (speed s) (battery s) (is_flying s)
                      (is_connected s) (flight_time s) (temperature s)
                      (timestamp s) in
          (with_state d (_drain_battery duration s1), Py.Ok true)
        end
    end.

(** One iteration of the interpolation loop of [go_to].  The point
    written is exact here; on binary64 the last one,
    [sx + (tx - sx) * 1.0], can miss [tx] by a rounding. *)
Definition go_to_step (tx ty tz spd sx sy sz dt : Q) (steps i : Z)
    (d : SimulatedDrone) : SimulatedDrone * Py.result unit :=
  let frac := inject_Z i / inject_Z steps in
  match Py.sleep (Py.min dt (1 # 2)) with
  | Py.Raise e => (d, Py.Raise e)
  | Py.Ok _ =>
    let s := _state d in
    let s1 := mkState (sx + (tx - sx) * frac) (sy + (ty - sy) * frac)
                (Py.max 0 (sz + (tz - sz) * frac))
                (yaw s) spd (battery s) (is_flying s) (is_connected s)
                (flight_time s) (temperature s) (timestamp s) in
    (with_state d (_drain_battery dt s1), Py.Ok tt)
  end.

Fixpoint go_to_loop (tx ty tz spd sx sy sz dt : Q) (steps : Z)
    (range : list Z) (d : SimulatedDrone)
  : SimulatedDrone * Py.result unit :=
  match range with
  | [] => (d, Py.Ok tt)
  | i :: rest =>
    match go_to_step tx ty tz spd sx sy sz dt steps i d with
    | (d1, Py.Raise e) => (d1, Py.Raise e)
    | (d1, Py.Ok _) => go_to_loop tx ty tz spd sx sy sz dt steps rest d1
    end
  end.

(** [range(1, steps + 1)]. *)
Definition range1 (steps : Z) : list Z :=
  map Z.of_nat (seq 1 (Z.to_nat steps)).

Definition go_to (tx ty tz spd : Q) (d : SimulatedDrone)
  : SimulatedDrone * Py.result bool :=
  let s := _state d in
  if negb (is_flying s) then (d, Py.Ok false)
  else
    let sx := x s in
    let sy := y s in
    let sz := z s in
    let dist := sqrt ((tx - sx) ^ 2 + (ty - sy) ^ 2 + (tz - sz) ^ 2) in
    if Py.ltb dist 1 then (d, Py.Ok true)
    else
      let duration := dist / Py.max spd 10 in
      let steps := Z.max (Py.int (duration * 10)) 1 in
      let dt := duration / inject_Z steps in
      match go_to_loop tx ty tz spd sx sy sz dt steps (range1 steps) d with
      | (d1, Py.Raise e) => (d1, Py.Raise e)
      | (d1, Py.Ok _) => (d1, Py.Ok true)
      end.

(** One pass through the body of the [while self._rc_active] loop of
    [_rc_loop].  [None]: the loop is left ([_rc_active] is false, or the
    drone is not flying) and nothing is written. *)
Definition rc_tick (d : SimulatedDrone) : option SimulatedDrone :=
  if negb (_rc_active d) then None
  else
    let '(lr, fb, ud, yaw_rate) := _rc_values d in
    let s := _state d in
    if negb (is_flying s) then None
    else
      let rad := radians (yaw s) in
      let scale := _speed d * interval / 100 in
      let s1 :=
        mkState (x s + (fb * cos rad - lr * sin rad) * scale)
                (y s + (fb * sin rad + lr * cos rad) * scale)
                (Py.max 0 (z s + ud * scale))
                (Py.fmod (yaw s + yaw_rate * (9 # 10) * interval) 360)
                (sqrt (lr ^ 2 + fb ^ 2 + ud ^ 2) * _speed d / 100)
                (battery s) (is_flying s) (is_connected s) (flight_time s)
                (temperature s) (timestamp s) in
      Some (with_state d (_drain_battery interval s1)).

(** The operations of the backend, with their arguments; [now] stands
    for the value [time.time()] returns during the call. *)
Inductive op : Set :=
  | Connect
  | Disconnect (now : Q)
  | Takeoff (now : Q)
  | Land (now : Q)
  | EmergencyStop (now : Q)
  | Move (direction : string) (distance_cm : Q)
  | Rotate (degrees : Q)
  | SetSpeed (speed_cm_s : Q)
  | SendRc (left_right forward_back up_down yaw_rate : Q)
  | GoTo (tx ty tz spd : Q)
  | GetState (now : Q)
  | RcTick.

(** The drone an operation leaves behind, whether it returned or raised. *)
Definition run (o : op) (d : SimulatedDrone) : SimulatedDrone :=
  match o with
  | Connect => fst (connect d)
  | Disconnect now => fst (disconnect now d)
  | Takeoff now => fst (takeoff now d)
  | Land now => fst (land now d)
  | EmergencyStop now => fst (emergency_stop now d)
  | Move direction distance_cm => fst (move direction distance_cm d)
  | Rotate degrees => fst (rotate degrees d)
  | SetSpeed v => fst (set_speed v d)
  | SendRc lr fb ud yr => fst (send_rc lr fb ud yr d)
  | GoTo tx ty tz spd => fst (go_to tx ty tz spd d)
  | GetState now => fst (get_state now d)
  | RcTick => match rc_tick d with Some d1 => d1 | None => d end
  end.

(** The operations that end a flight. *)
Definition grounds (o : op) : bool :=
  match o with
  | Land _ | EmergencyStop _ | Disconnect _ => true
  | _ => false
  end.

(** A sequence of operations, run one after the other. *)
Definition run_all (ops : list op) (d : SimulatedDrone) : SimulatedDrone :=
  fold_left (fun d1 o => run o d1) ops d.

End Libm.

(** What the backend keeps true of its own attributes: the speed
    setpoint stays within [10, 100] and each latched stick within
    [-100, 100]. *)
Definition in_rc_range (v : Q) : Prop := -100 <= v <= 100.

Definition attrs_ok (d : SimulatedDrone) : Prop :=
  10 <= _speed d <= 100 /\
  in_rc_range (fst (fst (fst (_rc_values d)))) /\
  in_rc_range (snd (fst (fst (_rc_values d)))) /\
  in_rc_range (snd (fst (_rc_values d))) /\
  in_rc_range (snd (_rc_values d)).

(** The directions [move] knows. *)
Definition directions : list string :=
  ["forward"; "back"; "left"; "right"; "up"; "down"]%string.

(** [l[-n:]] for a positive [n]. *)
Definition last_n {A : Type} (n : nat) (l : list A) : list A :=
  skipn (List.length l - n) l.

(** [_add_log] on the message log; [stamp] is what
    [time.strftime('%H:%M:%S')] returns. *)
Definition _add_log (stamp msg : string) (log : list string) : list string :=
  let entry := ("[" ++ stamp ++ "] " ++ msg)%string in
  let log1 := log ++ [entry] in
  if (200 <? List.length log1)%nat then last_n 200 log1 else log1.

(** *** Drones used to run the model *)

(** The values of [math.cos], [math.sin] and [math.radians] at heading 0,
    which is all the runs below ask for. *)
Definition cos_at_0 (a : Q) : Q := 1.
Definition sin_at_0 (a : Q) : Q := 0.
Definition radians_at_0 (a : Q) : Q := 0.

(** A connected, flying drone with the forward stick at 50. *)
Definition cruising : SimulatedDrone :=
  mkSim (mkState 0 0 80 0 0 100 true true 0 25 0) 50 true (0, 50, 0, 0) (Some 0).


(** A flying drone with the sticks released, and a connected one on the
    ground. *)
Definition hover_drone : SimulatedDrone :=
  mkSim (mkState 120 40 80 90 0 100 true true 0 25 0) 50 true (0, 0, 0, 0)
        (Some 1).
Definition grounded : SimulatedDrone := fst (connect (init 0)).

End Sim.

(* ================================================================= *)
(** ** core/camera.py *)

Module Camera.

Record CameraFrame : Set := mkFrame {
  depths : list Q;             (* distance per ray *)
  obstacle_types : list string;
  obstacle_heights : list Q;
  fov_h : Q;
  num_rays : nat;
  max_range : Q;
  drone_yaw : Q;
  drone_z : Q;
  timestamp : Q
}.

Record SimulatedCamera : Set := mkCamera {
  cam_fov_h : Q;
  cam_num_rays : nat;
  cam_max_range : Q
}.

(** [SimulatedCamera()] with its default arguments. *)
Definition default_camera : SimulatedCamera := mkCamera 70 48 500.

(** [frac] of ray [i]: [(i / max(self.num_rays - 1, 1)) - 0.5]. *)
Definition ray_frac (n i : nat) : Q :=
  inject_Z (Z.of_nat i) / inject_Z (Z.max (Z.of_nat n - 1) 1) - (1 # 2).

Section Capture.

(** [math.sqrt], [math.cos], [math.sin] and [math.radians]. *)
Variables sqrt cos sin radians : Q -> Q.

Variable cam : SimulatedCamera.
Variable state : Drone.DroneState.
Variable environment : Env.Environment.

(** The body of the [for i in range(self.num_rays)] loop of [capture]:
    the distance, type and height appended for ray [i]. *)
Definition cast_ray (i : nat) : Py.result (Q * string * Q) :=
  let yaw_rad := radians (Drone.yaw state) in
  let half_fov := radians (cam_fov_h cam / 2) in
  let frac := ray_frac (cam_num_rays cam) i in
  let ray_angle := yaw_rad + frac * 2 * half_fov in
  res <- Env.ray_cast sqrt environment
           (Drone.x state) (Drone.y state) (Drone.z state)
           (cos ray_angle) (sin ray_angle) (cam_max_range cam) ;;
  let dist := fst res in
  match snd res with
  | Some k =>
    match nth_error environment k with
    | Some obs => Py.Ok (dist, Env.type_value (Env.obstacle_type obs),
                         Env.height obs)
    | None => Py.Ok (dist, EmptyString, 0)   (* a reference always resolves *)
    end
  | None => Py.Ok (dist, EmptyString, 0)
  end.

Fixpoint capture_loop (range : list nat)
    (depths : list Q) (obstacle_types : list string)
    (obstacle_heights : list Q)
  : Py.result (list Q * list string * list Q) :=
  match range with
  | [] => Py.Ok (depths, obstacle_types, obstacle_heights)
  | i :: rest =>
    r <- cast_ray i ;;
    let '(dist, ty, h) := r in
    capture_loop rest (depths ++ [dist]) (obstacle_types ++ [ty])
                 (obstacle_heights ++ [h])
  end.

(** [capture]; [now] is the [time.time()] default of the frame's
    timestamp. *)
Definition capture (now : Q) : Py.result CameraFrame :=
  r <- capture_loop (seq 0 (cam_num_rays cam)) [] [] [] ;;
  let '(depths, obstacle_types, obstacle_heights) := r in
  Py.Ok (mkFrame depths obstacle_types obstacle_heights
           (cam_fov_h cam) (cam_num_rays cam) (cam_max_range cam)
           (Drone.yaw state) (Drone.z state) now).

End Capture.

(** *** A scan used to run the model *)

(** Heading 0 from (0, 0, 80) in the default environment, with the
    values of the [math] functions at heading 0 for every ray. *)
Definition scan_result : Py.result CameraFrame :=
  capture Env.sqrt_floor Sim.cos_at_0 Sim.sin_at_0 Sim.radians_at_0
    default_camera (Sim._state Sim.cruising) Env.default_environment 0.

Definition scan_frame : CameraFrame :=
  Eval vm_compute in
    match scan_result with
    | Py.Ok f => f
    | Py.Raise _ => mkFrame [] [] [] 0 0 0 0 0 0
    end.

End Camera.

(* ================================================================= *)
(** ** autopilot/flight_plan.py *)

Module Plan.

Inductive WaypointStatus : Set := PENDING | ACTIVE | REACHED | SKIPPED.

Record Waypoint : Set := mkWaypoint {
  wp_x : Z;
  wp_y : Z;
  wp_z : Z;
  wp_speed : Z;
  wp_hover_time : Q;
  wp_action : option string;
  wp_status : WaypointStatus
}.

Inductive FlightPlanStatus : Set := IDLE | RUNNING | PAUSED | COMPLETED | ABORTED.

Record FlightPlan : Set := mkPlan {
  name : string;
  waypoints : list Waypoint;
  loop : bool;
  status : FlightPlanStatus;
  current_index : nat
}.

Definition status_eqb (a b : FlightPlanStatus) : bool :=
  match a, b with
  | IDLE, IDLE | RUNNING, RUNNING | PAUSED, PAUSED
  | COMPLETED, COMPLETED | ABORTED, ABORTED => true
  | _, _ => false
  end.

Definition set_wp_status (st : WaypointStatus) (w : Waypoint) : Waypoint :=
  mkWaypoint (wp_x w) (wp_y w) (wp_z w) (wp_speed w) (wp_hover_time w)
             (wp_action w) st.

(** Flight plans are objects: the caller, the autopilot and its worker
    hold references to the same plan.  The store maps a reference (a
    position) to the plan object it denotes. *)
Definition ref : Set := nat.
Definition store : Set := list FlightPlan.

Definition deref (h : store) (r : ref) : option FlightPlan := nth_error h r.

Fixpoint assign (h : store) (r : ref) (p : FlightPlan) : store :=
  match h, r with
  | [], _ => []
  | _ :: t, O => p :: t
  | q :: t, S r' => q :: assign t r' p
  end.

(** The program state [load_plan] works on: the plan objects and the
    [_plan] attribute of the autopilot. *)
Record Autopilot : Set := mkAutopilot {
  heap : store;
  _plan : option ref
}.

(** [self._plan and self._plan.status == FlightPlanStatus.RUNNING] *)
Definition plan_running (a : Autopilot) : bool :=
  match _plan a with
  | None => false
  | Some c =>
    match deref (heap a) c with
    | Some p => status_eqb (status p) RUNNING
    | None => false
    end
  end.

Definition load_plan (plan : ref) (a : Autopilot)
  : Autopilot * Py.result unit :=
  if plan_running a then (a, Py.Raise Py.RuntimeError)
  else
    match deref (heap a) plan with
    | None => (mkAutopilot (heap a) (Some plan), Py.Ok tt)
    | Some p =>
      let p1 := mkPlan (name p) (waypoints p) (loop p) IDLE (current_index p) in
      let p2 := mkPlan (name p1) (waypoints p1) (loop p1) (status p1) 0 in
      let p3 := mkPlan (name p2) (map (set_wp_status PENDING) (waypoints p2))
                       (loop p2) (status p2) (current_index p2) in
      (mkAutopilot (assign (heap a) plan p3) (Some plan), Py.Ok tt)
    end.

(** [start], up to the launch of the worker thread. *)
Definition start (a : Autopilot) : Autopilot * Py.result unit :=
  match _plan a with
  | None => (a, Py.Raise Py.RuntimeError)
  | Some c =>
    match deref (heap a) c with
    | None => (a, Py.Raise Py.RuntimeError)
    | Some p =>
      if status_eqb (status p) RUNNING then (a, Py.Ok tt)
      else
        (mkAutopilot
           (assign (heap a) c
              (mkPlan (name p) (waypoints p) (loop p) RUNNING (current_index p)))
           (_plan a),
         Py.Ok tt)
    end
  end.

(** *** The executor: pause, resume, abort and the worker *)

Definition set_status (s : FlightPlanStatus) (p : FlightPlan) : FlightPlan :=
  mkPlan (name p) (waypoints p) (loop p) s (current_index p).

Definition set_index (i : nat) (p : FlightPlan) : FlightPlan :=
  mkPlan (name p) (waypoints p) (loop p) (status p) i.

(** [plan.waypoints[idx].status = s] *)
Fixpoint mark (idx : nat) (s : WaypointStatus) (ws : list Waypoint)
  : list Waypoint :=
  match ws, idx with
  | [], _ => []
  | w :: t, O => set_wp_status s w :: t
  | w :: t, S i => w :: mark i s t
  end.

Definition set_waypoints (ws : list Waypoint) (p : FlightPlan) : FlightPlan :=
  mkPlan (name p) ws (loop p) (status p) (current_index p).

(** The autopilot together with its [_stop_event]. *)
Record Executor : Set := mkExecutor {
  ap : Autopilot;
  _stop_event : bool
}.

(** Write the plan object behind the loaded reference. *)
Definition with_plan (c : ref) (p : FlightPlan) (e : Executor) : Executor :=
  mkExecutor (mkAutopilot (assign (heap (ap e)) c p) (_plan (ap e)))
             (_stop_event e).

Definition loaded (e : Executor) : option (ref * FlightPlan) :=
  match _plan (ap e) with
  | None => None
  | Some c =>
    match deref (heap (ap e)) c with
    | Some p => Some (c, p)
    | None => None
    end
  end.

(** [start] with the event cleared, up to the launch of the worker. *)
Definition start_ex (e : Executor) : Executor * Py.result unit :=
  match loaded e with
  | None => (e, Py.Raise Py.RuntimeError)
  | Some (c, p) =>
    if status_eqb (status p) RUNNING then (e, Py.Ok tt)
    else
      (mkExecutor (ap (with_plan c (set_status RUNNING p) e)) false, Py.Ok tt)
  end.

Definition pause (e : Executor) : Executor :=
  match loaded e with
  | Some (c, p) =>
    if status_eqb (status p) RUNNING then with_plan c (set_status PAUSED p) e
    else e
  | None => e
  end.

Definition resume (e : Executor) : Executor :=
  match loaded e with
  | Some (c, p) =>
    if status_eqb (status p) PAUSED then with_plan c (set_status RUNNING p) e
    else e
  | None => e
  end.

Definition abort (e : Executor) : Executor :=
  match loaded e with
  | Some (c, p) =>
    mkExecutor (ap (with_plan c (set_status ABORTED p) e)) true
  | None => mkExecutor (ap e) true
  end.

(** [load_plan] leaves the event alone. *)
Definition load_plan_ex (plan : ref) (e : Executor)
  : Executor * Py.result unit :=
  (mkExecutor (fst (load_plan plan (ap e))) (_stop_event e),
   snd (load_plan plan (ap e))).

(** How a pass through the [while True] of [_run] ends. *)
Inductive flow : Set := Again | Done.

Section Worker.

(** The drone behind the abstract [Drone] interface: its state and its
    blocking [go_to]. *)
Variable D : Type.
Variable go_to : Z -> Z -> Z -> Z -> D -> D * bool.

(** One pass through the body of the [while True] loop of [_run], for
    the worker started on the plan object [plan].  [interrupted] tells
    whether [abort] is called from another thread while [go_to] blocks;
    nothing else runs between two steps of the worker. *)
Definition worker_pass (plan : ref) (interrupted : bool)
    (e : Executor) (drone : D) : (Executor * D) * flow :=
  if _stop_event e then ((e, drone), Done)
  else
    match deref (heap (ap e)) plan with
    | None => ((e, drone), Done)       (* a reference always resolves *)
    | Some p =>
      if status_eqb (status p) PAUSED then ((e, drone), Again)
      else if negb (status_eqb (status p) RUNNING) then ((e, drone), Done)
      else
        let idx := current_index p in
        if (List.length (waypoints p) <=? idx)%nat then
          if loop p then
            let p1 := set_index 0 p in
            let p2 := set_waypoints (map (set_wp_status PENDING) (waypoints p1))
                                    p1 in
            ((mkExecutor (mkAutopilot (assign (heap (ap e)) plan p2)
                                      (_plan (ap e))) (_stop_event e),
              drone), Again)
          else
            ((mkExecutor (mkAutopilot
                            (assign (heap (ap e)) plan (set_status COMPLETED p))
                            (_plan (ap e))) (_stop_event e),
              drone), Done)
        else
          match nth_error (waypoints p) idx with
          | None => ((e, drone), Done)  (* idx < len(waypoints) here *)
          | Some wp =>
            let p1 := set_waypoints (mark idx ACTIVE (waypoints p)) p in
            let e1 := mkExecutor (mkAutopilot (assign (heap (ap e)) plan p1)
                                              (_plan (ap e))) (_stop_event e) in
            let drone1 := fst (go_to (wp_x wp) (wp_y wp) (wp_z wp)
                                     (wp_speed wp) drone) in
            let success := snd (go_to (wp_x wp) (wp_y wp) (wp_z wp)
                                      (wp_speed wp) drone) in
            let e2 := if interrupted then abort e1 else e1 in
            if _stop_event e2 then ((e2, drone1), Done)
            else
              match deref (heap (ap e2)) plan with
              | None => ((e2, drone1), Done)
              | Some q =>
                let q1 := set_waypoints
                            (mark idx (if success then REACHED else SKIPPED)
                                  (waypoints q)) q in
                let q2 := set_index (idx + 1) q1 in
                ((mkExecutor (mkAutopilot (assign (heap (ap e2)) plan q2)
                                          (_plan (ap e2))) (_stop_event e2),
                  drone1), Again)
              end
          end
    end.

(** The worker, run for at most as many passes as [schedule] has
    entries; each entry is the [interrupted] flag of its pass.  [None]:
    the worker is still looping when the schedule runs out. *)
Fixpoint worker_run (plan : ref) (schedule : list bool)
    (e : Executor) (drone : D) : option (Executor * D) :=
  match schedule with
  | [] => None
  | b :: rest =>
    match worker_pass plan b e drone with
    | (out, Done) => Some out
    | ((e1, drone1), Again) => worker_run plan rest e1 drone1
    end
  end.

End Worker.

(** *** Plans used to run the model *)

(** A finished two-waypoint mission and a fresh one. *)
Definition flown : FlightPlan :=
  mkPlan "Square"
    [ mkWaypoint 100 100 100 40 1 None REACHED;
      mkWaypoint (-100) 100 100 40 1 None SKIPPED ]
    false COMPLETED 2.

Definition fresh : FlightPlan :=
  mkPlan "Circle" [ mkWaypoint 150 0 100 30 0 None PENDING ] false IDLE 0.


(** A mission under way at its second waypoint, loaded in an executor;
    and a drone interface whose [go_to] always succeeds. *)
Definition mission : FlightPlan :=
  mkPlan "Square"
    [ mkWaypoint 100 100 100 40 1 None REACHED;
      mkWaypoint (-100) 100 100 40 1 None PENDING;
      mkWaypoint (-100) (-100) 100 40 1 None PENDING;
      mkWaypoint 100 (-100) 100 40 1 None PENDING ]
    false RUNNING 1.

Definition flying : Executor :=
  mkExecutor (mkAutopilot [mission; fresh] (Some 0%nat)) false.

Definition obedient (tx ty tz spd : Z) (d : unit) : unit * bool := (tt, true).

End Plan.

(* ================================================================= *)
(** ** autopilot/obstacle_avoidance.py *)

Module Nav.
Import Camera.

Definition SAFETY_DISTANCE : Q := 100.
Definition CRITICAL_DISTANCE : Q := 50.
Definition CRUISE_SPEED : Z := 45.
Definition ARRIVAL_RADIUS : Q := 35.
Definition NAV_HZ : Z := 10.

(** [start] and [end] of zone [z] in [_compute_commands]. *)
Definition zone_bounds (n z : nat) : nat * nat :=
  let zone_size := (n / 5)%nat in
  let start := (z * zone_size)%nat in
  let stop := if (z <? 4)%nat then (start + zone_size)%nat else n in
  (start, stop).

(** [zone_depths] of zone [z]. *)
Definition zone_depths (depths : list Q) (n z : nat) : list Q :=
  Py.slice depths (fst (zone_bounds n z)) (snd (zone_bounds n z)).

(** The [for z in range(5)] loop that fills [zones]. *)
Fixpoint zones_loop (depths : list Q) (n : nat) (range : list nat)
    (zones : list Q) : Py.result (list Q) :=
  match range with
  | [] => Py.Ok zones
  | z :: rest =>
    m <- Py.min_list (zone_depths depths n z) ;;
    zones_loop depths n rest (zones ++ [m])
  end.

Definition compute_zones (depths : list Q) (n : nat) : Py.result (list Q) :=
  zones_loop depths n (seq 0 5) [].

(** [zones[k]]; the list has five elements when it is read. *)
Definition zone (zones : list Q) (k : nat) : Q := nth k zones 0.

(** [_compute_commands] after the zone loop.  Returns
    [(yaw_cmd, fwd_cmd, alt_cmd)] and the value written to
    [_avoidance_action]. *)
Definition steer (zones : list Q) (state : Drone.DroneState)
    (goal_bearing goal_alt : Q) : (Z * Z * Z) * string :=
  let center_clear := zone zones 2 in
  let left_clear := Py.min (zone zones 0) (zone zones 1) in
  let right_clear := Py.min (zone zones 3) (zone zones 4) in
  let best_left := Py.max (zone zones 0) (zone zones 1) in
  let best_right := Py.max (zone zones 3) (zone zones 4) in
  let heading_error :=
    Py.fmod (goal_bearing - Drone.yaw state + 180) 360 - 180 in
  let alt_error := goal_alt - Drone.z state in
  let alt_cmd := Py.int (Py.max (-30) (Py.min 30 (alt_error * (1 # 2)))) in
  let yaw_cmd := Py.int (Py.max (-60) (Py.min 60 (heading_error * (4 # 5)))) in
  let fwd_cmd := CRUISE_SPEED in
  if Py.ltb center_clear CRITICAL_DISTANCE then
    let fwd_cmd := (-20)%Z in
    let yaw_cmd := if Py.ltb best_right best_left then (-70)%Z else 70%Z in
    ((yaw_cmd, fwd_cmd, alt_cmd), "critical"%string)
  else if Py.ltb center_clear SAFETY_DISTANCE then
    let ratio := center_clear / SAFETY_DISTANCE in
    let fwd_cmd := Z.max 10 (Py.int (inject_Z CRUISE_SPEED * ratio)) in
    let yaw_cmd :=
      if Py.ltb heading_error 0 then
        if Py.ltb CRITICAL_DISTANCE best_left then (-50)%Z
        else if Py.ltb CRITICAL_DISTANCE best_right then 50%Z
        else if Py.leb best_right best_left then (-50)%Z else 50%Z
      else
        if Py.ltb CRITICAL_DISTANCE best_right then 50%Z
        else if Py.ltb CRITICAL_DISTANCE best_left then (-50)%Z
        else if Py.leb best_left best_right then 50%Z else (-50)%Z in
    ((yaw_cmd, fwd_cmd, alt_cmd), "avoiding"%string)
  else
    let yaw_cmd :=
      if Py.ltb (zone zones 0) (SAFETY_DISTANCE * (6 # 10))
      then Z.max yaw_cmd 15 else yaw_cmd in
    let yaw_cmd :=
      if Py.ltb (zone zones 4) (SAFETY_DISTANCE * (6 # 10))
      then Z.min yaw_cmd (-15) else yaw_cmd in
    ((yaw_cmd, fwd_cmd, alt_cmd), "clear"%string).

Definition _compute_commands (frame : CameraFrame) (state : Drone.DroneState)
    (goal_bearing goal_alt : Q) : Py.result ((Z * Z * Z) * string) :=
  let depths := depths frame in
  let n := num_rays frame in
  zones <- compute_zones depths n ;;
  Py.Ok (steer zones state goal_bearing goal_alt).

(** The stick values [_nav_loop] hands to [send_rc] for this frame:
    [send_rc(0, fwd_cmd, alt_cmd, yaw_cmd)]. *)
Definition rc_command (frame : CameraFrame) (state : Drone.DroneState)
    (goal_bearing goal_alt : Q) : Py.result (Z * Z * Z * Z) :=
  r <- _compute_commands frame state goal_bearing goal_alt ;;
  let '((yaw_cmd, fwd_cmd, alt_cmd), _) := r in
  Py.Ok (0%Z, fwd_cmd, alt_cmd, yaw_cmd).

(** *** The policy's words, for comparison *)

(** [clamp(v, lo, hi)] *)
Definition clamp (v lo hi : Q) : Q :=
  if Py.ltb v lo then lo else if Py.ltb hi v then hi else v.

(** *** The navigator object and its loop *)

Record AutonomousNavigator : Set := mkNav {
  _destination : option (Q * Q * Q);
  _active : bool;
  _last_frame : option CameraFrame;
  _status : string;
  _avoidance_action : string;
  _reached : bool
}.

(** [AutonomousNavigator(drone, environment, camera)]; the three
    collaborators are passed to the operations that use them. *)
Definition new_navigator : AutonomousNavigator :=
  mkNav None false None "idle" "none" false.

Definition set_destination (gx gy gz : Q) (nav : AutonomousNavigator)
  : AutonomousNavigator :=
  mkNav (Some (gx, gy, gz)) (_active nav) (_last_frame nav)
        "destination_set" (_avoidance_action nav) false.

(** [start], up to the launch of the thread that runs [_nav_loop]. *)
Definition start (nav : AutonomousNavigator)
  : AutonomousNavigator * Py.result unit :=
  if _active nav then (nav, Py.Ok tt)
  else
    match _destination nav with
    | None => (nav, Py.Raise Py.RuntimeError)
    | Some _ =>
      (mkNav (_destination nav) true (_last_frame nav) "navigating"
             (_avoidance_action nav) false,
       Py.Ok tt)
    end.

Definition stop (nav : AutonomousNavigator) (drone : Sim.SimulatedDrone)
  : AutonomousNavigator * Sim.SimulatedDrone :=
  (mkNav (_destination nav) false (_last_frame nav) "stopped"
         (_avoidance_action nav) (_reached nav),
   fst (Sim.send_rc 0 0 0 0 drone)).

(** How a pass through [_nav_loop] ends: with the next pass, or with the
    loop left and the motors idled. *)
Inductive flow : Set := Continue | Exit.

Section Loop.

(** [math.sqrt], [math.cos], [math.sin], [math.radians], [math.atan2]
    and [math.degrees]. *)
Variables sqrt cos sin radians : Q -> Q.
Variable atan2 : Q -> Q -> Q.
Variable degrees : Q -> Q.

Variable environment : Env.Environment.
Variable camera : SimulatedCamera.

(** One evaluation of the [while self._active] test of [_nav_loop]
    followed, when it holds, by the loop body, and otherwise (or after
    [break]) by the [send_rc(0, 0, 0, 0)] that ends the method.  A raised
    exception ends the thread where it is.  The drone is the simulated
    backend; [now] is the wall-clock time of the pass. *)
Definition nav_step (now : Q) (nav : AutonomousNavigator)
    (drone : Sim.SimulatedDrone)
  : (AutonomousNavigator * Sim.SimulatedDrone) * Py.result flow :=
  if negb (_active nav) then
    ((nav, fst (Sim.send_rc 0 0 0 0 drone)), Py.Ok Exit)
  else
    let drone1 := fst (Sim.get_state now drone) in
    let state := snd (Sim.get_state now drone) in
    if negb (Drone.is_flying state) then ((nav, drone1), Py.Ok Continue)
    else
      match capture sqrt cos sin radians camera state environment now with
      | Py.Raise e => ((nav, drone1), Py.Raise e)
      | Py.Ok frame =>
        let nav1 := mkNav (_destination nav) (_active nav) (Some frame)
                          (_status nav) (_avoidance_action nav)
                          (_reached nav) in
        match _destination nav1 with
        | None => ((nav1, drone1), Py.Ok Continue)
        | Some (gx, gy, gz) =>
          let dist_to_goal :=
            sqrt ((Drone.x state - gx) ^ 2 + (Drone.y state - gy) ^ 2
                  + (Drone.z state - gz) ^ 2) in
          if Py.ltb dist_to_goal ARRIVAL_RADIUS then
            let drone2 := fst (Sim.send_rc 0 0 0 0 drone1) in
            let nav2 := mkNav (_destination nav1) false (_last_frame nav1)
                              "reached" "none" true in
            ((nav2, fst (Sim.send_rc 0 0 0 0 drone2)), Py.Ok Exit)
          else
            let goal_bearing :=
              Py.fmod (degrees (atan2 (gy - Drone.y state)
                                      (gx - Drone.x state))) 360 in
            match _compute_commands frame state goal_bearing gz with
            | Py.Raise e => ((nav1, drone1), Py.Raise e)
            | Py.Ok ((yaw_cmd, fwd_cmd, alt_cmd), action) =>
              let nav2 := mkNav (_destination nav1) (_active nav1)
                                (_last_frame nav1) (_status nav1) action
                                (_reached nav1) in
              ((nav2,
                fst (Sim.send_rc 0 (inject_Z fwd_cmd) (inject_Z alt_cmd)
                       (inject_Z yaw_cmd) drone1)),
               Py.Ok Continue)
            end
        end
      end.

End Loop.

(** *** Frames used to run the model *)

(** A scan of [n] rays that all reach the range limit of 500 cm. *)
Definition open_frame (n : nat) : CameraFrame :=
  mkFrame (repeat 500 n) (repeat EmptyString n) (repeat 0 n) 70 n 500 0 80 0.

(** A hovering drone at the origin, heading along +x. *)
Definition hovering : Drone.DroneState :=
  Drone.mkState 0 0 80 0 0 100 true true 0 25 0.


(** The values of [math.atan2] and [math.degrees] for a goal straight
    ahead on the x axis. *)
Definition atan2_ahead (dy dx : Q) : Q := 0.
Definition degrees_ahead (a : Q) : Q := 0.

(** A navigator under way to (300, 0, 80), and one whose destination is
    where the drone of [Sim.cruising] hovers. *)
Definition seeking : AutonomousNavigator :=
  mkNav (Some (300, 0, 80)) true None "navigating" "none" false.
Definition arriving : AutonomousNavigator :=
  mkNav (Some (0, 0, 80)) true None "navigating" "none" false.

(** A camera of three rays and what it sees from [Sim.cruising]. *)
Definition narrow_camera : SimulatedCamera := mkCamera 70 3 500.

Definition narrow_scan : CameraFrame :=
  Eval vm_compute in
    match capture Env.sqrt_floor Sim.cos_at_0 Sim.sin_at_0 Sim.radians_at_0
            narrow_camera (snd (Sim.get_state 0 Sim.cruising))
            Env.default_environment 0 with
    | Py.Ok f => f
    | Py.Raise _ => open_frame 0
    end.

(** One pass of the loop for [seeking] over [Sim.cruising]. *)
Definition seeking_pass
  : (AutonomousNavigator * Sim.SimulatedDrone) * Py.result flow :=
  Eval vm_compute in
    nav_step Env.sqrt_floor Sim.cos_at_0 Sim.sin_at_0 Sim.radians_at_0
      atan2_ahead degrees_ahead Env.default_environment default_camera
      0 seeking Sim.cruising.

End Nav.

(* ================================================================= *)
(** * Properties *)

Module PyFacts.
Import Py.

Lemma ltb_lt a b : ltb a b = true <-> a < b.
Proof.
  unfold ltb. rewrite negb_true_iff.
  split; intro H.
  - apply Qnot_le_lt. intro Hle. apply Qle_bool_iff in Hle. congruence.
  - destruct (Qle_bool b a) eqn:E; [|reflexivity].
    apply Qle_bool_iff in E. exfalso. apply (Qlt_not_le _ _ H E).
Qed.

Lemma ltb_ge a b : ltb a b = false <-> b <= a.
Proof.
  unfold ltb. rewrite negb_false_iff. apply Qle_bool_iff.
Qed.

Lemma leb_le a b : leb a b = true <-> a <= b.
Proof. apply Qle_bool_iff. Qed.

Lemma leb_gt a b : leb a b = false <-> b < a.
Proof.
  unfold leb. split; intro H.
  - apply Qnot_le_lt. intro Hle. apply Qle_bool_iff in Hle. congruence.
  - destruct (Qle_bool a b) eqn:E; [|reflexivity].
    apply Qle_bool_iff in E. exfalso. apply (Qlt_not_le _ _ H E).
Qed.

Lemma min_spec a b : (b < a /\ min a b = b) \/ (a <= b /\ min a b = a).
Proof.
  unfold min. destruct (ltb b a) eqn:E.
  - left. split; [now apply ltb_lt|reflexivity].
  - right. split; [now apply ltb_ge|reflexivity].
Qed.

Lemma max_spec a b : (a < b /\ max a b = b) \/ (b <= a /\ max a b = a).
Proof.
  unfold max. destruct (ltb a b) eqn:E.
  - left. split; [now apply ltb_lt|reflexivity].
  - right. split; [now apply ltb_ge|reflexivity].
Qed.

Lemma fmod_range a m : 0 < m -> 0 <= fmod a m /\ fmod a m < m.
Proof.
  intro Hm. unfold fmod.
  assert (Hlo := Qfloor_le (a / m)).
  assert (Hhi := Qlt_floor (a / m)).
  assert (Hq : a == m * (a / m)).
  { field. intro E. rewrite E in Hm. apply (Qlt_irrefl _ Hm). }
  set (f := inject_Z (Qfloor (a / m))) in *.
  assert (Hhi' : a / m < f + 1).
  { unfold f. rewrite <- (inject_Z_plus _ 1). exact Hhi. }
  clear Hhi. revert Hq Hlo Hhi'. generalize (a / m). intros q Hq Hlo Hhi.
  split; [ nra | nra ].
Qed.

(** [lra] reads a quotient as an atom; halves are given to it as products. *)
Lemma half_eq w : w / 2 == w * (1 # 2).
Proof. field. Qed.

Lemma int_wd p q : p == q -> int p = int q.
Proof.
  intro H. unfold int, leb.
  rewrite (Qleb_comp 0 0 (Qeq_refl 0) p q H).
  rewrite (Qfloor_comp p q H), (Qceiling_comp p q H). reflexivity.
Qed.

Lemma min_list_raise l e : min_list l = Raise e <-> l = [] /\ e = ValueError.
Proof.
  destruct l; simpl; split.
  - now intros [= <-].
  - now intros [_ ->].
  - discriminate.
  - intros [[=] _].
Qed.

Lemma fold_min_spec t : forall h,
  let m := fold_left (fun acc v => if ltb v acc then v else acc) t h in
  In m (h :: t) /\ forall v, In v (h :: t) -> m <= v.
Proof.
  induction t as [|a t IH]; intro h; simpl.
  - split; [now left|]. intros v [<-|[]]. apply Qle_refl.
  - destruct (ltb a h) eqn:E.
    + destruct (IH a) as [Hin Hle]. apply ltb_lt in E. split.
      * right. exact Hin.
      * intros v [<-|Hv]; [|now apply Hle].
        apply Qle_trans with a; [apply Hle; now left|now apply Qlt_le_weak].
    + destruct (IH h) as [Hin Hle]. apply ltb_ge in E. split.
      * destruct Hin as [Hin|Hin]; [now left|right; now right].
      * intros v [<-|[<-|Hv]].
        -- apply Hle. now left.
        -- apply Qle_trans with h; [apply Hle; now left|exact E].
        -- apply Hle. now right.
Qed.

(** [min(seq)] returns an element of the sequence below all others. *)
Lemma min_list_ok l m :
  min_list l = Ok m -> In m l /\ forall v, In v l -> m <= v.
Proof.
  destruct l as [|h t]; simpl; [discriminate|].
  intros [= <-]. apply (fold_min_spec t h).
Qed.

Lemma min_list_nonempty l : l <> [] -> exists m, min_list l = Ok m.
Proof.
  destruct l; [congruence|]. intros _. simpl. eauto.
Qed.

Lemma slice_length {A} (l : list A) a b :
  List.length (slice l a b) = (Nat.min b (List.length l) - a)%nat.
Proof.
  unfold slice. now rewrite length_skipn, length_firstn.
Qed.

(** Adjacent slices join. *)
Lemma slice_app {A} (l : list A) a b c :
  (a <= b)%nat -> (b <= c)%nat -> slice l a b ++ slice l b c = slice l a c.
Proof.
  intros Hab Hbc. unfold slice.
  assert (Hm : firstn c l = firstn b l ++ skipn b (firstn c l)).
  { rewrite <- (firstn_skipn b (firstn c l)) at 1.
    rewrite firstn_firstn. now rewrite Nat.min_l by exact Hbc. }
  rewrite Hm at 2. rewrite skipn_app. f_equal.
  rewrite length_firstn.
  destruct (Nat.le_gt_cases b (List.length l)) as [Hl|Hl].
  - rewrite Nat.min_l by exact Hl.
    replace (a - b)%nat with 0%nat by lia. reflexivity.
  - assert (E : skipn b (firstn c l) = []).
    { apply skipn_all2. rewrite length_firstn. lia. }
    rewrite E. now rewrite skipn_nil.
Qed.

End PyFacts.

(* ================================================================= *)
(** ** Binary64 *)

Module Float64Facts.
Import PrimFloat Float64.

(** Halving underflows at the bottom of the format: the least positive
    float is positive but its half is [0.0], so the strict footprint test
    of [check_collision] fails at the very centre of a box that wide;
    from twice that width on, the half is positive and the test holds. *)
Lemma half_of_least :
  ltb zero least = true /\
  eqb (div least (of_int 2)) zero = true /\
  check_collision_box zero zero zero least one (of_int 10)
    zero zero zero zero = false /\
  ltb zero (div twice_least (of_int 2)) = true /\
  check_collision_box zero zero zero twice_least one (of_int 10)
    zero zero zero zero = true.
Proof. repeat split; vm_compute; reflexivity. Qed.

Lemma twice_least_value :
  exists q, to_Q twice_least = Some q /\ q == min_halvable.
Proof. eexists. split; [vm_compute; reflexivity|]. vm_compute. reflexivity. Qed.

(** [%] agrees with the exact remainder where no rounding occurs, and
    returns the modulus itself for a small negative left operand. *)
Lemma rem_examples :
  rem (of_int 725) (of_int 360) = Py.Ok (of_int 5) /\
  rem (of_int (-1)) (of_int 360) = Py.Ok (of_int 359) /\
  rem (opp least) (of_int 360) = Py.Ok (of_int 360) /\
  rem one zero = Py.Raise Py.ZeroDivisionError.
Proof. repeat split; vm_compute; reflexivity. Qed.

End Float64Facts.

(** Turning the boolean comparisons of the model into propositions. *)
Ltac qprop :=
  repeat match goal with
  | H : Py.ltb _ _ = true |- _ => apply PyFacts.ltb_lt in H
  | H : Py.ltb _ _ = false |- _ => apply PyFacts.ltb_ge in H
  | H : Py.leb _ _ = true |- _ => apply PyFacts.leb_le in H
  | H : Py.leb _ _ = false |- _ => apply PyFacts.leb_gt in H
  | H : _ && _ = true |- _ => apply andb_true_iff in H; destruct H
  | H : _ || _ = false |- _ => apply orb_false_iff in H; destruct H
  | H : negb _ = true |- _ => apply negb_true_iff in H
  | H : negb _ = false |- _ => apply negb_false_iff in H
  end.

(* ================================================================= *)
(** ** The ray-caster *)

Module EnvFacts.
Import Env.

(** Case split on the innermost comparison of the goal, discarding the
    cases linear arithmetic refutes. *)
Ltac qcase :=
  match goal with
  | |- context [Qle_bool ?a ?b] =>
    lazymatch a with context [Qle_bool _ _] => fail | _ => idtac end;
    lazymatch b with context [Qle_bool _ _] => fail | _ => idtac end;
    let E := fresh "E" in
    destruct (Qle_bool a b) eqn:E;
    [ apply Qle_bool_iff in E | apply PyFacts.leb_gt in E ];
    cbn [negb andb orb option_map]; try (exfalso; lra)
  end.

(** C3 (amended).  For every box, origin, direction and [max_range] below
    [1e18], the AABB ray test is the slab method of the specification:
    with [EPS = 1e-9], an axis with [|dir| < EPS] misses unless the origin
    lies within the slab and then contributes [(-oo, +oo)]; [t_enter] is
    the larger [t_min], [t_exit] the smaller [t_max]; the ray misses iff
    [t_enter > t_exit] or [t_exit < 0]; the distance is [t_enter] when
    non-negative and [t_exit] otherwise; it is rejected iff above
    [max_range] or negative.  (The code writes the infinities as the
    finite literals [-1e18] and [1e18].) *)
Theorem aabb_slab_method o ox oy dx dy max_range :
  max_range < BIG ->
  option_map Fin (_ray_aabb_intersect o ox oy dx dy max_range) =
  ray_aabb_spec o ox oy dx dy max_range.
Proof.
  intro Hr. unfold _ray_aabb_intersect, ray_aabb_spec, slab_spec.
  generalize ((x o - width o / 2 - ox) / dx) ((x o + width o / 2 - ox) / dx)
             ((y o - depth o / 2 - oy) / dy) ((y o + depth o / 2 - oy) / dy).
  generalize (x o - width o / 2) (x o + width o / 2)
             (y o - depth o / 2) (y o + depth o / 2).
  intros xl xh yl yh a1 a2 b1 b2.
  unfold BIG in *.
  destruct (Py.ltb (Qabs dx) EPS), (Py.ltb (Qabs dy) EPS);
    unfold Py.min, Py.max, ext_min, ext_max, ext_leb, ext_ltb, Py.ltb, Py.leb;
    cbn [negb andb orb option_map].
  all: repeat qcase.
  all: reflexivity.
Qed.

Section RayCaster.

Variable sqrt : Q -> Q.

Lemma ray_intersect_2d_returns o ox oy dx dy max_range :
  ~ dx * dx + dy * dy == 0 ->
  exists r, ray_intersect_2d sqrt o ox oy dx dy max_range = Py.Ok r.
Proof.
  intro Hdir. unfold ray_intersect_2d.
  destruct (is_cylindrical o); [|eauto].
  unfold _ray_circle_intersect.
  destruct (Py.ltb _ 0); [eauto|].
  destruct (Qeq_bool (2 * (dx * dx + dy * dy)) 0) eqn:E.
  - apply Qeq_bool_iff in E. exfalso. apply Hdir. lra.
  - destruct (_ || _); eauto.
Qed.

(** What the loop of [ray_cast] returns from position [i] on, entered
    with the running minimum [nd] and the running reference [no]. *)
Lemma ray_cast_loop_spec ox oy oz dx dy max_range :
  ~ dx * dx + dy * dy == 0 ->
  forall obs i nd no,
  exists d r,
    ray_cast_loop sqrt ox oy oz dx dy max_range obs i nd no = Py.Ok (d, r) /\
    d <= nd /\
    (forall j o t, nth_error obs j = Some o ->
       pierced sqrt o ox oy oz dx dy max_range t -> d <= t) /\
    ((r = no /\ d = nd) \/
     (exists k o, r = Some (i + k)%nat /\ nth_error obs k = Some o /\
        pierced sqrt o ox oy oz dx dy max_range d /\ d < nd /\
        forall j o' t, (j < k)%nat -> nth_error obs j = Some o' ->
          pierced sqrt o' ox oy oz dx dy max_range t -> d < t)).
Proof.
  intros Hdir obs.
  induction obs as [|o rest IH]; intros i nd no; simpl.
  - exists nd, no. split; [reflexivity|]. split; [apply Qle_refl|].
    split; [|left; auto].
    intros [|j] o t Hj; discriminate.
  - destruct (overlaps_altitude o oz default_margin) eqn:Hov; simpl.
    + destruct (ray_intersect_2d_returns o ox oy dx dy max_range Hdir)
        as [[d0|] Hr]; rewrite Hr; simpl.
      * destruct (Py.ltb d0 nd) eqn:Hlt; qprop.
        -- destruct (IH (S i) d0 (Some i)) as (d & r & Heq & Hle & Hall & Hwho).
           exists d, r. split; [exact Heq|].
           split; [apply Qle_trans with d0; [exact Hle | apply Qlt_le_weak, Hlt]|].
           split.
           { intros [|j] o' t Hj Hp; simpl in Hj.
             - injection Hj as <-. destruct Hp as [_ Hp]. rewrite Hr in Hp.
               injection Hp as <-. exact Hle.
             - eapply Hall; eauto. }
           right. destruct Hwho as [[-> ->] | (k & o' & -> & Hk & Hp & Hlt' & Hfirst)].
           { exists 0%nat, o. rewrite Nat.add_0_r.
             repeat split; auto. intros j o' t Hj; lia. }
           { exists (S k), o'. rewrite Nat.add_succ_r.
             repeat split; auto; try apply Hp.
             - apply Qlt_trans with d0; assumption.
             - intros [|j] o2 t Hj Hj2 Hp2; simpl in Hj2.
               + injection Hj2 as <-. destruct Hp2 as [_ Hp2].
                 rewrite Hr in Hp2. injection Hp2 as <-. exact Hlt'.
               + apply (Hfirst j o2 t); auto. lia. }
        -- destruct (IH (S i) nd no) as (d & r & Heq & Hle & Hall & Hwho).
           exists d, r. split; [exact Heq|]. split; [exact Hle|].
           split.
           { intros [|j] o' t Hj Hp; simpl in Hj.
             - injection Hj as <-. destruct Hp as [_ Hp]. rewrite Hr in Hp.
               injection Hp as <-. apply Qle_trans with nd; assumption.
             - eapply Hall; eauto. }
           destruct Hwho as [[-> ->] | (k & o' & -> & Hk & Hp & Hlt' & Hfirst)];
             [left; auto|right].
           exists (S k), o'. rewrite Nat.add_succ_r.
           repeat split; auto; try apply Hp.
           intros [|j] o2 t Hj Hj2 Hp2; simpl in Hj2.
           ++ injection Hj2 as <-. destruct Hp2 as [_ Hp2].
              rewrite Hr in Hp2. injection Hp2 as <-.
              apply Qlt_le_trans with nd; assumption.
           ++ apply (Hfirst j o2 t); auto. lia.
      * destruct (IH (S i) nd no) as (d & r & Heq & Hle & Hall & Hwho).
        exists d, r. split; [exact Heq|]. split; [exact Hle|].
        split.
        { intros [|j] o' t Hj Hp; simpl in Hj.
          - injection Hj as <-. destruct Hp as [_ Hp]. rewrite Hr in Hp.
            discriminate.
          - eapply Hall; eauto. }
        destruct Hwho as [[-> ->] | (k & o' & -> & Hk & Hp & Hlt' & Hfirst)];
          [left; auto|right].
        exists (S k), o'. rewrite Nat.add_succ_r.
        repeat split; auto; try apply Hp.
        intros [|j] o2 t Hj Hj2 Hp2; simpl in Hj2.
        -- injection Hj2 as <-. destruct Hp2 as [_ Hp2].
           rewrite Hr in Hp2. discriminate.
        -- apply (Hfirst j o2 t); auto. lia.
    + destruct (IH (S i) nd no) as (d & r & Heq & Hle & Hall & Hwho).
      exists d, r. split; [exact Heq|]. split; [exact Hle|].
      split.
      { intros [|j] o' t Hj Hp; simpl in Hj.
        - injection Hj as <-. destruct Hp as [Hp _]. congruence.
        - eapply Hall; eauto. }
      destruct Hwho as [[-> ->] | (k & o' & -> & Hk & Hp & Hlt' & Hfirst)];
        [left; auto|right].
      exists (S k), o'. rewrite Nat.add_succ_r.
      repeat split; auto; try apply Hp.
      intros [|j] o2 t Hj Hj2 Hp2; simpl in Hj2.
      * injection Hj2 as <-. destruct Hp2 as [Hp2 _]. congruence.
      * apply (Hfirst j o2 t); auto. lia.
Qed.


(** The reference returned by the loop is the one it was entered with or
    the position of an altitude-overlapping obstacle.  No assumption on
    the direction: a run that raises returns nothing. *)
Lemma ray_cast_loop_ref ox oy oz dx dy max_range :
  forall obs i nd no d r,
    ray_cast_loop sqrt ox oy oz dx dy max_range obs i nd no = Py.Ok (d, r) ->
    r = no \/
    exists k o, r = Some (i + k)%nat /\ nth_error obs k = Some o /\
      overlaps_altitude o oz default_margin = true.
Proof.
  induction obs as [|o rest IH]; intros i nd no d r; simpl.
  - intros [= _ <-]. now left.
  - assert (Hshift : forall nd' no',
      ray_cast_loop sqrt ox oy oz dx dy max_range rest (S i) nd' no'
        = Py.Ok (d, r) ->
      r = no' \/
      exists k o', r = Some (i + k)%nat /\ nth_error (o :: rest) k = Some o' /\
        overlaps_altitude o' oz default_margin = true).
    { intros nd' no' H. destruct (IH _ _ _ _ _ H) as [->|(k & o' & -> & Hk & Ho)].
      - now left.
      - right. exists (S k), o'. rewrite Nat.add_succ_r. auto. }
    destruct (overlaps_altitude o oz default_margin) eqn:Hov; simpl.
    + destruct (ray_intersect_2d sqrt o ox oy dx dy max_range) as [[d0|]|e];
        simpl; try discriminate; try apply Hshift.
      destruct (Py.ltb d0 nd); [|apply Hshift].
      intro H. destruct (Hshift _ _ H) as [->|Hk]; [|now right].
      right. exists 0%nat, o. rewrite Nat.add_0_r. auto.
    + apply Hshift.
Qed.

(** Exchanging an obstacle outside the altitude gate for another one
    outside it changes nothing. *)
Lemma ray_cast_loop_skip ox oy oz dx dy max_range o o' post :
  overlaps_altitude o oz default_margin = false ->
  overlaps_altitude o' oz default_margin = false ->
  forall pre i nd no,
    ray_cast_loop sqrt ox oy oz dx dy max_range (pre ++ o :: post) i nd no =
    ray_cast_loop sqrt ox oy oz dx dy max_range (pre ++ o' :: post) i nd no.
Proof.
  intros Ho Ho'. induction pre as [|p pre IH]; intros i nd no; simpl.
  - now rewrite Ho, Ho'.
  - destruct (negb _); [apply IH|].
    destruct (ray_intersect_2d sqrt p ox oy dx dy max_range) as [[d0|]|e];
      simpl; auto.
    destruct (Py.ltb d0 nd); apply IH.
Qed.

Lemma overlaps_altitude_iff o z margin :
  overlaps_altitude o z margin = true <->
  z + margin >= z_base o /\ z - margin <= z_base o + height o.
Proof.
  unfold overlaps_altitude. rewrite andb_true_iff, !PyFacts.leb_le. tauto.
Qed.

(** C1 (amended).  For a direction that is not the null vector (as the
    cosine and sine of an angle never are), [ray_cast] returns a pair
    [(d, r)]: [d] is at most [max_range] and at most the distance of every
    altitude-overlapping obstacle the ray pierces; when an obstacle is
    returned it overlaps the altitude, is pierced at exactly [d], [d] is
    strictly below [max_range], and every obstacle inserted before it is
    pierced strictly farther away; when none is returned [d] is
    [max_range]; none is returned exactly when no obstacle is pierced
    strictly below [max_range]; and when nothing is pierced at all the
    result is [(max_range, None)]. *)
Theorem ray_cast_nearest env ox oy oz dx dy max_range :
  ~ dx * dx + dy * dy == 0 ->
  exists d r,
    ray_cast sqrt env ox oy oz dx dy max_range = Py.Ok (d, r) /\
    d <= max_range /\
    (forall j o t, nth_error env j = Some o ->
       pierced sqrt o ox oy oz dx dy max_range t -> d <= t) /\
    match r with
    | Some i =>
      exists o, nth_error env i = Some o /\
        pierced sqrt o ox oy oz dx dy max_range d /\ d < max_range /\
        forall j o' t, (j < i)%nat -> nth_error env j = Some o' ->
          pierced sqrt o' ox oy oz dx dy max_range t -> d < t
    | None => d = max_range
    end /\
    (r = None <->
       forall j o t, nth_error env j = Some o ->
         pierced sqrt o ox oy oz dx dy max_range t -> max_range <= t) /\
    ((forall j o t, nth_error env j = Some o ->
         ~ pierced sqrt o ox oy oz dx dy max_range t) ->
     (d, r) = (max_range, None)).
Proof.
  intro Hdir. unfold ray_cast.
  destruct (ray_cast_loop_spec ox oy oz dx dy max_range Hdir env 0%nat
              max_range None) as (d & r & Heq & Hle & Hall & Hwho).
  exists d, r. split; [exact Heq|]. split; [exact Hle|]. split; [exact Hall|].
  destruct Hwho as [[-> ->] | (k & o & -> & Hk & Hp & Hlt & Hfirst)]; simpl.
  - split; [reflexivity|]. split; [|reflexivity].
    split; [intros _; exact Hall|reflexivity].
  - split; [exists o; auto|]. split.
    + split; [discriminate|]. intro Hfar. exfalso.
      apply (Qlt_not_le _ _ Hlt). eapply Hfar; eauto.
    + intro Hnone. exfalso. eapply Hnone; eauto.
Qed.

(** C8 (amended).  When [math.sqrt] maps zero to zero, every obstacle of
    the environment that has a non-negative height, a width whose half
    is positive and, unless cylindrical, a depth whose half is positive,
    collides with the point at the centre of its base, for radius [0].
    The half is positive, on binary64 as over the rationals, from
    [2^-1073] on ([Float64.min_halvable]); the half of the one positive
    float below it, 5e-324, is rounded to [0.0]
    ([Float64Facts.half_of_least]). *)
Theorem check_collision_at_base env o :
  (forall q, q == 0 -> sqrt q == 0) ->
  In o env ->
  0 <= height o ->
  Float64.min_halvable <= width o ->
  (is_cylindrical o = false -> Float64.min_halvable <= depth o) ->
  check_collision sqrt env (x o) (y o) (z_base o) 0 = true.
Proof.
  intros Hsqrt Hin Hh Hw0 Hd0.
  assert (Hpos : 0 < Float64.min_halvable) by reflexivity.
  assert (Hw : 0 < width o) by (eapply Qlt_le_trans; eassumption).
  assert (Hd : is_cylindrical o = false -> 0 < depth o).
  { intro Hc. eapply Qlt_le_trans; [exact Hpos | exact (Hd0 Hc)]. }
  clear Hw0 Hd0 Hpos.
  induction env as [|p rest IH]; [contradiction|].
  cbn [check_collision]. destruct Hin as [->|Hin].
  - assert (Hov : overlaps_altitude o (z_base o) 0 = true).
    { apply overlaps_altitude_iff. split; lra. }
    rewrite Hov. cbn [negb].
    destruct (is_cylindrical o) eqn:Hc.
    + assert (Hz : sqrt ((x o - x o) ^ 2 + (y o - y o) ^ 2) == 0).
      { apply Hsqrt. simpl. ring. }
      assert (Hlt : Py.ltb (sqrt ((x o - x o) ^ 2 + (y o - y o) ^ 2))
                      (width o / 2 + 0) = true).
      { apply PyFacts.ltb_lt. rewrite Hz.
        pose proof (PyFacts.half_eq (width o)). lra. }
      now rewrite Hlt.
    + specialize (Hd eq_refl).
      assert (Hx : Py.ltb (Qabs (x o - x o)) (width o / 2 + 0) = true).
      { apply PyFacts.ltb_lt.
        assert (E : Qabs (x o - x o) == 0)
          by (rewrite (Qabs_wd _ 0) by ring; reflexivity).
        rewrite E. pose proof (PyFacts.half_eq (width o)). lra. }
      assert (Hy : Py.ltb (Qabs (y o - y o)) (depth o / 2 + 0) = true).
      { apply PyFacts.ltb_lt.
        assert (E : Qabs (y o - y o) == 0)
          by (rewrite (Qabs_wd _ 0) by ring; reflexivity).
        rewrite E. pose proof (PyFacts.half_eq (depth o)). lra. }
      now rewrite Hx, Hy.
  - specialize (IH Hin).
    destruct (negb _); [exact IH|].
    destruct (is_cylindrical p).
    + destruct (Py.ltb _ _); [reflexivity|exact IH].
    + destruct (_ && _); [reflexivity|exact IH].
Qed.

(** Wherever it stands in the scene, an obstacle that passes the altitude
    gate and is pierced at [t] bounds the returned distance; pierced
    strictly within range it makes the cast return an obstacle; and when
    every obstacle before it is pierced strictly farther away and none
    after it nearer, it is the one returned. *)
Lemma ray_cast_takes_part env j o ox oy oz dx dy max_range t :
  ~ dx * dx + dy * dy == 0 ->
  nth_error env j = Some o ->
  pierced sqrt o ox oy oz dx dy max_range t ->
  exists d r,
    ray_cast sqrt env ox oy oz dx dy max_range = Py.Ok (d, r) /\
    d <= t /\
    (t < max_range -> r <> None) /\
    (t < max_range ->
     (forall k o' t', (k < j)%nat -> nth_error env k = Some o' ->
        pierced sqrt o' ox oy oz dx dy max_range t' -> t < t') ->
     (forall k o' t', (j < k)%nat -> nth_error env k = Some o' ->
        pierced sqrt o' ox oy oz dx dy max_range t' -> t <= t') ->
     d = t /\ r = Some j).
Proof.
  intros Hdir Hj Hp. unfold ray_cast.
  destruct (ray_cast_loop_spec ox oy oz dx dy max_range Hdir env 0%nat
              max_range None) as (d & r & Heq & Hle & Hall & Hwho).
  exists d, r. split; [exact Heq|].
  pose proof (Hall j o t Hj Hp) as Hdt.
  split; [exact Hdt|].
  destruct Hwho as [[-> ->] | (k & o' & -> & Hk & Hpk & Hlt & Hfirst)].
  - split.
    + intro Ht. exfalso. apply (Qlt_not_le _ _ Ht Hdt).
    + intros Ht _ _. exfalso. apply (Qlt_not_le _ _ Ht Hdt).
  - split; [intros _; discriminate|].
    intros _ Hbefore Hafter. simpl in *.
    destruct (Nat.lt_trichotomy k j) as [Hkj|[->|Hjk]].
    + exfalso. apply (Qlt_not_le _ _ (Hbefore k o' d Hkj Hk Hpk) Hdt).
    + rewrite Hj in Hk. injection Hk as <-.
      destruct Hp as [_ Hp]. destruct Hpk as [_ Hpk].
      rewrite Hp in Hpk. injection Hpk as <-. auto.
    + exfalso. apply (Qlt_irrefl d).
      apply Qlt_le_trans with t; [exact (Hfirst j o t Hjk Hj Hp)|].
      exact (Hafter k o' d Hjk Hk Hpk).
Qed.

(** C10.  [ray_cast] gates obstacles with the fixed margin of 30 cm: the
    default-margin overlap test is the pair of inequalities
    [oz + 30 >= z_base] and [oz - 30 <= z_base + height].  An obstacle
    that passes the gate takes part wherever it stands in the scene: if
    the ray pierces it at [t], the cast returns a distance of at most
    [t]; if [t] is strictly within range an obstacle is returned; and if
    moreover every obstacle before it that passes the gate is pierced
    strictly farther away, and none after it nearer, the cast returns
    [(t, it)].  An obstacle that fails the gate takes no part: it is
    never returned, and exchanging it for any other obstacle that fails
    the gate, anywhere in the scene, changes nothing.  In particular an
    obstacle alone in the scene is returned exactly when it passes the
    gate and is pierced strictly within range. *)
Theorem ray_cast_altitude_gate o ox oy oz dx dy max_range d :
  (overlaps_altitude o oz default_margin = true <->
     oz + 30 >= z_base o /\ oz - 30 <= z_base o + height o) /\
  (ray_cast sqrt [o] ox oy oz dx dy max_range = Py.Ok (d, Some 0%nat) <->
     (oz + 30 >= z_base o /\ oz - 30 <= z_base o + height o) /\
     ray_intersect_2d sqrt o ox oy dx dy max_range = Py.Ok (Some d) /\
     d < max_range) /\
  (forall env i,
     ray_cast sqrt env ox oy oz dx dy max_range = Py.Ok (d, Some i) ->
     exists o', nth_error env i = Some o' /\
       oz + 30 >= z_base o' /\ oz - 30 <= z_base o' + height o') /\
  (forall pre post o',
     ~ (oz + 30 >= z_base o /\ oz - 30 <= z_base o + height o) ->
     ~ (oz + 30 >= z_base o' /\ oz - 30 <= z_base o' + height o') ->
     ray_cast sqrt (pre ++ o :: post) ox oy oz dx dy max_range =
     ray_cast sqrt (pre ++ o' :: post) ox oy oz dx dy max_range) /\
  (forall env j t,
     ~ dx * dx + dy * dy == 0 ->
     nth_error env j = Some o ->
     oz + 30 >= z_base o /\ oz - 30 <= z_base o + height o ->
     ray_intersect_2d sqrt o ox oy dx dy max_range = Py.Ok (Some t) ->
     exists d' r,
       ray_cast sqrt env ox oy oz dx dy max_range = Py.Ok (d', r) /\
       d' <= t /\
       (t < max_range -> r <> None) /\
       (t < max_range ->
        (forall k o' t', (k < j)%nat -> nth_error env k = Some o' ->
           oz + 30 >= z_base o' /\ oz - 30 <= z_base o' + height o' ->
           ray_intersect_2d sqrt o' ox oy dx dy max_range = Py.Ok (Some t') ->
           t < t') ->
        (forall k o' t', (j < k)%nat -> nth_error env k = Some o' ->
           oz + 30 >= z_base o' /\ oz - 30 <= z_base o' + height o' ->
           ray_intersect_2d sqrt o' ox oy dx dy max_range = Py.Ok (Some t') ->
           t <= t') ->
        d' = t /\ r = Some j)).
Proof.
  assert (Hgate : forall p,
    overlaps_altitude p oz default_margin = true <->
    oz + 30 >= z_base p /\ oz - 30 <= z_base p + height p).
  { intro p. apply overlaps_altitude_iff. }
  split; [apply Hgate|]. split; [|split; [|split]].
  - rewrite <- Hgate. unfold ray_cast. simpl.
    destruct (overlaps_altitude o oz default_margin); simpl.
    + destruct (ray_intersect_2d sqrt o ox oy dx dy max_range) as [[d0|]|e];
        simpl.
      * destruct (Py.ltb d0 max_range) eqn:Hlt.
        -- split.
           ++ intros [= <-]. qprop. auto.
           ++ intros (_ & [= <-] & _). reflexivity.
        -- split; [discriminate|].
           intros (_ & [= <-] & Hd). qprop. exfalso.
           apply (Qlt_not_le _ _ Hd Hlt).
      * split; [discriminate|]. intros (_ & [=] & _).
      * split; [discriminate|]. intros (_ & [=] & _).
    + split; [discriminate|]. intros ([=] & _).
  - intros env i H. unfold ray_cast in H.
    destruct (ray_cast_loop_ref _ _ _ _ _ _ _ _ _ _ _ _ H)
      as [[=]|(k & o' & [= ->] & Hk & Ho)].
    exists o'. split; [exact Hk|]. now apply Hgate.
  - intros pre post o' Ho Ho'. unfold ray_cast.
    apply ray_cast_loop_skip.
    + destruct (overlaps_altitude o oz default_margin) eqn:E; auto.
      exfalso. apply Ho. now apply Hgate.
    + destruct (overlaps_altitude o' oz default_margin) eqn:E; auto.
      exfalso. apply Ho'. now apply Hgate.
  - intros env j t Hdir Hj Ho Ht.
    assert (Hp : pierced sqrt o ox oy oz dx dy max_range t).
    { split; [now apply Hgate | exact Ht]. }
    destruct (ray_cast_takes_part env j o ox oy oz dx dy max_range t Hdir Hj Hp)
      as (d' & r & Heq & Hle & Hsome & Hwin).
    exists d', r. split; [exact Heq|]. split; [exact Hle|].
    split; [exact Hsome|].
    intros Hlt Hbefore Hafter. apply (Hwin Hlt).
    + intros k o' t' Hk Hnth [Hov Hhit].
      apply (Hbefore k o' t' Hk Hnth); [now apply Hgate | exact Hhit].
    + intros k o' t' Hk Hnth [Hov Hhit].
      apply (Hafter k o' t' Hk Hnth); [now apply Hgate | exact Hhit].
Qed.

End RayCaster.

(** *** Concrete scenes *)

Lemma sqrt_floor_zero q : q == 0 -> sqrt_floor q == 0.
Proof.
  destruct q as [n d]. unfold Qeq, sqrt_floor. simpl. intro H.
  assert (n = 0%Z) by lia. subst n. reflexivity.
Qed.

(** C1, as stated, fails: from the origin along the x axis with
    [max_range = 500] both boxes overlap the altitude and are pierced
    within range at the same distance 500, yet no obstacle is returned,
    so not the first-inserted one. *)
Lemma ray_cast_tie_at_max_range :
  (exists t, pierced sqrt_floor near_box 0 0 0 1 0 500 t /\ t == 500) /\
  (exists t, pierced sqrt_floor far_box 0 0 0 1 0 500 t /\ t == 500) /\
  ray_cast sqrt_floor [near_box; far_box] 0 0 0 1 0 500 = Py.Ok (500, None).
Proof.
  split; [|split].
  - exists (1000 # 2). split; [split|]; reflexivity.
  - exists (1000 # 2). split; [split|]; reflexivity.
  - reflexivity.
Qed.

(** The ray of scenario S4: from (0, 0, 100) along +y in the default
    environment. *)
Lemma ray_cast_nearest_witness :
  ~ 0 * 0 + 1 * 1 == 0 /\
  exists d r,
    ray_cast sqrt_floor default_environment 0 0 100 0 1 500 = Py.Ok (d, r) /\
    d <= 500 /\
    (forall j o t, nth_error default_environment j = Some o ->
       pierced sqrt_floor o 0 0 100 0 1 500 t -> d <= t) /\
    match r with
    | Some i =>
      exists o, nth_error default_environment i = Some o /\
        pierced sqrt_floor o 0 0 100 0 1 500 d /\ d < 500 /\
        forall j o' t, (j < i)%nat ->
          nth_error default_environment j = Some o' ->
          pierced sqrt_floor o' 0 0 100 0 1 500 t -> d < t
    | None => d = 500
    end /\
    (r = None <->
       forall j o t, nth_error default_environment j = Some o ->
         pierced sqrt_floor o 0 0 100 0 1 500 t -> 500 <= t) /\
    ((forall j o t, nth_error default_environment j = Some o ->
         ~ pierced sqrt_floor o 0 0 100 0 1 500 t) ->
     (d, r) = (500, None)).
Proof.
  assert (H : ~ 0 * 0 + 1 * 1 == 0) by (intro E; vm_compute in E; discriminate E).
  split; [exact H|].
  exact (ray_cast_nearest sqrt_floor default_environment 0 0 100 0 1 500 H).
Defined.

Lemma aabb_slab_method_witness :
  500 < BIG /\
  option_map Fin (_ray_aabb_intersect north_wall 0 0 0 1 500) =
  ray_aabb_spec north_wall 0 0 0 1 500.
Proof.
  assert (H : 500 < BIG) by reflexivity.
  split; [exact H|].
  exact (aabb_slab_method north_wall 0 0 0 1 500 H).
Defined.

(** C3, as stated, fails when [max_range] reaches 1e18: along +y from the
    centre of [long_box] with [max_range = 2e18], the slab method with a
    true infinity on the parallel x axis gives the exit distance 2e18,
    the code gives its literal 1e18. *)
Lemma aabb_sentinel_counterexample :
  (exists t, _ray_aabb_intersect long_box 0 0 0 1 2000000000000000000 = Some t
     /\ t == 1000000000000000000) /\
  (exists t, ray_aabb_spec long_box 0 0 0 1 2000000000000000000 = Some (Fin t)
     /\ t == 2000000000000000000).
Proof.
  split.
  - exists 1000000000000000000. split; reflexivity.
  - exists (4000000000000000000 # 2). split; reflexivity.
Qed.

(** C8, as stated, fails: the only obstacle of this environment, a box
    of width 0, does not collide with the centre of its own base.  Nor
    does, on binary64, a box of positive width 5e-324 (depth 1, height
    10, at the origin): the half of its width is [0.0]. *)
Lemma check_collision_flat_counterexample :
  In flat_box [flat_box] /\
  check_collision sqrt_floor [flat_box]
    (x flat_box) (y flat_box) (z_base flat_box) 0 = false /\
  PrimFloat.ltb PrimFloat.zero Float64.least = true /\
  Float64.check_collision_box PrimFloat.zero PrimFloat.zero PrimFloat.zero
    Float64.least PrimFloat.one (Float64.of_int 10)
    PrimFloat.zero PrimFloat.zero PrimFloat.zero PrimFloat.zero = false.
Proof.
  split; [now left|]. split; [reflexivity|].
  split; vm_compute; reflexivity.
Qed.

Lemma check_collision_at_base_witness :
  (forall q, q == 0 -> sqrt_floor q == 0) /\
  In first_tree default_environment /\
  0 <= height first_tree /\
  Float64.min_halvable <= width first_tree /\
  (is_cylindrical first_tree = false ->
     Float64.min_halvable <= depth first_tree) /\
  check_collision sqrt_floor default_environment
    (x first_tree) (y first_tree) (z_base first_tree) 0 = true.
Proof.
  assert (H1 : In first_tree default_environment)
    by (do 4 right; left; reflexivity).
  assert (H2 : 0 <= height first_tree) by (intro E; discriminate E).
  assert (H3 : Float64.min_halvable <= width first_tree)
    by (intro E; discriminate E).
  assert (H4 : is_cylindrical first_tree = false ->
               Float64.min_halvable <= depth first_tree)
    by (intros _ E; discriminate E).
  split; [exact sqrt_floor_zero|]. split; [exact H1|]. split; [exact H2|].
  split; [exact H3|]. split; [exact H4|].
  exact (check_collision_at_base sqrt_floor default_environment first_tree
           sqrt_floor_zero H1 H2 H3 H4).
Defined.

(** From (0, 0, 130) along +x: [short_box] stands first and nearer on the
    ray but ends 80 cm below the query altitude; [low_box], second in the
    scene and ending 30 cm below it, is the obstacle returned, at 90 cm. *)
Lemma ray_cast_altitude_gate_witness :
  exists d r,
    ray_cast sqrt_floor [short_box; low_box] 0 0 130 1 0 500 = Py.Ok (d, r) /\
    d = 180 # 2 /\ r = Some 1%nat.
Proof.
  destruct (ray_cast_altitude_gate sqrt_floor low_box 0 0 130 1 0 500 0)
    as (_ & _ & _ & _ & H).
  destruct (H [short_box; low_box] 1%nat (180 # 2))
    as (d & r & Heq & _ & _ & Hwin).
  - intro E. discriminate E.
  - reflexivity.
  - split; intro E; discriminate E.
  - reflexivity.
  - exists d, r. split; [exact Heq|]. apply Hwin.
    + reflexivity.
    + intros [|[|k]] o' t' Hk Hnth Hg Hhit; simpl in Hnth; try lia.
      injection Hnth as <-. exfalso. destruct Hg as [_ Hg]. apply Hg.
      reflexivity.
    + intros [|[|[|k]]] o' t' Hk Hnth; simpl in Hnth; try lia; discriminate.
Defined.

End EnvFacts.

(* ================================================================= *)
(** ** The avoidance policy *)

Module NavFacts.
Import Camera Nav.

Lemma zone_bounds_lt n z :
  (z < 4)%nat -> zone_bounds n z = ((z * (n / 5))%nat, (z * (n / 5) + n / 5)%nat).
Proof.
  intro Hz. unfold zone_bounds.
  destruct (z <? 4)%nat eqn:E; [reflexivity|].
  apply Nat.ltb_ge in E. lia.
Qed.

Lemma zone_bounds_last n : zone_bounds n 4 = ((4 * (n / 5))%nat, n).
Proof. reflexivity. Qed.

Lemma zone_depths_length depths n z :
  List.length depths = n ->
  List.length (zone_depths depths n z) =
    if (z <? 4)%nat then (n / 5)%nat
    else (n - z * (n / 5))%nat.
Proof.
  intro Hn. unfold zone_depths. rewrite PyFacts.slice_length, Hn.
  unfold zone_bounds. pose proof (Nat.div_mod_eq n 5) as Hdm.
  set (k := (n / 5)%nat) in *.
  destruct (z <? 4)%nat eqn:E; cbn [fst snd].
  - apply Nat.ltb_lt in E.
    assert (z * k + k <= n)%nat by nia. lia.
  - lia.
Qed.

(** The five slices, in order, make up the scan. *)
Lemma zones_concat depths n :
  List.length depths = n ->
  List.concat (map (zone_depths depths n) (seq 0 5)) = depths.
Proof.
  intro Hn. change (seq 0 5) with [0; 1; 2; 3; 4]%nat.
  cbn [map List.concat]. unfold zone_depths.
  rewrite !zone_bounds_lt by lia. rewrite zone_bounds_last.
  cbn [fst snd]. rewrite app_nil_r.
  pose proof (Nat.div_mod_eq n 5) as Hdm.
  set (k := (n / 5)%nat) in *.
  replace (4 * k)%nat with (3 * k + k)%nat by lia.
  rewrite (PyFacts.slice_app depths (3 * k) (3 * k + k) n) by lia.
  replace (3 * k)%nat with (2 * k + k)%nat by lia.
  rewrite (PyFacts.slice_app depths (2 * k) (2 * k + k) n) by lia.
  replace (2 * k)%nat with (1 * k + k)%nat by lia.
  rewrite (PyFacts.slice_app depths (1 * k) (1 * k + k) n) by lia.
  replace (1 * k)%nat with (0 * k + k)%nat by lia.
  rewrite (PyFacts.slice_app depths (0 * k) (0 * k + k) n) by lia.
  unfold Py.slice. rewrite Nat.mul_0_l. cbn [skipn].
  rewrite <- Hn. apply firstn_all.
Qed.

Lemma compute_zones_unroll depths n :
  compute_zones depths n =
    (m0 <- Py.min_list (zone_depths depths n 0) ;;
     m1 <- Py.min_list (zone_depths depths n 1) ;;
     m2 <- Py.min_list (zone_depths depths n 2) ;;
     m3 <- Py.min_list (zone_depths depths n 3) ;;
     m4 <- Py.min_list (zone_depths depths n 4) ;;
     Py.Ok [m0; m1; m2; m3; m4]).
Proof.
  unfold compute_zones. simpl.
  repeat (match goal with
          |- context [Py.min_list ?l] => destruct (Py.min_list l); simpl
          end); reflexivity.
Qed.

(** A successful zone loop returns, for each zone, the least depth of
    its slice. *)
Lemma compute_zones_ok depths n zones :
  compute_zones depths n = Py.Ok zones ->
  List.length zones = 5%nat /\
  forall z, (z < 5)%nat ->
    Py.min_list (zone_depths depths n z) = Py.Ok (zone zones z).
Proof.
  rewrite compute_zones_unroll.
  destruct (Py.min_list (zone_depths depths n 0)) as [m0|] eqn:E0; [|discriminate].
  destruct (Py.min_list (zone_depths depths n 1)) as [m1|] eqn:E1; [|discriminate].
  destruct (Py.min_list (zone_depths depths n 2)) as [m2|] eqn:E2; [|discriminate].
  destruct (Py.min_list (zone_depths depths n 3)) as [m3|] eqn:E3; [|discriminate].
  destruct (Py.min_list (zone_depths depths n 4)) as [m4|] eqn:E4; [|discriminate].
  simpl. intros [= <-]. split; [reflexivity|].
  intros z Hz.
  destruct z as [|[|[|[|[|z]]]]]; try assumption. lia.
Qed.

(** What the split of [_compute_commands] does for any number of rays.
    For a frame whose scan has [num_rays] depths, the five slices read by
    the policy are contiguous and together make up the scan; the first
    four hold [num_rays // 5] rays each and the last one the remaining
    [num_rays // 5 + num_rays % 5], so the five are equal exactly when 5
    divides [num_rays]; and the policy steers on the least depth of each
    slice. *)
Lemma zones_partition frame :
  List.length (depths frame) = num_rays frame ->
  let d := depths frame in
  let n := num_rays frame in
  List.concat (map (zone_depths d n) (seq 0 5)) = d /\
  (forall z, (z < 4)%nat -> List.length (zone_depths d n z) = (n / 5)%nat) /\
  List.length (zone_depths d n 4) = (n / 5 + n mod 5)%nat /\
  ((forall z, (z < 5)%nat -> List.length (zone_depths d n z) = (n / 5)%nat)
     <-> (n mod 5 = 0)%nat) /\
  (forall zones, compute_zones d n = Py.Ok zones ->
     List.length zones = 5%nat /\
     forall z, (z < 5)%nat ->
       In (zone zones z) (zone_depths d n z) /\
       forall v, In v (zone_depths d n z) -> zone zones z <= v) /\
  (forall zones state goal_bearing goal_alt,
     compute_zones d n = Py.Ok zones ->
     _compute_commands frame state goal_bearing goal_alt =
       Py.Ok (steer zones state goal_bearing goal_alt)).
Proof.
  intros Hn d n. subst d n.
  pose proof (Nat.div_mod_eq (num_rays frame) 5) as Hdm.
  assert (Hlast : List.length (zone_depths (depths frame) (num_rays frame) 4)
                  = (num_rays frame / 5 + num_rays frame mod 5)%nat).
  { rewrite (zone_depths_length _ _ 4 Hn).
    change (4 <? 4)%nat with false. cbv iota. lia. }
  assert (Hfirst : forall z, (z < 4)%nat ->
            List.length (zone_depths (depths frame) (num_rays frame) z)
            = (num_rays frame / 5)%nat).
  { intros z Hz. rewrite (zone_depths_length _ _ z Hn).
    apply Nat.ltb_lt in Hz. now rewrite Hz. }
  split; [now apply zones_concat|]. split; [exact Hfirst|].
  split; [exact Hlast|]. split; [|split].
  - split.
    + intro H. specialize (H 4%nat ltac:(lia)). lia.
    + intros Hmod z Hz. destruct (Nat.eq_dec z 4) as [->|Hne].
      * lia.
      * apply Hfirst. lia.
  - intros zones Hz. destruct (compute_zones_ok _ _ _ Hz) as [Hlen Hmin].
    split; [exact Hlen|]. intros z Hlt.
    apply PyFacts.min_list_ok. now apply Hmin.
  - intros zones state gb ga Hz. unfold _compute_commands.
    now rewrite Hz.
Qed.

(** C9.  For a frame whose scan has [num_rays] depths: when
    [num_rays >= 5] each of the five slices is non-empty, each zone
    minimum exists and [_compute_commands] returns; when
    [1 <= num_rays < 5] the first four slices are empty and
    [_compute_commands] raises [ValueError]. *)
Theorem zones_defined_iff_five_rays frame state goal_bearing goal_alt :
  List.length (depths frame) = num_rays frame ->
  ((5 <= num_rays frame)%nat ->
     (forall z, (z < 5)%nat ->
        zone_depths (depths frame) (num_rays frame) z <> [] /\
        exists m, Py.min_list (zone_depths (depths frame) (num_rays frame) z)
                  = Py.Ok m) /\
     exists r, _compute_commands frame state goal_bearing goal_alt = Py.Ok r) /\
  ((1 <= num_rays frame < 5)%nat ->
     (forall z, (z < 4)%nat ->
        zone_depths (depths frame) (num_rays frame) z = []) /\
     _compute_commands frame state goal_bearing goal_alt
       = Py.Raise Py.ValueError).
Proof.
  intro Hn. split.
  - intro H5.
    assert (Hk : (1 <= num_rays frame / 5)%nat).
    { apply (Nat.div_le_lower_bound (num_rays frame) 5 1); lia. }
    assert (Hne : forall z, (z < 5)%nat ->
              zone_depths (depths frame) (num_rays frame) z <> []).
    { intros z Hz E. apply (f_equal (@List.length Q)) in E.
      rewrite (zone_depths_length _ _ z Hn) in E. cbn [List.length] in E.
      pose proof (Nat.div_mod_eq (num_rays frame) 5).
      destruct (z <? 4)%nat eqn:Ez; [lia|].
      apply Nat.ltb_ge in Ez. assert (z = 4)%nat by lia. subst z. lia. }
    split.
    + intros z Hz. split; [now apply Hne|].
      apply PyFacts.min_list_nonempty. now apply Hne.
    + unfold _compute_commands. rewrite compute_zones_unroll.
      destruct (PyFacts.min_list_nonempty _ (Hne 0%nat ltac:(lia))) as [m0 ->].
      destruct (PyFacts.min_list_nonempty _ (Hne 1%nat ltac:(lia))) as [m1 ->].
      destruct (PyFacts.min_list_nonempty _ (Hne 2%nat ltac:(lia))) as [m2 ->].
      destruct (PyFacts.min_list_nonempty _ (Hne 3%nat ltac:(lia))) as [m3 ->].
      destruct (PyFacts.min_list_nonempty _ (Hne 4%nat ltac:(lia))) as [m4 ->].
      simpl. eauto.
  - intros [H1 H5].
    assert (Hk : (num_rays frame / 5 = 0)%nat) by (apply Nat.div_small; lia).
    assert (Hnil : forall z, (z < 4)%nat ->
              zone_depths (depths frame) (num_rays frame) z = []).
    { intros z Hz. apply length_zero_iff_nil.
      rewrite (zone_depths_length _ _ z Hn).
      apply Nat.ltb_lt in Hz. now rewrite Hz. }
    split; [exact Hnil|].
    unfold _compute_commands. rewrite compute_zones_unroll.
    rewrite (Hnil 0%nat ltac:(lia)). reflexivity.
Qed.

Lemma clamp_eq v lo hi :
  lo <= hi -> Py.max lo (Py.min hi v) == clamp v lo hi.
Proof.
  intro H. unfold Py.max, Py.min, clamp.
  destruct (Py.ltb v hi) eqn:E1; destruct (Py.ltb v lo) eqn:E2;
    destruct (Py.ltb hi v) eqn:E3; qprop;
    try (destruct (Py.ltb lo v) eqn:E4; qprop);
    try (destruct (Py.ltb lo hi) eqn:E5; qprop);
    try reflexivity; lra.
Qed.

(** C7 (amended).  In the clear regime with both outer zones at least
    [0.6 * SAFETY], the sticks handed to [send_rc] are the goal-seeking
    ones with the two clamped values truncated toward zero by [int]:
    lateral [0], forward [CRUISE = 45],
    [alt_cmd = int(clamp((goal_z - z) * 0.5, -30, 30))] and
    [yaw_cmd = int(clamp(heading_error * 0.8, -60, 60))], where
    [heading_error = ((goal_bearing - yaw + 180) mod 360) - 180] lies in
    [-180, 180); the action label is ["clear"]. *)
Theorem clear_regime_goal_seeking frame state goal_bearing goal_alt zones :
  compute_zones (depths frame) (num_rays frame) = Py.Ok zones ->
  SAFETY_DISTANCE <= zone zones 2 ->
  (6 # 10) * SAFETY_DISTANCE <= zone zones 0 ->
  (6 # 10) * SAFETY_DISTANCE <= zone zones 4 ->
  let heading_error :=
    Py.fmod (goal_bearing - Drone.yaw state + 180) 360 - 180 in
  let yaw_cmd := Py.int (clamp (heading_error * (4 # 5)) (-60) 60) in
  let alt_cmd := Py.int (clamp ((goal_alt - Drone.z state) * (1 # 2)) (-30) 30) in
  -180 <= heading_error < 180 /\
  _compute_commands frame state goal_bearing goal_alt
    = Py.Ok ((yaw_cmd, CRUISE_SPEED, alt_cmd), "clear"%string) /\
  rc_command frame state goal_bearing goal_alt
    = Py.Ok (0%Z, 45%Z, alt_cmd, yaw_cmd).
Proof.
  intros Hz Hc H0 H4 heading_error yaw_cmd alt_cmd.
  assert (Hcmd : _compute_commands frame state goal_bearing goal_alt
            = Py.Ok ((yaw_cmd, CRUISE_SPEED, alt_cmd), "clear"%string)).
  { unfold _compute_commands. rewrite Hz. simpl Py.bind. unfold steer.
    unfold SAFETY_DISTANCE, CRITICAL_DISTANCE in *.
    assert (E1 : Py.ltb (zone zones 2) 50 = false)
      by (apply PyFacts.ltb_ge; lra).
    assert (E2 : Py.ltb (zone zones 2) 100 = false)
      by (apply PyFacts.ltb_ge; lra).
    assert (E3 : Py.ltb (zone zones 0) (100 * (6 # 10)) = false)
      by (apply PyFacts.ltb_ge; lra).
    assert (E4 : Py.ltb (zone zones 4) (100 * (6 # 10)) = false)
      by (apply PyFacts.ltb_ge; lra).
    rewrite E1, E2, E3, E4.
    subst yaw_cmd alt_cmd heading_error.
    rewrite (PyFacts.int_wd _ _ (clamp_eq _ (-60) 60 ltac:(lra))).
    rewrite (PyFacts.int_wd _ _ (clamp_eq _ (-30) 30 ltac:(lra))).
    reflexivity. }
  split.
  - subst heading_error.
    destruct (PyFacts.fmod_range (goal_bearing - Drone.yaw state + 180) 360
                ltac:(lra)) as [Hlo Hhi].
    split; lra.
  - split; [exact Hcmd|]. unfold rc_command. rewrite Hcmd. reflexivity.
Qed.

(** *** Concrete frames *)

(** C2 (the code departs from the claim and from its own comment,
    "Split rays into 5 equal zones").  For the default frame of 48 rays
    the five slices are [0:9], [9:18], [18:27], [27:36] and [36:48]: they
    hold 9, 9, 9, 9 and 12 rays, and the centre zone, rays 18 to 26, lies
    to the left of the middle of the scan (between rays 23 and 24). *)
Theorem zones_of_48_rays_unequal :
  List.length (depths (open_frame 48)) = num_rays (open_frame 48) /\
  map (fun z => List.length (zone_depths (depths (open_frame 48)) 48 z))
      (seq 0 5) = [9; 9; 9; 9; 12]%nat /\
  map (zone_bounds (num_rays (open_frame 48))) (seq 0 5)
    = [(0, 9); (9, 18); (18, 27); (27, 36); (36, 48)]%nat.
Proof. repeat split; reflexivity. Qed.

Lemma zones_partition_witness :
  let d := depths (open_frame 48) in
  List.concat (map (zone_depths d 48) (seq 0 5)) = d /\
  List.length (zone_depths d 48 4) = (48 / 5 + 48 mod 5)%nat.
Proof.
  destruct (zones_partition (open_frame 48) eq_refl) as (H1 & _ & H3 & _).
  split; [exact H1 | exact H3].
Defined.

Lemma zones_defined_iff_five_rays_witness :
  (exists r, _compute_commands (open_frame 48) hovering 0 80 = Py.Ok r) /\
  _compute_commands (open_frame 3) hovering 0 80 = Py.Raise Py.ValueError.
Proof.
  split.
  - destruct (zones_defined_iff_five_rays (open_frame 48) hovering 0 80 eq_refl)
      as [H _].
    apply H. simpl. lia.
  - destruct (zones_defined_iff_five_rays (open_frame 3) hovering 0 80 eq_refl)
      as [_ H].
    apply H. simpl. lia.
Defined.

(** C7, as stated, fails: with the goal one degree to the right of the
    heading and every zone clear, [clamp(heading_error * 0.8, -60, 60)]
    is 0.8, while the yaw stick handed to [send_rc] is the integer 0. *)
Lemma clear_regime_truncates_yaw :
  compute_zones (depths (open_frame 48)) 48
    = Py.Ok [500; 500; 500; 500; 500] /\
  SAFETY_DISTANCE <= 500 /\ (6 # 10) * SAFETY_DISTANCE <= 500 /\
  clamp ((Py.fmod (1 - Drone.yaw hovering + 180) 360 - 180) * (4 # 5)) (-60) 60
    == 4 # 5 /\
  rc_command (open_frame 48) hovering 1 80 = Py.Ok (0%Z, 45%Z, 0%Z, 0%Z) /\
  ~ inject_Z 0 == 4 # 5.
Proof.
  repeat split; try reflexivity; intro E; discriminate E.
Qed.

Lemma clear_regime_goal_seeking_witness :
  rc_command (open_frame 48) hovering 1 80
    = Py.Ok (0%Z, 45%Z,
             Py.int (clamp ((80 - Drone.z hovering) * (1 # 2)) (-30) 30),
             Py.int (clamp ((Py.fmod (1 - Drone.yaw hovering + 180) 360 - 180)
                            * (4 # 5)) (-60) 60)).
Proof.
  assert (Hz : compute_zones (depths (open_frame 48)) (num_rays (open_frame 48))
               = Py.Ok [500; 500; 500; 500; 500]) by reflexivity.
  assert (H2 : SAFETY_DISTANCE <= zone [500; 500; 500; 500; 500] 2)
    by (intro E; discriminate E).
  assert (H0 : (6 # 10) * SAFETY_DISTANCE <= zone [500; 500; 500; 500; 500] 0)
    by (intro E; discriminate E).
  assert (H4 : (6 # 10) * SAFETY_DISTANCE <= zone [500; 500; 500; 500; 500] 4)
    by (intro E; discriminate E).
  exact (proj2 (proj2 (clear_regime_goal_seeking (open_frame 48) hovering 1 80
                         _ Hz H2 H0 H4))).
Defined.

End NavFacts.

(* ================================================================= *)
(** ** The simulated backend *)

Module SimFacts.
Import Drone Sim.

Ltac sim_red :=
  cbn [_state _speed _rc_active _rc_values _flight_start with_state
       x y z yaw speed battery is_flying is_connected flight_time
       temperature timestamp _drain_battery _start_rc_loop _stop_rc_loop
       ground fst snd] in *.

(** The seven conjuncts of [inv], one goal each. *)
Ltac inv_split := split; [split|split; [|split; [split|split]]].

Ltac minmax :=
  repeat match goal with
  | |- context [Py.max ?a ?b] =>
    let H := fresh in
    destruct (PyFacts.max_spec a b) as [[H ->]|[H ->]]
  | |- context [Py.min ?a ?b] =>
    let H := fresh in
    destruct (PyFacts.min_spec a b) as [[H ->]|[H ->]]
  end.

Lemma inv_initial now : inv (_state (init now)).
Proof.
  unfold inv, init, default_state. sim_red.
  inv_split; try lra; try discriminate.
Qed.

Lemma drain_inv seconds s :
  0 <= seconds -> inv s -> inv (_drain_battery seconds s).
Proof.
  unfold inv. intros Hs (Hb & Hz & Hy & Ht & Hf). sim_red.
  inv_split; auto; try lra; minmax; lra.
Qed.

(** A sleep that returns was given a non-negative duration. *)
Lemma sleep_ok_nonneg duration cap u :
  0 <= cap -> Py.sleep (Py.min duration cap) = Py.Ok u -> 0 <= duration.
Proof.
  intro Hc. unfold Py.sleep.
  destruct (Py.ltb (Py.min duration cap) 0) eqn:E; [discriminate|].
  intros _. qprop. revert E. minmax; intros; lra.
Qed.

Lemma ground_inv now d : inv (_state d) -> inv (_state (ground now d)).
Proof.
  unfold inv. intros (Hb & Hz & Hy & Ht & Hf). sim_red.
  inv_split; auto; try lra; try discriminate.
Qed.

Section Libm.

Variables sqrt cos sin radians : Q -> Q.

Lemma go_to_step_inv tx ty tz spd sx sy sz dt steps i d :
  inv (_state d) ->
  inv (_state (fst (go_to_step tx ty tz spd sx sy sz dt steps i d))).
Proof.
  intro H. unfold go_to_step.
  destruct (Py.sleep (Py.min dt (1 # 2))) as [u|e] eqn:Hs; [|exact H].
  sim_red. apply drain_inv.
  - apply (sleep_ok_nonneg dt (1 # 2) u); [lra|exact Hs].
  - revert H. unfold inv. intros (Hb & Hz & Hy & Ht & Hf). sim_red.
    inv_split; auto; try lra. minmax; lra.
Qed.

(** The invariant holds after every iteration of the interpolation loop
    of [go_to]. *)
Lemma go_to_loop_inv tx ty tz spd sx sy sz dt steps range :
  forall d, inv (_state d) ->
  inv (_state (fst (go_to_loop tx ty tz spd sx sy sz dt steps range d))).
Proof.
  induction range as [|i rest IH]; intros d H; simpl; [exact H|].
  pose proof (go_to_step_inv tx ty tz spd sx sy sz dt steps i d H) as Hstep.
  destruct (go_to_step tx ty tz spd sx sy sz dt steps i d) as [d1 [u|e]];
    simpl in Hstep.
  - now apply IH.
  - exact Hstep.
Qed.

Lemma move_inv direction distance_cm d :
  inv (_state d) ->
  inv (_state (fst (move cos sin radians direction distance_cm d))).
Proof.
  intro H. unfold move.
  destruct (negb (is_flying (_state d))); [exact H|].
  match goal with
  | |- context [match ?delta with Some _ => _ | None => _ end] =>
    destruct delta as [[[dx dy] dz]|]; [|exact H]
  end.
  destruct (Qeq_bool (_speed d) 0); [exact H|].
  destruct (Py.sleep (Py.min (distance_cm / _speed d) 2)) as [u|e] eqn:Hs;
    [|exact H].
  sim_red. apply drain_inv.
  - apply (sleep_ok_nonneg _ 2 u); [lra|exact Hs].
  - revert H. unfold inv. intros (Hb & Hz & Hy & Ht & Hf). sim_red.
    inv_split; auto; try lra. minmax; lra.
Qed.

Lemma rc_tick_inv d d1 :
  rc_tick sqrt cos sin radians d = Some d1 -> inv (_state d) -> inv (_state d1).
Proof.
  unfold rc_tick.
  destruct (negb (_rc_active d)); [discriminate|].
  destruct (_rc_values d) as [[[lr fb] ud] yaw_rate].
  destruct (negb (is_flying (_state d))); [discriminate|].
  intros [= <-] H. sim_red. apply drain_inv; [unfold interval; lra|].
  revert H. unfold inv. intros (Hb & Hz & Hy & Ht & Hf). sim_red.
  inv_split; auto; try lra.
  - minmax; lra.
  - apply PyFacts.fmod_range. lra.
  - apply PyFacts.fmod_range. lra.
Qed.

(** Over exact rationals, and with the operations run one at a time,
    every operation keeps [inv].  Two steps of this proof do not carry
    over to the program as it runs: the yaw conjunct rests on the exact
    remainder ([PyFacts.fmod_range]; see [rc_loop_yaw_reaches_360] for
    binary64), and [disconnect] is taken as one step (see
    [takeoff_inside_disconnect]). *)
Lemma op_inv o d :
  inv (_state d) -> inv (_state (run sqrt cos sin radians o d)).
Proof.
  intro H. destruct o; unfold run.
  - (* connect *)
    revert H. unfold connect, inv. intros (Hb & Hz & Hy & Ht & Hf). sim_red.
    inv_split; auto; lra.
  - (* disconnect *)
    unfold disconnect, mark_disconnected, emergency_stop. sim_red.
    pose proof (ground_inv now (_stop_rc_loop d) H) as Hg.
    revert Hg. unfold inv. sim_red.
    intros (Hb & Hz & Hy & Ht & Hf). inv_split; auto; try lra; try discriminate.
  - (* takeoff *)
    unfold takeoff.
    destruct (negb (is_connected (_state d)) || is_flying (_state d)) eqn:E;
      [exact H|].
    qprop. unfold _start_rc_loop.
    revert H. unfold inv. intros (Hb & Hz & Hy & Ht & Hf).
    destruct (_rc_active _); sim_red; inv_split; auto; lra.
  - (* land *)
    unfold land. destruct (negb _); [exact H|].
    apply ground_inv. exact H.
  - (* emergency_stop *)
    unfold emergency_stop. sim_red. apply ground_inv. exact H.
  - (* move *)
    now apply move_inv.
  - (* rotate *)
    unfold rotate. destruct (negb _); [exact H|].
    assert (Hr : inv (mkState (x (_state d)) (y (_state d)) (z (_state d))
                        (Py.fmod (yaw (_state d) + degrees) 360)
                        (speed (_state d)) (battery (_state d))
                        (is_flying (_state d)) (is_connected (_state d))
                        (flight_time (_state d)) (temperature (_state d))
                        (timestamp (_state d)))).
    { revert H. unfold inv. intros (Hb & Hz & Hy & Ht & Hf). sim_red.
      inv_split; auto; try lra; apply PyFacts.fmod_range; lra. }
    destruct (Py.sleep _); exact Hr.
  - (* set_speed *)
    exact H.
  - (* send_rc *)
    exact H.
  - (* go_to *)
    unfold go_to. destruct (negb _); [exact H|].
    destruct (Py.ltb _ 1); [exact H|].
    match goal with
    | |- context [go_to_loop ?a ?b ?c ?e ?f ?g ?h ?i ?j ?k d] =>
      pose proof (go_to_loop_inv a b c e f g h i j k d H) as Hl;
      destruct (go_to_loop a b c e f g h i j k d) as [d1 [u|e']]
    end; exact Hl.
  - (* get_state *)
    revert H. unfold get_state, inv. sim_red. auto.
  - (* one pass of the RC integrator *)
    destruct (rc_tick sqrt cos sin radians d) as [d1|] eqn:E; [|exact H].
    now apply (rc_tick_inv d d1).
Qed.

(** Hence the invariant holds in every state the backend reaches from a
    fresh [SimulatedDrone()]. *)
Lemma reachable_inv ops now :
  inv (_state (run_all sqrt cos sin radians ops (init now))).
Proof.
  unfold run_all. generalize (inv_initial now). generalize (init now).
  induction ops as [|o ops IH]; intros d H; simpl; [exact H|].
  apply IH. now apply op_inv.
Qed.

(** A [takeoff] of another thread that runs between the two locked blocks
    of [disconnect] is accepted, the drone having been grounded but not
    yet marked disconnected; [disconnect] then ends with a drone that
    flies without being connected. *)
Lemma takeoff_inside_disconnect now t d :
  is_connected (_state d) = true ->
  let d1 := fst (emergency_stop now d) in
  let d2 := fst (takeoff t d1) in
  let d3 := mark_disconnected d2 in
  snd (takeoff t d1) = Py.Ok true /\
  is_flying (_state d3) = true /\ is_connected (_state d3) = false /\
  ~ inv (_state d3).
Proof.
  intro Hc. cbv zeta.
  unfold emergency_stop, takeoff, mark_disconnected, _start_rc_loop. sim_red.
  rewrite Hc. cbn [negb orb]. sim_red.
  repeat split.
  intros (_ & _ & _ & _ & Hf). sim_red. specialize (Hf eq_refl). discriminate.
Qed.

(** Outside its guard a pass of the integrator leaves the loop without
    writing. *)
Lemma rc_tick_idle d :
  _rc_active d = false \/ is_flying (_state d) = false ->
  rc_tick sqrt cos sin radians d = None.
Proof.
  unfold rc_tick. intros [H|H].
  - now rewrite H.
  - destruct (negb (_rc_active d)); [reflexivity|].
    destruct (_rc_values d) as [[[lr fb] ud] yaw_rate]. now rewrite H.
Qed.


Lemma max_eq_Qmax a b : Py.max a b == Qmax a b.
Proof.
  destruct (PyFacts.max_spec a b) as [[H ->]|[H ->]];
    destruct (Q.max_spec a b) as [[H' E]|[H' E]]; rewrite E; lra.
Qed.

Lemma min_eq_Qmin a b : Py.min a b == Qmin a b.
Proof.
  destruct (PyFacts.min_spec a b) as [[H ->]|[H ->]];
    destruct (Q.min_spec a b) as [[H' E]|[H' E]]; rewrite E; lra.
Qed.

(** C5.  A pass of the RC integrator over a flying drone whose loop is
    active, with latched sticks [(lr, fb, ud, yaw_rate)] and speed
    setpoint [s], writes: with [interval = 0.05] and
    [scale = s * interval / 100],
    [x += (fb cos yaw - lr sin yaw) scale],
    [y += (fb sin yaw + lr cos yaw) scale],
    [z = max(0, z + ud scale)],
    [yaw = (yaw + yaw_rate * 0.9 * interval) mod 360],
    [speed = sqrt(lr^2 + fb^2 + ud^2) * s / 100], then drains the battery
    by [0.5 * interval] (not below 0) and raises the temperature by
    [0.1 * interval] (not above 45); nothing else changes. *)
Theorem rc_tick_update d lr fb ud yaw_rate :
  _rc_active d = true ->
  is_flying (_state d) = true ->
  _rc_values d = (lr, fb, ud, yaw_rate) ->
  exists d1,
    rc_tick sqrt cos sin radians d = Some d1 /\
    let s := _state d in
    let s1 := _state d1 in
    let rad := radians (yaw s) in
    let scale := _speed d * interval / 100 in
    interval == 5 # 100 /\
    x s1 == x s + (fb * cos rad - lr * sin rad) * scale /\
    y s1 == y s + (fb * sin rad + lr * cos rad) * scale /\
    z s1 == Qmax 0 (z s + ud * scale) /\
    (0 <= yaw s1 < 360 /\
     exists k : Z,
       yaw s1 == yaw s + yaw_rate * (9 # 10) * interval - 360 * inject_Z k) /\
    speed s1 == sqrt (lr ^ 2 + fb ^ 2 + ud ^ 2) * _speed d / 100 /\
    battery s1 == Qmax 0 (battery s - interval * (5 # 10)) /\
    temperature s1 == Qmin 45 (temperature s + interval * (1 # 10)) /\
    is_flying s1 = is_flying s /\
    is_connected s1 = is_connected s /\
    flight_time s1 = flight_time s /\
    timestamp s1 = timestamp s /\
    _speed d1 = _speed d /\
    _rc_active d1 = _rc_active d /\
    _rc_values d1 = _rc_values d /\
    _flight_start d1 = _flight_start d.
Proof.
  intros Ha Hf Hrc. unfold rc_tick. rewrite Ha, Hrc, Hf. cbn [negb].
  eexists. split; [reflexivity|]. sim_red.
  split; [reflexivity|].
  split; [reflexivity|]. split; [reflexivity|].
  split; [apply max_eq_Qmax|].
  split.
  { split; [apply PyFacts.fmod_range; lra|].
    exists (Qfloor ((yaw (_state d) + yaw_rate * (9 # 10) * interval) / 360)).
    unfold Py.fmod. reflexivity. }
  split; [reflexivity|].
  split.
  { rewrite max_eq_Qmax.
    apply Q.max_compat; [reflexivity|]. unfold interval. ring. }
  split.
  { rewrite min_eq_Qmin. reflexivity. }
  repeat split; solve [reflexivity | assumption | symmetry; assumption].
Qed.

End Libm.

(** *** Concrete runs *)

(** C4 (the code departs from the claim).  On binary64 the yaw line of
    the RC integrator leaves [0, 360): from yaw [0.0], three passes with
    the yaw stick at 1 followed by three passes with the stick at -1 end
    with yaw [360.0], which is not below 360.  The sum handed to [%] in
    the sixth pass is a negative number of magnitude about 7e-18; [%]
    adds 360 to its remainder and the addition rounds to 360.0.  Over
    exact rationals the same six passes return the yaw to 0.  The last
    conjunct of the invariant is left by another path: a [takeoff] that
    runs between the two locked blocks of [disconnect] leaves a drone
    that flies without being connected. *)
Theorem rc_loop_yaw_reaches_360 :
  Float64.rc_loop_yaws [1; 1; 1; -1; -1; -1]%Z PrimFloat.zero
    = Py.Ok (Float64.of_int 360) /\
  PrimFloat.ltb (Float64.of_int 360) (Float64.of_int 360) = false /\
  (exists y5,
     Float64.rc_loop_yaws [1; 1; 1; -1; -1]%Z PrimFloat.zero = Py.Ok y5 /\
     PrimFloat.ltb
       (PrimFloat.add y5
          (PrimFloat.mul (PrimFloat.mul (Float64.of_int (-1))
                            Float64.nine_tenths) Float64.interval))
       PrimFloat.zero = true) /\
  yaw (_state (run_all Env.sqrt_floor cos_at_0 sin_at_0 radians_at_0
                 [SendRc 0 0 0 1; RcTick; RcTick; RcTick;
                  SendRc 0 0 0 (-1); RcTick; RcTick; RcTick]
                 (fst (takeoff 1 grounded)))) == 0 /\
  (let d3 := mark_disconnected
               (fst (takeoff 3 (fst (emergency_stop 2 cruising)))) in
   inv (_state cruising) /\
   is_flying (_state d3) = true /\ is_connected (_state d3) = false).
Proof.
  split; [vm_compute; reflexivity|].
  split; [vm_compute; reflexivity|].
  split; [eexists; split; vm_compute; reflexivity|].
  split; [vm_compute; reflexivity|].
  cbv zeta. split.
  - unfold inv, cruising. sim_red.
    split; [split|split; [|split; [split|split]]];
      try reflexivity; intro E; discriminate E.
  - destruct (takeoff_inside_disconnect 2 3 cruising eq_refl)
      as (_ & Hf & Hc & _).
    split; [exact Hf | exact Hc].
Qed.

Lemma rc_tick_update_witness :
  exists d1,
    rc_tick Env.sqrt_floor cos_at_0 sin_at_0 radians_at_0 cruising = Some d1 /\
    x (_state d1) == 125 # 100 /\
    battery (_state d1) == 99975 # 1000.
Proof.
  destruct (rc_tick_update Env.sqrt_floor cos_at_0 sin_at_0 radians_at_0
              cruising 0 50 0 0 eq_refl eq_refl eq_refl)
    as (d1 & Hd & _ & Hx & _ & _ & _ & _ & Hb & _).
  exists d1. split; [exact Hd|]. split.
  - rewrite Hx. reflexivity.
  - rewrite Hb. reflexivity.
Defined.

End SimFacts.

(* ================================================================= *)
(** ** The waypoint executor *)

Module PlanFacts.
Import Plan.

Lemma deref_assign_same h r p q :
  deref h r = Some q -> deref (assign h r p) r = Some p.
Proof.
  unfold deref. revert r. induction h as [|a h IH]; intros [|r]; simpl;
    try discriminate; auto.
Qed.

Lemma deref_assign_other h r r' p :
  r' <> r -> deref (assign h r p) r' = deref h r'.
Proof.
  unfold deref. revert r r'.
  induction h as [|a h IH]; intros [|r] [|r'] Hne; simpl; auto;
    try congruence; apply IH; congruence.
Qed.

Lemma status_eqb_eq a b : status_eqb a b = true <-> a = b.
Proof.
  destruct a, b; simpl; split; intro H; try reflexivity; discriminate.
Qed.

Lemma plan_running_iff a :
  plan_running a = true <->
  exists c q, _plan a = Some c /\ deref (heap a) c = Some q /\ status q = RUNNING.
Proof.
  unfold plan_running. split.
  - destruct (_plan a) as [c|]; [|discriminate].
    destruct (deref (heap a) c) as [q|] eqn:Hq; [|discriminate].
    intro H. apply status_eqb_eq in H. exists c, q.
    split; [reflexivity|]. split; [exact Hq|exact H].
  - intros (c & q & -> & -> & H). now apply status_eqb_eq.
Qed.

(** C6.  [load_plan(p)] raises (a [RuntimeError]) if and only if a plan is
    loaded and its status is RUNNING, and then changes nothing: neither the
    loaded plan, nor [p], nor which plan is loaded.  When it returns, [p]
    is the loaded plan, its status is IDLE, its [current_index] is 0 and
    every waypoint of it is PENDING; its name, loop flag and waypoint data
    are as before and no other plan object is touched. *)
Theorem load_plan_spec a plan p :
  deref (heap a) plan = Some p ->
  let a1 := fst (load_plan plan a) in
  let r := snd (load_plan plan a) in
  ((exists e, r = Py.Raise e) <->
     exists c q, _plan a = Some c /\ deref (heap a) c = Some q /\
       status q = RUNNING) /\
  (forall e, r = Py.Raise e -> e = Py.RuntimeError /\ a1 = a) /\
  (r = Py.Ok tt ->
     _plan a1 = Some plan /\
     exists p1, deref (heap a1) plan = Some p1 /\
       status p1 = IDLE /\
       current_index p1 = 0%nat /\
       Forall (fun w => wp_status w = PENDING) (waypoints p1) /\
       waypoints p1 = map (set_wp_status PENDING) (waypoints p) /\
       name p1 = name p /\ loop p1 = loop p /\
       forall r', r' <> plan -> deref (heap a1) r' = deref (heap a) r').
Proof.
  intros Hp a1 r. subst a1 r. unfold load_plan.
  rewrite <- plan_running_iff.
  destruct (plan_running a) eqn:Hrun; cbn [fst snd].
  - split; [split; eauto|]. split.
    + intros e [= <-]. auto.
    + discriminate.
  - rewrite Hp. cbn [fst snd heap _plan name waypoints loop status current_index].
    split; [split; [intros [e He]; discriminate|discriminate]|].
    split; [discriminate|]. intros _. split; [reflexivity|].
    eexists. split; [eapply deref_assign_same; exact Hp|].
    cbn [name waypoints loop status current_index].
    split; [reflexivity|]. split; [reflexivity|]. split.
    { apply Forall_forall. intros w Hw. apply in_map_iff in Hw.
      destruct Hw as (w0 & <- & _). reflexivity. }
    split; [reflexivity|]. split; [reflexivity|]. split; [reflexivity|].
    intros r' Hne. now apply deref_assign_other.
Qed.

(** *** Concrete plans *)

(** Reloading the finished mission resets it. *)
Lemma load_plan_spec_witness :
  let a := mkAutopilot [flown; fresh] (Some 0%nat) in
  deref (heap a) 0%nat = Some flown /\
  snd (load_plan 0%nat a) = Py.Ok tt /\
  exists p1, deref (heap (fst (load_plan 0%nat a))) 0%nat = Some p1 /\
    status p1 = IDLE /\ current_index p1 = 0%nat /\
    Forall (fun w => wp_status w = PENDING) (waypoints p1).
Proof.
  intro a.
  assert (Hp : deref (heap a) 0%nat = Some flown) by reflexivity.
  split; [exact Hp|]. split; [reflexivity|].
  destruct (load_plan_spec a 0%nat flown Hp) as (_ & _ & H).
  destruct (H eq_refl) as (_ & p1 & H1 & H2 & H3 & H4 & _).
  exists p1. auto.
Defined.

(** While a mission runs, loading another one raises and leaves
    everything as it was. *)
Lemma load_plan_running_raises :
  let a := fst (start (fst (load_plan 0%nat (mkAutopilot [flown; fresh] None)))) in
  load_plan 1%nat a = (a, Py.Raise Py.RuntimeError).
Proof. reflexivity. Qed.

End PlanFacts.

(* ================================================================= *)
(** * Further properties of the code *)

(** ** More on the ray-caster and the collision query *)

Module EnvMore.
Import Env.

Lemma max_ge_l a b : a <= Py.max a b.
Proof. destruct (PyFacts.max_spec a b) as [[H ->]|[H ->]]; lra. Qed.

Lemma max_ge_r a b : b <= Py.max a b.
Proof. destruct (PyFacts.max_spec a b) as [[H ->]|[H ->]]; lra. Qed.

Lemma min_le_l a b : Py.min a b <= a.
Proof. destruct (PyFacts.min_spec a b) as [[H ->]|[H ->]]; lra. Qed.

Lemma min_le_r a b : Py.min a b <= b.
Proof. destruct (PyFacts.min_spec a b) as [[H ->]|[H ->]]; lra. Qed.

(** What a successful box test says about its result: it lies within
    range, and between the entry and exit parameters of either axis. *)
Lemma aabb_hit_inv o ox oy dx dy max_range t :
  _ray_aabb_intersect o ox oy dx dy max_range = Some t ->
  0 <= t <= max_range /\
  (if Py.ltb (Qabs dx) EPS
   then x o - width o / 2 <= ox <= x o + width o / 2
   else Py.min ((x o - width o / 2 - ox) / dx) ((x o + width o / 2 - ox) / dx)
          <= t <=
        Py.max ((x o - width o / 2 - ox) / dx) ((x o + width o / 2 - ox) / dx)) /\
  (if Py.ltb (Qabs dy) EPS
   then y o - depth o / 2 <= oy <= y o + depth o / 2
   else Py.min ((y o - depth o / 2 - oy) / dy) ((y o + depth o / 2 - oy) / dy)
          <= t <=
        Py.max ((y o - depth o / 2 - oy) / dy) ((y o + depth o / 2 - oy) / dy)).
Proof.
  unfold _ray_aabb_intersect.
  set (ax := Py.min ((x o - width o / 2 - ox) / dx) ((x o + width o / 2 - ox) / dx)).
  set (bx := Py.max ((x o - width o / 2 - ox) / dx) ((x o + width o / 2 - ox) / dx)).
  set (ay := Py.min ((y o - depth o / 2 - oy) / dy) ((y o + depth o / 2 - oy) / dy)).
  set (by_ := Py.max ((y o - depth o / 2 - oy) / dy) ((y o + depth o / 2 - oy) / dy)).
  assert (Hfin : forall lx hx ly hy,
    (let t_enter := Py.max lx ly in
     let t_exit := Py.min hx hy in
     if Py.ltb t_exit t_enter || Py.ltb t_exit 0 then None
     else
       let t0 := if Py.leb 0 t_enter then t_enter else t_exit in
       if Py.ltb max_range t0 || Py.ltb t0 0 then None else Some t0) = Some t ->
    0 <= t <= max_range /\ lx <= t <= hx /\ ly <= t <= hy).
  { intros lx hx ly hy. cbv zeta.
    pose proof (max_ge_l lx ly). pose proof (max_ge_r lx ly).
    pose proof (min_le_l hx hy). pose proof (min_le_r hx hy).
    destruct (Py.ltb (Py.min hx hy) (Py.max lx ly) || Py.ltb (Py.min hx hy) 0)
      eqn:E1; [discriminate|].
    destruct (Py.leb 0 (Py.max lx ly)) eqn:E2;
      match goal with
      | |- (if ?c then _ else _) = _ -> _ => destruct c eqn:E3; [discriminate|]
      end;
      intros [= <-]; qprop; repeat split; lra. }
  destruct (Py.ltb (Qabs dx) EPS) eqn:Ex.
  - destruct (Py.ltb ox (x o - width o / 2) || Py.ltb (x o + width o / 2) ox)
      eqn:Gx; [discriminate|].
    destruct (Py.ltb (Qabs dy) EPS) eqn:Ey.
    + destruct (Py.ltb oy (y o - depth o / 2) || Py.ltb (y o + depth o / 2) oy)
        eqn:Gy; [discriminate|].
      intro H. apply Hfin in H. qprop. intuition.
    + intro H. apply Hfin in H. qprop. intuition.
  - destruct (Py.ltb (Qabs dy) EPS) eqn:Ey.
    + destruct (Py.ltb oy (y o - depth o / 2) || Py.ltb (y o + depth o / 2) oy)
        eqn:Gy; [discriminate|].
      intro H. apply Hfin in H. qprop. intuition.
    + intro H. apply Hfin in H. intuition.
Qed.

Section RayCaster.

Variable sqrt : Q -> Q.

Lemma intersect_bounds o ox oy dx dy max_range t :
  ray_intersect_2d sqrt o ox oy dx dy max_range = Py.Ok (Some t) ->
  0 <= t <= max_range.
Proof.
  unfold ray_intersect_2d. destruct (is_cylindrical o).
  - unfold _ray_circle_intersect.
    destruct (Py.ltb _ 0); [discriminate|].
    destruct (Qeq_bool _ 0); [discriminate|].
    match goal with
    | |- (if ?c then _ else _) = _ -> _ => destruct c eqn:E; [discriminate|]
    end.
    intros [= <-]. qprop. split; assumption.
  - intros [= H]. now apply aabb_hit_inv in H.
Qed.

(** X1.  Whatever the obstacle, box or cylinder, a distance returned by
    [ray_intersect_2d] is never negative and never beyond [max_range]. *)
Theorem ray_intersect_2d_range o ox oy dx dy max_range t :
  ray_intersect_2d sqrt o ox oy dx dy max_range = Py.Ok (Some t) ->
  0 <= t <= max_range.
Proof. apply intersect_bounds. Qed.

(** What a returning loop hands back: its entry values, or an
    altitude-overlapping obstacle pierced nearer than the entry distance. *)
Lemma ray_cast_loop_result ox oy oz dx dy max_range :
  forall obs i nd no d r,
    ray_cast_loop sqrt ox oy oz dx dy max_range obs i nd no = Py.Ok (d, r) ->
    (r = no /\ d = nd) \/
    exists k o, r = Some (i + k)%nat /\ nth_error obs k = Some o /\
      pierced sqrt o ox oy oz dx dy max_range d /\ d < nd.
Proof.
  induction obs as [|o rest IH]; intros i nd no d r; simpl.
  - intros [= <- <-]. now left.
  - assert (Hshift : forall nd' no', nd' <= nd ->
      ray_cast_loop sqrt ox oy oz dx dy max_range rest (S i) nd' no'
        = Py.Ok (d, r) ->
      (r = no' /\ d = nd') \/
      exists k o', r = Some (i + k)%nat /\ nth_error (o :: rest) k = Some o' /\
        pierced sqrt o' ox oy oz dx dy max_range d /\ d < nd).
    { intros nd' no' Hle H.
      destruct (IH _ _ _ _ _ H) as [[-> ->]|(k & o' & -> & Hk & Hp & Hlt)].
      - now left.
      - right. exists (S k), o'. rewrite Nat.add_succ_r.
        repeat split; auto; try apply Hp. lra. }
    destruct (overlaps_altitude o oz default_margin) eqn:Hov; simpl.
    + destruct (ray_intersect_2d sqrt o ox oy dx dy max_range) as [[d0|]|e]
        eqn:Hi; simpl; try discriminate.
      * destruct (Py.ltb d0 nd) eqn:Hlt; qprop.
        -- intro H. destruct (Hshift d0 (Some i) ltac:(lra) H)
             as [[-> ->]|Hk]; [|now right].
           right. exists 0%nat, o. rewrite Nat.add_0_r.
           repeat split; auto.
        -- intro H. apply (Hshift nd no ltac:(lra) H).
      * intro H. apply (Hshift nd no ltac:(lra) H).
    + intro H. apply (Hshift nd no ltac:(lra) H).
Qed.


(** Raising the margin keeps an altitude overlap. *)
Lemma overlaps_altitude_mono o z m m' :
  m <= m' -> overlaps_altitude o z m = true -> overlaps_altitude o z m' = true.
Proof.
  unfold overlaps_altitude. intros Hm H. qprop.
  apply andb_true_iff. split; apply PyFacts.leb_le; lra.
Qed.

(** X2.  A sphere that collides keeps colliding when its radius grows. *)
Theorem check_collision_radius_mono env px py pz r r' :
  r <= r' ->
  check_collision sqrt env px py pz r = true ->
  check_collision sqrt env px py pz r' = true.
Proof.
  intro Hr. induction env as [|o rest IH]; [discriminate|].
  cbn [check_collision].
  destruct (overlaps_altitude o pz r) eqn:Hov; cbn [negb].
  - rewrite (overlaps_altitude_mono o pz r r' Hr Hov). cbn [negb].
    destruct (is_cylindrical o).
    + destruct (Py.ltb _ (width o / 2 + r)) eqn:E.
      * intros _. qprop.
        assert (E' : Py.ltb (sqrt ((px - x o) ^ 2 + (py - y o) ^ 2))
                       (width o / 2 + r') = true)
          by (apply PyFacts.ltb_lt; lra).
        now rewrite E'.
      * intro H. destruct (Py.ltb _ (width o / 2 + r')); auto.
    + destruct (Py.ltb (Qabs (px - x o)) (width o / 2 + r) &&
                Py.ltb (Qabs (py - y o)) (depth o / 2 + r)) eqn:E.
      * intros _. qprop.
        assert (E1 : Py.ltb (Qabs (px - x o)) (width o / 2 + r') = true)
          by (apply PyFacts.ltb_lt; lra).
        assert (E2 : Py.ltb (Qabs (py - y o)) (depth o / 2 + r') = true)
          by (apply PyFacts.ltb_lt; lra).
        now rewrite E1, E2.
      * intro H.
        destruct (Py.ltb (Qabs (px - x o)) (width o / 2 + r') &&
                  Py.ltb (Qabs (py - y o)) (depth o / 2 + r')); auto.
  - intro H. specialize (IH H).
    destruct (negb (overlaps_altitude o pz r')); [exact IH|].
    destruct (is_cylindrical o).
    + destruct (Py.ltb _ _); auto.
    + destruct (_ && _); auto.
Qed.

(** X3.  A point collides with the union of two scenes exactly when it
    collides with one of them; in particular [add_obstacle] never removes
    a collision. *)
Theorem check_collision_app env1 env2 px py pz r :
  check_collision sqrt (env1 ++ env2) px py pz r =
  check_collision sqrt env1 px py pz r || check_collision sqrt env2 px py pz r.
Proof.
  induction env1 as [|o rest IH]; [reflexivity|].
  cbn [app check_collision].
  destruct (negb _); [exact IH|].
  destruct (is_cylindrical o).
  - destruct (Py.ltb _ _); [reflexivity|exact IH].
  - destruct (_ && _); [reflexivity|exact IH].
Qed.

(** The loop over a concatenation is the loop over the second part
    started from what the first part leaves. *)
Lemma ray_cast_loop_app ox oy oz dx dy max_range l2 :
  forall l1 i nd no,
    ray_cast_loop sqrt ox oy oz dx dy max_range (l1 ++ l2) i nd no =
    (res <- ray_cast_loop sqrt ox oy oz dx dy max_range l1 i nd no ;;
     ray_cast_loop sqrt ox oy oz dx dy max_range l2
       (i + List.length l1)%nat (fst res) (snd res)).
Proof.
  induction l1 as [|o rest IH]; intros i nd no.
  - cbn. now rewrite Nat.add_0_r.
  - cbn [app ray_cast_loop List.length].
    replace (i + S (List.length rest))%nat with (S i + List.length rest)%nat
      by lia.
    destruct (negb _); [apply IH|].
    destruct (ray_intersect_2d sqrt o ox oy dx dy max_range) as [[d0|]|e];
      cbn [Py.bind]; try apply IH; [|reflexivity].
    destruct (Py.ltb d0 nd); apply IH.
Qed.

(** X4.  Adding an obstacle to a scene never lengthens a ray: when both
    casts return, the new distance is at most the old one, and either the
    result is unchanged or the new obstacle is returned, pierced strictly
    nearer than the old result. *)
Theorem ray_cast_add_obstacle env o ox oy oz dx dy max_range d r d' r' :
  ray_cast sqrt env ox oy oz dx dy max_range = Py.Ok (d, r) ->
  ray_cast sqrt (add_obstacle env o) ox oy oz dx dy max_range = Py.Ok (d', r') ->
  d' <= d /\
  ((d', r') = (d, r) \/
   (d' < d /\ r' = Some (List.length env) /\
    pierced sqrt o ox oy oz dx dy max_range d')).
Proof.
  unfold ray_cast, add_obstacle. intros H1.
  rewrite ray_cast_loop_app, H1. cbn [Py.bind fst snd ray_cast_loop Nat.add].
  destruct (overlaps_altitude o oz default_margin) eqn:Hov; cbn [negb].
  - destruct (ray_intersect_2d sqrt o ox oy dx dy max_range) as [[d0|]|e] eqn:Hi;
      cbn [Py.bind]; try discriminate.
    + destruct (Py.ltb d0 d) eqn:Hlt; intros [= <- <-]; qprop.
      * split; [lra|]. right. split; [exact Hlt|]. split; [reflexivity|].
        split; assumption.
      * split; [lra|]. now left.
    + intros [= <- <-]. split; [lra|]. now left.
  - intros [= <- <-]. split; [lra|]. now left.
Qed.

End RayCaster.

(** *** Concrete scenes *)

Lemma ray_intersect_2d_range_witness :
  0 <= 740 # 2 <= 500.
Proof.
  exact (ray_intersect_2d_range sqrt_floor north_wall 0 0 0 1 500 (740 # 2)
           eq_refl).
Defined.

Lemma check_collision_radius_mono_witness :
  check_collision sqrt_floor default_environment 180 200 50 40 = true.
Proof.
  apply (check_collision_radius_mono sqrt_floor default_environment
           180 200 50 20 40).
  - intro E; discriminate E.
  - reflexivity.
Defined.

(** A scene holding the north wall only, seen from (0, 0, 100) along +x:
    nothing is hit; once [low_box] is added it is returned at 90 cm. *)
Lemma ray_cast_add_obstacle_witness :
  (180 # 2) <= 500 /\
  ((180 # 2, Some 1%nat) = (500, @None nat) \/
   (180 # 2 < 500 /\ Some 1%nat = Some (List.length [north_wall]) /\
    pierced sqrt_floor low_box 0 0 100 1 0 500 (180 # 2))).
Proof.
  exact (ray_cast_add_obstacle sqrt_floor [north_wall] low_box
           0 0 100 1 0 500 500 None (180 # 2) (Some 1%nat) eq_refl eq_refl).
Defined.

End EnvMore.

(* ================================================================= *)
(** ** The depth camera *)

Module CameraFacts.
Import Camera.

Lemma type_value_nonempty t : Env.type_value t <> EmptyString.
Proof. destruct t; discriminate. Qed.

Lemma Forall2_nth_error_r {A B} (P : A -> B -> Prop) l1 l2 :
  Forall2 P l1 l2 ->
  forall i b, nth_error l2 i = Some b ->
  exists a, nth_error l1 i = Some a /\ P a b.
Proof.
  induction 1 as [|a b l1 l2 Hab _ IH]; intros [|i] b'; simpl;
    try discriminate.
  - intros [= <-]. eauto.
  - apply IH.
Qed.

(** X6.  The rays of a scan are spread from the left edge of the field
    of view to the right edge: [frac] is [-0.5] for ray 0, [+0.5] for the
    last ray of a scan of at least two, never decreases with the ray
    number and stays within [-0.5, 0.5].  A scan of a single ray looks
    along the left edge. *)
Theorem ray_frac_span n i j :
  (i <= j)%nat -> (j < n)%nat ->
  ray_frac n 0 == - (1 # 2) /\
  ((2 <= n)%nat -> ray_frac n (n - 1) == 1 # 2) /\
  ray_frac n i <= ray_frac n j /\
  - (1 # 2) <= ray_frac n j <= 1 # 2.
Proof.
  intros Hij Hjn. unfold ray_frac.
  set (m := Z.max (Z.of_nat n - 1) 1).
  assert (Hm : (1 <= m)%Z) by (unfold m; lia).
  assert (Hj : (Z.of_nat j <= m)%Z) by (unfold m; lia).
  assert (Hmq : 1 <= inject_Z m).
  { change 1 with (inject_Z 1). rewrite <- Zle_Qle. exact Hm. }
  assert (Hdiv : forall k : Z, inject_Z k / inject_Z m * inject_Z m == inject_Z k).
  { intro k. field. lra. }
  assert (Hle : forall a b : Z, (a <= b)%Z ->
            inject_Z a / inject_Z m <= inject_Z b / inject_Z m).
  { intros a b Hab. apply Qmult_le_compat_r.
    - now rewrite <- Zle_Qle.
    - apply Qlt_le_weak, Qinv_lt_0_compat. lra. }
  split; [|split; [|split]].
  - change (inject_Z (Z.of_nat 0)) with 0. unfold Qdiv. ring.
  - intro H2. assert (Em : m = Z.of_nat (n - 1)) by (unfold m; lia).
    rewrite <- Em.
    assert (E1 : inject_Z m / inject_Z m == 1) by (field; lra).
    rewrite E1. reflexivity.
  - apply Qplus_le_l. apply Hle. lia.
  - pose proof (Hle 0%Z (Z.of_nat j) ltac:(lia)) as H0.
    pose proof (Hle (Z.of_nat j) m Hj) as H1.
    assert (E0 : inject_Z 0 / inject_Z m == 0) by (unfold Qdiv; ring).
    assert (E1 : inject_Z m / inject_Z m == 1) by (field; lra).
    rewrite E0 in H0. rewrite E1 in H1. split; lra.
Qed.

Section Capture.

Variables sqrt cos sin radians : Q -> Q.
Variable cam : SimulatedCamera.
Variable state : Drone.DroneState.
Variable environment : Env.Environment.

(** One ray: the distance is the one [ray_cast] returns; a ray without
    obstacle records the empty type, height 0 and distance [max_range]. *)
Lemma cast_ray_ok i dist ty h :
  cast_ray sqrt cos sin radians cam state environment i = Py.Ok (dist, ty, h) ->
  (0 <= cam_max_range cam -> 0 <= dist <= cam_max_range cam) /\
  (ty = EmptyString -> dist = cam_max_range cam /\ h = 0).
Proof.
  unfold cast_ray.
  match goal with
  | |- context [Env.ray_cast ?s ?e ?a ?b ?c ?dx ?dy ?m] =>
    destruct (Env.ray_cast s e a b c dx dy m) as [[d r]|e'] eqn:Hrc
  end; cbn [Py.bind fst snd]; [|discriminate].
  unfold Env.ray_cast in Hrc.
  apply EnvMore.ray_cast_loop_result in Hrc.
  destruct Hrc as [[-> ->]|(k & o & -> & Hk & Hp & Hlt)].
  - intros [= <- <- <-]. split; [intro; lra|auto].
  - cbn [Nat.add]. rewrite Hk. intros [= <- <- <-]. split.
    + intros _. destruct Hp as [_ Hp].
      apply EnvMore.intersect_bounds in Hp. exact Hp.
    + intro E. now apply type_value_nonempty in E.
Qed.

(** The loop appends, ray by ray, what [cast_ray] returns. *)
Lemma capture_loop_ok range : forall ds ts hs out,
  capture_loop sqrt cos sin radians cam state environment range ds ts hs
    = Py.Ok out ->
  exists rs,
    Forall2 (fun i r =>
      cast_ray sqrt cos sin radians cam state environment i = Py.Ok r) range rs /\
    out = (ds ++ map (fun r => fst (fst r)) rs,
           ts ++ map (fun r => snd (fst r)) rs,
           hs ++ map snd rs).
Proof.
  induction range as [|i rest IH]; intros ds ts hs out; simpl.
  - intros [= <-]. exists []. split; [constructor|]. now rewrite !app_nil_r.
  - destruct (cast_ray sqrt cos sin radians cam state environment i)
      as [[[dist ty] h]|e] eqn:Hc; cbn [Py.bind]; [|discriminate].
    intro H. destruct (IH _ _ _ _ H) as (rs & Hrs & ->).
    exists ((dist, ty, h) :: rs). split; [now constructor|].
    cbn [map fst snd]. now rewrite <- !app_assoc.
Qed.

Lemma capture_inv now f :
  capture sqrt cos sin radians cam state environment now = Py.Ok f ->
  exists rs,
    Forall2 (fun i r =>
      cast_ray sqrt cos sin radians cam state environment i = Py.Ok r)
      (seq 0 (cam_num_rays cam)) rs /\
    f = mkFrame (map (fun r => fst (fst r)) rs) (map (fun r => snd (fst r)) rs)
          (map snd rs) (cam_fov_h cam) (cam_num_rays cam) (cam_max_range cam)
          (Drone.yaw state) (Drone.z state) now.
Proof.
  unfold capture.
  destruct (capture_loop sqrt cos sin radians cam state environment
              (seq 0 (cam_num_rays cam)) [] [] []) as [[[ds ts] hs]|e] eqn:Hl;
    cbn [Py.bind]; [|discriminate].
  intros [= <-]. destruct (capture_loop_ok _ _ _ _ _ Hl) as (rs & Hrs & [= -> -> ->]).
  exists rs. split; [exact Hrs|reflexivity].
Qed.

(** X7.  A frame returned by [capture] has one depth, one type and one
    height per ray, [num_rays] of each, carries the camera's parameters
    and the drone's yaw and altitude, and every ray recorded with the
    empty type has depth exactly [max_range] and height 0. *)
Theorem capture_frame_shape now f :
  capture sqrt cos sin radians cam state environment now = Py.Ok f ->
  num_rays f = cam_num_rays cam /\
  List.length (depths f) = num_rays f /\
  List.length (obstacle_types f) = num_rays f /\
  List.length (obstacle_heights f) = num_rays f /\
  fov_h f = cam_fov_h cam /\ max_range f = cam_max_range cam /\
  drone_yaw f = Drone.yaw state /\ drone_z f = Drone.z state /\
  forall i, nth_error (obstacle_types f) i = Some EmptyString ->
    nth_error (depths f) i = Some (max_range f) /\
    nth_error (obstacle_heights f) i = Some 0.
Proof.
  intro H. destruct (capture_inv now f H) as (rs & Hrs & ->).
  cbn [num_rays depths obstacle_types obstacle_heights fov_h max_range
       drone_yaw drone_z].
  assert (Hlen : List.length rs = cam_num_rays cam).
  { apply Forall2_length in Hrs. now rewrite length_seq in Hrs. }
  rewrite !length_map, Hlen.
  repeat (split; [reflexivity|]).
  intros i Hi. rewrite nth_error_map in Hi.
  destruct (nth_error rs i) as [[[dist ty] h]|] eqn:Hr; [|discriminate].
  cbn in Hi. injection Hi as Hty.
  destruct (Forall2_nth_error_r _ _ _ Hrs i _ Hr) as (k & _ & Hc).
  destruct (cast_ray_ok _ _ _ _ Hc) as [_ Hno].
  destruct (Hno Hty) as [-> ->].
  rewrite !nth_error_map, Hr. split; reflexivity.
Qed.

(** X8.  With a non-negative [max_range], every depth of a captured
    frame lies between 0 and [max_range]. *)
Theorem capture_depths_bounded now f :
  0 <= cam_max_range cam ->
  capture sqrt cos sin radians cam state environment now = Py.Ok f ->
  Forall (fun d => 0 <= d <= max_range f) (depths f).
Proof.
  intros Hm H. destruct (capture_inv now f H) as (rs & Hrs & ->).
  cbn [depths max_range]. apply Forall_forall. intros d Hd.
  apply in_map_iff in Hd. destruct Hd as ([[dist ty] h] & <- & Hin).
  apply In_nth_error in Hin. destruct Hin as [i Hi].
  destruct (Forall2_nth_error_r _ _ _ Hrs i _ Hi) as (k & _ & Hc).
  destruct (cast_ray_ok _ _ _ _ Hc) as [Hb _]. now apply Hb.
Qed.

(** When the direction of no angle is the null vector, [capture]
    returns. *)
Lemma capture_returns now :
  (forall a, ~ cos a * cos a + sin a * sin a == 0) ->
  exists f, capture sqrt cos sin radians cam state environment now = Py.Ok f.
Proof.
  intro Hdir.
  assert (Hray : forall i, exists r,
            cast_ray sqrt cos sin radians cam state environment i = Py.Ok r).
  { intro i. unfold cast_ray.
    match goal with
    | |- context [Env.ray_cast ?s ?e ?a ?b ?c (cos ?ang) ?dy ?m] =>
      destruct (EnvFacts.ray_cast_loop_spec s a b c (cos ang) (sin ang) m
                  (Hdir ang) e 0%nat m None) as (d & r & Hrc & _)
    end.
    unfold Env.ray_cast. rewrite Hrc. cbn [Py.bind fst snd].
    destruct r as [k|]; [destruct (nth_error environment k)|]; eauto. }
  assert (Hloop : forall range ds ts hs, exists out,
            capture_loop sqrt cos sin radians cam state environment
              range ds ts hs = Py.Ok out).
  { induction range as [|i rest IH]; intros ds ts hs; simpl; [eauto|].
    destruct (Hray i) as [[[dist ty] h] ->]. cbn [Py.bind]. apply IH. }
  unfold capture.
  destruct (Hloop (seq 0 (cam_num_rays cam)) [] [] []) as [[[ds ts] hs] ->].
  cbn [Py.bind]. eauto.
Qed.

End Capture.

(** *** A concrete scan *)

Lemma ray_frac_span_witness :
  ray_frac 48 0 == - (1 # 2) /\
  ((2 <= 48)%nat -> ray_frac 48 (48 - 1) == 1 # 2) /\
  ray_frac 48 0 <= ray_frac 48 47 /\
  - (1 # 2) <= ray_frac 48 47 <= 1 # 2.
Proof.
  apply (ray_frac_span 48 0 47); lia.
Defined.

Lemma scan_frame_captured : scan_result = Py.Ok scan_frame.
Proof. vm_compute. reflexivity. Qed.

Lemma capture_frame_shape_witness :
  List.length (depths scan_frame) = num_rays scan_frame /\
  num_rays scan_frame = 48%nat.
Proof.
  destruct (capture_frame_shape _ _ _ _ _ _ _ _ _ scan_frame_captured)
    as (H1 & H2 & _).
  split; [exact H2 | exact H1].
Defined.

Lemma capture_depths_bounded_witness :
  Forall (fun d => 0 <= d <= max_range scan_frame) (depths scan_frame).
Proof.
  apply (capture_depths_bounded Env.sqrt_floor Sim.cos_at_0 Sim.sin_at_0
           Sim.radians_at_0 default_camera (Sim._state Sim.cruising)
           Env.default_environment 0 scan_frame).
  - intro E; discriminate E.
  - exact scan_frame_captured.
Defined.

End CameraFacts.

(* ================================================================= *)
(** ** More on the avoidance policy and the navigator *)

Module NavMore.
Import Camera Nav.

Lemma int_le q hi : q <= inject_Z hi -> (Py.int q <= hi)%Z.
Proof.
  intro H. unfold Py.int. destruct (Py.leb 0 q).
  - rewrite <- (Qfloor_Z hi). now apply Qfloor_resp_le.
  - rewrite <- (Qceiling_Z hi). now apply Qceiling_resp_le.
Qed.

Lemma int_ge q lo : inject_Z lo <= q -> (lo <= Py.int q)%Z.
Proof.
  intro H. unfold Py.int. destruct (Py.leb 0 q).
  - rewrite <- (Qfloor_Z lo). now apply Qfloor_resp_le.
  - rewrite <- (Qceiling_Z lo). now apply Qceiling_resp_le.
Qed.

(** [int(max(lo, min(hi, v)))] stays within [lo], [hi]. *)
Lemma int_clamped (lo hi : Z) (ql qh v : Q) :
  ql == inject_Z lo -> qh == inject_Z hi -> (lo <= hi)%Z ->
  (lo <= Py.int (Py.max ql (Py.min qh v)) <= hi)%Z.
Proof.
  intros El Eh Hb.
  assert (Hq : ql <= qh) by (rewrite El, Eh, <- Zle_Qle; exact Hb).
  split.
  - apply int_ge. rewrite <- El. apply EnvMore.max_ge_l.
  - apply int_le. rewrite <- Eh.
    destruct (PyFacts.max_spec ql (Py.min qh v))
      as [[H ->]|[H ->]]; [apply EnvMore.min_le_l|exact Hq].
Qed.

Lemma hundredth x : x / 100 == x * (1 # 100).
Proof. field. Qed.

Lemma int_lt_nonneg q hi : 0 <= q -> q < inject_Z hi -> (Py.int q < hi)%Z.
Proof.
  intros H0 H. unfold Py.int.
  assert (E : Py.leb 0 q = true) by now apply PyFacts.leb_le.
  rewrite E. pose proof (Qfloor_le q) as Hf.
  assert (Hlt : inject_Z (Qfloor q) < inject_Z hi) by lra.
  now rewrite <- Zlt_Qlt in Hlt.
Qed.

(** The three regimes of [steer], read on the centre zone. *)
Lemma steer_cases zones state goal_bearing goal_alt :
  let out := steer zones state goal_bearing goal_alt in
  let yaw_cmd := fst (fst (fst out)) in
  let fwd_cmd := snd (fst (fst out)) in
  let alt_cmd := snd (fst out) in
  (- 30 <= alt_cmd <= 30)%Z /\
  ((zone zones 2 < CRITICAL_DISTANCE /\ fwd_cmd = (- 20)%Z /\
    (yaw_cmd = 70%Z \/ yaw_cmd = (- 70)%Z) /\ snd out = "critical"%string) \/
   (CRITICAL_DISTANCE <= zone zones 2 < SAFETY_DISTANCE /\
    (22 <= fwd_cmd <= 44)%Z /\
    (yaw_cmd = 50%Z \/ yaw_cmd = (- 50)%Z) /\ snd out = "avoiding"%string) \/
   (SAFETY_DISTANCE <= zone zones 2 /\ fwd_cmd = 45%Z /\
    (- 60 <= yaw_cmd <= 60)%Z /\ snd out = "clear"%string)).
Proof.
  cbv zeta. unfold steer.
  pose proof (int_clamped (- 30) 30 (- 30) 30
                ((goal_alt - Drone.z state) * (1 # 2))
                ltac:(reflexivity) ltac:(reflexivity) ltac:(lia)) as Halt.
  pose proof (int_clamped (- 60) 60 (- 60) 60
    ((Py.fmod (goal_bearing - Drone.yaw state + 180) 360 - 180) * (4 # 5))
    ltac:(reflexivity) ltac:(reflexivity) ltac:(lia)) as Hyaw.
  unfold CRITICAL_DISTANCE, SAFETY_DISTANCE, CRUISE_SPEED.
  destruct (Py.ltb (zone zones 2) 50) eqn:E1; cbn [fst snd].
  - split; [exact Halt|]. left. qprop. split; [exact E1|].
    split; [reflexivity|]. split; [|reflexivity].
    destruct (Py.ltb _ _); auto.
  - destruct (Py.ltb (zone zones 2) 100) eqn:E2; cbn [fst snd].
    + split; [exact Halt|]. right. left. qprop.
      split; [split; assumption|]. split.
      * pose proof (hundredth (zone zones 2)) as Hh.
        change (inject_Z 45) with 45.
        assert (Hlo : (22 <= Py.int (45 * (zone zones 2 / 100)))%Z).
        { apply int_ge. change (inject_Z 22) with 22. lra. }
        assert (Hhi : (Py.int (45 * (zone zones 2 / 100)) < 45)%Z).
        { apply int_lt_nonneg; [lra|]. change (inject_Z 45) with 45. lra. }
        lia.
      * split; [|reflexivity].
        repeat match goal with
               | |- context [if ?c then _ else _] => destruct c
               end; auto.
    + split; [exact Halt|]. right. right. qprop.
      split; [exact E2|]. split; [reflexivity|]. split; [|reflexivity].
      destruct (Py.ltb (zone zones 0) _); destruct (Py.ltb (zone zones 4) _);
        lia.
Qed.

(** X9.  Whatever the zones, the state and the goal, the commands of
    the policy fit the RC range: yaw within [-70, 70], forward within
    [-20, 45], vertical within [-30, 30]. *)
Theorem steer_within_rc_range zones state goal_bearing goal_alt :
  let out := steer zones state goal_bearing goal_alt in
  (- 70 <= fst (fst (fst out)) <= 70)%Z /\
  (- 20 <= snd (fst (fst out)) <= 45)%Z /\
  (- 30 <= snd (fst out) <= 30)%Z.
Proof.
  cbv zeta.
  destruct (steer_cases zones state goal_bearing goal_alt)
    as (Halt & [(_ & Hf & Hy & _)|[(_ & Hf & Hy & _)|(_ & Hf & Hy & _)]]);
    cbv zeta in *; (split; [|split; [|exact Halt]]); lia.
Qed.

(** X10.  The three regimes, keyed on the least depth of the centre zone:
    below [CRITICAL] the drone backs up at -20 and turns at 70 to one
    side; from [CRITICAL] up to [SAFETY] it advances at a speed between 22
    and 44 (the floor of 10 in the code is never reached) and turns at 50
    to one side; from [SAFETY] on it cruises at 45 with a yaw within
    [-60, 60]. *)
Theorem steer_regimes zones state goal_bearing goal_alt :
  let out := steer zones state goal_bearing goal_alt in
  let yaw_cmd := fst (fst (fst out)) in
  let fwd_cmd := snd (fst (fst out)) in
  (zone zones 2 < CRITICAL_DISTANCE /\ fwd_cmd = (- 20)%Z /\
   (yaw_cmd = 70%Z \/ yaw_cmd = (- 70)%Z) /\ snd out = "critical"%string) \/
  (CRITICAL_DISTANCE <= zone zones 2 < SAFETY_DISTANCE /\
   (22 <= fwd_cmd <= 44)%Z /\
   (yaw_cmd = 50%Z \/ yaw_cmd = (- 50)%Z) /\ snd out = "avoiding"%string) \/
  (SAFETY_DISTANCE <= zone zones 2 /\ fwd_cmd = 45%Z /\
   (- 60 <= yaw_cmd <= 60)%Z /\ snd out = "clear"%string).
Proof.
  exact (proj2 (steer_cases zones state goal_bearing goal_alt)).
Qed.

(** X11.  In the caution regime the turn goes to an open side: if only
    one side has a zone that clears [CRITICAL] the drone turns to that
    side, whatever the side of the goal; if both sides have one it turns
    to the side of the goal (left when the heading error is negative). *)
Theorem caution_turns_to_open_side zones state goal_bearing goal_alt :
  CRITICAL_DISTANCE <= zone zones 2 < SAFETY_DISTANCE ->
  let best_left := Py.max (zone zones 0) (zone zones 1) in
  let best_right := Py.max (zone zones 3) (zone zones 4) in
  let heading_error :=
    Py.fmod (goal_bearing - Drone.yaw state + 180) 360 - 180 in
  let yaw_cmd := fst (fst (fst (steer zones state goal_bearing goal_alt))) in
  (best_left <= CRITICAL_DISTANCE -> CRITICAL_DISTANCE < best_right ->
     yaw_cmd = 50%Z) /\
  (best_right <= CRITICAL_DISTANCE -> CRITICAL_DISTANCE < best_left ->
     yaw_cmd = (- 50)%Z) /\
  (CRITICAL_DISTANCE < best_left -> CRITICAL_DISTANCE < best_right ->
     yaw_cmd = if Py.ltb heading_error 0 then (- 50)%Z else 50%Z).
Proof.
  intros [Hlo Hhi]. cbv zeta. unfold steer.
  unfold CRITICAL_DISTANCE, SAFETY_DISTANCE in *.
  assert (E1 : Py.ltb (zone zones 2) 50 = false) by (apply PyFacts.ltb_ge; lra).
  assert (E2 : Py.ltb (zone zones 2) 100 = true) by (apply PyFacts.ltb_lt; lra).
  rewrite E1, E2. cbn [fst snd].
  set (bl := Py.max (zone zones 0) (zone zones 1)).
  set (br := Py.max (zone zones 3) (zone zones 4)).
  destruct (Py.ltb 50 bl) eqn:Bl; destruct (Py.ltb 50 br) eqn:Br; qprop;
    destruct (Py.ltb _ 0);
    (split; [|split]); intros; try reflexivity; exfalso; lra.
Qed.

(** X12.  In the clear regime an obstacle in the far-right zone nearer
    than [0.6 * SAFETY] forces a yaw of at most -15; one in the far-left
    zone alone forces a yaw of at least 15; with both outer zones that
    near, the yaw is exactly -15. *)
Theorem clear_nudge zones state goal_bearing goal_alt :
  SAFETY_DISTANCE <= zone zones 2 ->
  let yaw_cmd := fst (fst (fst (steer zones state goal_bearing goal_alt))) in
  (zone zones 4 < (6 # 10) * SAFETY_DISTANCE -> (yaw_cmd <= - 15)%Z) /\
  (zone zones 0 < (6 # 10) * SAFETY_DISTANCE ->
   (6 # 10) * SAFETY_DISTANCE <= zone zones 4 -> (15 <= yaw_cmd)%Z) /\
  (zone zones 0 < (6 # 10) * SAFETY_DISTANCE ->
   zone zones 4 < (6 # 10) * SAFETY_DISTANCE -> yaw_cmd = (- 15)%Z).
Proof.
  intro Hc. cbv zeta. unfold steer.
  unfold CRITICAL_DISTANCE, SAFETY_DISTANCE in *.
  assert (E1 : Py.ltb (zone zones 2) 50 = false) by (apply PyFacts.ltb_ge; lra).
  assert (E2 : Py.ltb (zone zones 2) 100 = false) by (apply PyFacts.ltb_ge; lra).
  rewrite E1, E2. cbn [fst snd].
  destruct (Py.ltb (zone zones 0) (100 * (6 # 10))) eqn:Z0;
    destruct (Py.ltb (zone zones 4) (100 * (6 # 10))) eqn:Z4; qprop;
    (split; [|split]); intros; try lia; exfalso; lra.
Qed.

(** A frame of fewer than five rays makes the zone loop raise. *)
Lemma compute_commands_few_rays frame state goal_bearing goal_alt :
  List.length (depths frame) = num_rays frame ->
  (num_rays frame < 5)%nat ->
  _compute_commands frame state goal_bearing goal_alt = Py.Raise Py.ValueError.
Proof.
  intros Hn H5.
  assert (Hnil : zone_depths (depths frame) (num_rays frame) 0 = []).
  { apply length_zero_iff_nil.
    rewrite (NavFacts.zone_depths_length _ _ 0 Hn).
    change (0 <? 4)%nat with true. cbv iota. apply Nat.div_small. exact H5. }
  unfold _compute_commands. rewrite NavFacts.compute_zones_unroll, Hnil.
  reflexivity.
Qed.

(** A frame of five rays or more makes it return. *)
Lemma compute_commands_five_rays frame state goal_bearing goal_alt :
  List.length (depths frame) = num_rays frame ->
  (5 <= num_rays frame)%nat ->
  exists zones,
    compute_zones (depths frame) (num_rays frame) = Py.Ok zones /\
    _compute_commands frame state goal_bearing goal_alt
      = Py.Ok (steer zones state goal_bearing goal_alt).
Proof.
  intros Hn H5.
  assert (Hk : (1 <= num_rays frame / 5)%nat).
  { apply (Nat.div_le_lower_bound (num_rays frame) 5 1); lia. }
  assert (Hne : forall z, (z < 5)%nat ->
            zone_depths (depths frame) (num_rays frame) z <> []).
  { intros z Hz E. apply (f_equal (@List.length Q)) in E.
    rewrite (NavFacts.zone_depths_length _ _ z Hn) in E. cbn [List.length] in E.
    pose proof (Nat.div_mod_eq (num_rays frame) 5).
    destruct (z <? 4)%nat eqn:Ez; [lia|].
    apply Nat.ltb_ge in Ez. assert (z = 4)%nat by lia. subst z. lia. }
  unfold _compute_commands. rewrite NavFacts.compute_zones_unroll.
  destruct (PyFacts.min_list_nonempty _ (Hne 0%nat ltac:(lia))) as [m0 ->].
  destruct (PyFacts.min_list_nonempty _ (Hne 1%nat ltac:(lia))) as [m1 ->].
  destruct (PyFacts.min_list_nonempty _ (Hne 2%nat ltac:(lia))) as [m2 ->].
  destruct (PyFacts.min_list_nonempty _ (Hne 3%nat ltac:(lia))) as [m3 ->].
  destruct (PyFacts.min_list_nonempty _ (Hne 4%nat ltac:(lia))) as [m4 ->].
  cbn [Py.bind]. eauto.
Qed.

(** X13.  [start] raises (a [RuntimeError]) exactly when the navigator
    is idle and has no destination, and then changes nothing; on an
    active navigator it changes nothing either; after [set_destination]
    it never raises and an idle navigator becomes active with status
    ["navigating"] and [reached] cleared. *)
Theorem start_needs_destination nav gx gy gz :
  ((exists e, snd (start nav) = Py.Raise e) <->
     _active nav = false /\ _destination nav = None) /\
  (forall e, snd (start nav) = Py.Raise e ->
     e = Py.RuntimeError /\ fst (start nav) = nav) /\
  (_active nav = true -> start nav = (nav, Py.Ok tt)) /\
  snd (start (set_destination gx gy gz nav)) = Py.Ok tt /\
  (_active nav = false ->
   let nav1 := fst (start (set_destination gx gy gz nav)) in
   _active nav1 = true /\ _status nav1 = "navigating"%string /\
   _reached nav1 = false /\ _destination nav1 = Some (gx, gy, gz)).
Proof.
  unfold start, set_destination.
  cbn [_active _destination _last_frame _status _avoidance_action _reached].
  destruct (_active nav) eqn:Ha; destruct (_destination nav) eqn:Hd;
    cbn [fst snd _active _destination _status _reached].
  - split; [split; [intros [e He]; discriminate|intros [? _]; discriminate]|].
    split; [discriminate|]. split; [reflexivity|]. split; [reflexivity|].
    discriminate.
  - split; [split; [intros [e He]; discriminate|intros [? _]; discriminate]|].
    split; [discriminate|]. split; [reflexivity|]. split; [reflexivity|].
    discriminate.
  - split; [split; [intros [e He]; discriminate|intros [_ ?]; discriminate]|].
    split; [discriminate|]. split; [discriminate|]. split; [reflexivity|].
    intros _. auto.
  - split; [split; [auto|intros _; eauto]|].
    split; [intros e [= <-]; auto|]. split; [discriminate|].
    split; [reflexivity|]. intros _. auto.
Qed.

Section Loop.

Variables sqrt cos sin radians : Q -> Q.
Variable atan2 : Q -> Q -> Q.
Variable degrees : Q -> Q.
Variable environment : Env.Environment.
Variable camera : SimulatedCamera.

(** Within the RC range [send_rc] latches what it is given. *)
Lemma clamp_id (v : Z) :
  (- 100 < v < 100)%Z ->
  Py.max (-100) (Py.min 100 (inject_Z v)) = inject_Z v.
Proof.
  intros [Hl Hu].
  assert (H1 : inject_Z v < 100).
  { change 100 with (inject_Z 100). now rewrite <- Zlt_Qlt. }
  assert (H2 : -100 < inject_Z v).
  { change (-100) with (inject_Z (- 100)). now rewrite <- Zlt_Qlt. }
  unfold Py.min. apply PyFacts.ltb_lt in H1. rewrite H1.
  unfold Py.max. apply PyFacts.ltb_lt in H2. now rewrite H2.
Qed.

(** X14.  A pass of the navigation loop that ends the loop leaves the
    sticks at (0, 0, 0, 0) and the navigator inactive; if the navigator
    was active the pass ended on arrival, with [reached] set and status
    ["reached"]. *)
Theorem nav_step_exit_idles now nav drone nav1 drone1 :
  nav_step sqrt cos sin radians atan2 degrees environment camera now nav drone
    = ((nav1, drone1), Py.Ok Exit) ->
  Sim._rc_values drone1 = (0, 0, 0, 0) /\
  _active nav1 = false /\
  (_active nav = true ->
     _reached nav1 = true /\ _status nav1 = "reached"%string /\
     _avoidance_action nav1 = "none"%string).
Proof.
  unfold nav_step.
  destruct (_active nav) eqn:Ha; cbn [negb].
  - destruct (negb _); [discriminate|].
    destruct (capture _ _ _ _ _ _ _ _) as [frame|e]; [|discriminate].
    cbn [_destination].
    destruct (_destination nav) as [[[gx gy] gz]|]; [|discriminate].
    destruct (Py.ltb _ ARRIVAL_RADIUS).
    + intros [= <- <-]. cbn. auto.
    + destruct (_compute_commands _ _ _ _) as [[[[yc fc] ac] act]|e];
        discriminate.
  - intros [= <- <-]. cbn. split; [reflexivity|]. split; [exact Ha|].
    discriminate.
Qed.

(** After [stop] the sticks are at (0, 0, 0, 0) and the next pass of the
    loop ends it without touching navigator or sticks again. *)
Lemma stop_idles now nav drone :
  let nav1 := fst (stop nav drone) in
  let drone1 := snd (stop nav drone) in
  Sim._rc_values drone1 = (0, 0, 0, 0) /\
  _active nav1 = false /\ _status nav1 = "stopped"%string /\
  Sim._state drone1 = Sim._state drone /\
  nav_step sqrt cos sin radians atan2 degrees environment camera now nav1 drone1
    = ((nav1, drone1), Py.Ok Exit).
Proof.
  cbv zeta. unfold stop, nav_step. cbn. repeat split; reflexivity.
Qed.

(** X15.  A pass that goes on to the next one was made by an active
    navigator and never moves the drone itself.  Over a drone that is
    not flying it changes neither navigator nor sticks; over a flying
    drone without destination it stores the scan and leaves the sticks
    as they were; over a flying drone with a destination it has taken a
    scan, found the goal at least [ARRIVAL_RADIUS] away, and latched
    exactly the command [_compute_commands] returned for that scan, the
    state read and the bearing of the goal: lateral stick 0, then its
    forward, vertical and yaw values, unclamped; the action is
    recorded. *)
Theorem nav_step_command now nav drone nav1 drone1 :
  nav_step sqrt cos sin radians atan2 degrees environment camera now nav drone
    = ((nav1, drone1), Py.Ok Continue) ->
  let state := snd (Sim.get_state now drone) in
  _active nav = true /\
  (Drone.x (Sim._state drone1) = Drone.x (Sim._state drone) /\
   Drone.y (Sim._state drone1) = Drone.y (Sim._state drone) /\
   Drone.z (Sim._state drone1) = Drone.z (Sim._state drone) /\
   Drone.yaw (Sim._state drone1) = Drone.yaw (Sim._state drone)) /\
  (Drone.is_flying (Sim._state drone) = false ->
     nav1 = nav /\ Sim._rc_values drone1 = Sim._rc_values drone) /\
  (Drone.is_flying (Sim._state drone) = true -> _destination nav = None ->
     Sim._rc_values drone1 = Sim._rc_values drone /\
     exists frame,
       capture sqrt cos sin radians camera state environment now
         = Py.Ok frame /\
       _last_frame nav1 = Some frame) /\
  (forall gx gy gz,
     Drone.is_flying (Sim._state drone) = true ->
     _destination nav = Some (gx, gy, gz) ->
     exists frame yaw_cmd fwd_cmd alt_cmd action,
       capture sqrt cos sin radians camera state environment now
         = Py.Ok frame /\
       Py.ltb (sqrt ((Drone.x state - gx) ^ 2 + (Drone.y state - gy) ^ 2
                     + (Drone.z state - gz) ^ 2)) ARRIVAL_RADIUS = false /\
       _compute_commands frame state
         (Py.fmod (degrees (atan2 (gy - Drone.y state) (gx - Drone.x state)))
                  360) gz
         = Py.Ok ((yaw_cmd, fwd_cmd, alt_cmd), action) /\
       Sim._rc_values drone1
         = (0, inject_Z fwd_cmd, inject_Z alt_cmd, inject_Z yaw_cmd) /\
       _last_frame nav1 = Some frame /\
       _avoidance_action nav1 = action).
Proof.
  unfold nav_step. cbv zeta.
  destruct (_active nav) eqn:Ha; cbn [negb]; [|discriminate].
  change (Drone.is_flying (snd (Sim.get_state now drone)))
    with (Drone.is_flying (Sim._state drone)).
  destruct (Drone.is_flying (Sim._state drone)) eqn:Hf; cbn [negb].
  2:{ intros [= <- <-]. cbn. split; [reflexivity|]. split; [auto|].
      split; [auto|]. split; [discriminate|]. intros; discriminate. }
  destruct (capture _ _ _ _ _ _ _ _) as [frame|e] eqn:Hcap; [|discriminate].
  cbn [_destination].
  destruct (_destination nav) as [[[gx gy] gz]|] eqn:Hd.
  2:{ intros [= <- <-]. cbn. split; [reflexivity|]. split; [auto|].
      split; [discriminate|]. split; [|intros; discriminate].
      intros _ _. split; [reflexivity|]. exists frame. split; reflexivity. }
  destruct (Py.ltb _ ARRIVAL_RADIUS) eqn:Hfar; [discriminate|].
  destruct (_compute_commands _ _ _ _) as [[[[yc fc] ac] act]|e] eqn:Hc;
    [|discriminate].
  intros [= <- <-].
  split; [reflexivity|]. split; [cbn; auto|].
  split; [discriminate|]. split; [intros _ [=]|].
  intros gx' gy' gz' _ [= <- <- <-].
  exists frame, yc, fc, ac, act.
  split; [reflexivity|]. split; [exact Hfar|]. split; [exact Hc|].
  split; [|split; reflexivity].
  unfold _compute_commands in Hc.
  destruct (compute_zones _ _) as [zones|e]; [|discriminate].
  cbn [Py.bind] in Hc. injection Hc as Hc.
  match type of Hc with
  | steer ?zs ?s ?g ?a = _ => pose proof (steer_cases zs s g a) as Hs
  end.
  cbv zeta in Hs. rewrite Hc in Hs. cbn [fst snd] in Hs.
  assert (Hb : (- 70 <= yc <= 70)%Z /\ (- 20 <= fc <= 45)%Z /\
               (- 30 <= ac <= 30)%Z).
  { destruct Hs as (Halt & [(_ & Hf' & Hy & _)|[(_ & Hf' & Hy & _)|(_ & Hf' & Hy & _)]]);
      (split; [|split; [|exact Halt]]); lia. }
  destruct Hb as (Hy & Hf' & Hal).
  cbn [Sim.send_rc Sim.get_state fst snd Sim._rc_values].
  rewrite !clamp_id by lia. reflexivity.
Qed.

(** X16.  With a camera of fewer than five rays, a pass over a flying
    drone with a destination out of arrival range raises [ValueError]
    once the scan is taken: the thread ends with the navigator still
    marked active and the sticks as they were latched. *)
Theorem nav_step_few_rays now nav drone gx gy gz frame :
  (cam_num_rays camera < 5)%nat ->
  _active nav = true ->
  Drone.is_flying (Sim._state drone) = true ->
  _destination nav = Some (gx, gy, gz) ->
  capture sqrt cos sin radians camera (snd (Sim.get_state now drone))
    environment now = Py.Ok frame ->
  Py.ltb (sqrt ((Drone.x (Sim._state drone) - gx) ^ 2
                + (Drone.y (Sim._state drone) - gy) ^ 2
                + (Drone.z (Sim._state drone) - gz) ^ 2)) ARRIVAL_RADIUS = false ->
  let out := nav_step sqrt cos sin radians atan2 degrees environment camera
               now nav drone in
  snd out = Py.Raise Py.ValueError /\
  _active (fst (fst out)) = true /\
  _last_frame (fst (fst out)) = Some frame /\
  Sim._rc_values (snd (fst out)) = Sim._rc_values drone.
Proof.
  intros H5 Ha Hf Hd Hcap Hfar. cbv zeta. unfold nav_step. cbv zeta.
  rewrite Ha. cbn [negb].
  assert (Hf1 : Drone.is_flying (snd (Sim.get_state now drone)) = true)
    by exact Hf.
  rewrite Hf1. cbn [negb]. rewrite Hcap. cbn [_destination]. rewrite Hd.
  assert (Hfar1 :
    Py.ltb (sqrt ((Drone.x (snd (Sim.get_state now drone)) - gx) ^ 2
                  + (Drone.y (snd (Sim.get_state now drone)) - gy) ^ 2
                  + (Drone.z (snd (Sim.get_state now drone)) - gz) ^ 2))
           ARRIVAL_RADIUS = false) by exact Hfar.
  rewrite Hfar1.
  destruct (CameraFacts.capture_inv _ _ _ _ _ _ _ _ _ Hcap) as (rs & Hrs & Ef).
  assert (Hlen : List.length rs = cam_num_rays camera).
  { apply Forall2_length in Hrs. now rewrite length_seq in Hrs. }
  rewrite compute_commands_few_rays.
  - cbn. auto.
  - rewrite Ef. cbn [depths num_rays]. now rewrite length_map.
  - rewrite Ef. cbn [num_rays]. exact H5.
Qed.

End Loop.

Section Pipeline.

Variables sqrt cos sin radians : Q -> Q.
Variable environment : Env.Environment.
Variable camera : SimulatedCamera.

(** X17.  From scan to command: when no angle has the null vector for
    direction and the camera casts at least five rays, [capture] returns
    a frame and the policy returns a command for it, with yaw within
    [-70, 70], forward within [-20, 45] and vertical within [-30, 30]. *)
Theorem scan_to_command now state goal_bearing goal_alt :
  (forall a, ~ cos a * cos a + sin a * sin a == 0) ->
  (5 <= cam_num_rays camera)%nat ->
  exists frame yaw_cmd fwd_cmd alt_cmd action,
    capture sqrt cos sin radians camera state environment now = Py.Ok frame /\
    _compute_commands frame state goal_bearing goal_alt
      = Py.Ok ((yaw_cmd, fwd_cmd, alt_cmd), action) /\
    (- 70 <= yaw_cmd <= 70)%Z /\ (- 20 <= fwd_cmd <= 45)%Z /\
    (- 30 <= alt_cmd <= 30)%Z.
Proof.
  intros Hdir H5.
  destruct (CameraFacts.capture_returns sqrt cos sin radians camera state
              environment now Hdir) as [frame Hcap].
  destruct (CameraFacts.capture_inv _ _ _ _ _ _ _ _ _ Hcap) as (rs & Hrs & Ef).
  assert (Hlen : List.length rs = cam_num_rays camera).
  { apply Forall2_length in Hrs. now rewrite length_seq in Hrs. }
  destruct (compute_commands_five_rays frame state goal_bearing goal_alt)
    as (zones & _ & Hcmd).
  { rewrite Ef. cbn [depths num_rays]. now rewrite length_map. }
  { rewrite Ef. cbn [num_rays]. exact H5. }
  pose proof (steer_cases zones state goal_bearing goal_alt) as Hs.
  cbv zeta in Hs.
  destruct (steer zones state goal_bearing goal_alt) as [[[yc fc] ac] act].
  cbn [fst snd] in Hs.
  exists frame, yc, fc, ac, act.
  split; [exact Hcap|]. split; [exact Hcmd|].
  destruct Hs as (Halt & [(_ & Hf & Hy & _)|[(_ & Hf & Hy & _)|(_ & Hf & Hy & _)]]);
    (split; [|split; [|exact Halt]]); lia.
Qed.

End Pipeline.

(** *** Concrete passes *)

Lemma scan_to_command_witness :
  exists frame yaw_cmd fwd_cmd alt_cmd action,
    capture Env.sqrt_floor Sim.cos_at_0 Sim.sin_at_0 Sim.radians_at_0
      default_camera hovering Env.default_environment 0 = Py.Ok frame /\
    _compute_commands frame hovering 0 80
      = Py.Ok ((yaw_cmd, fwd_cmd, alt_cmd), action) /\
    (- 70 <= yaw_cmd <= 70)%Z /\ (- 20 <= fwd_cmd <= 45)%Z /\
    (- 30 <= alt_cmd <= 30)%Z.
Proof.
  apply (scan_to_command Env.sqrt_floor Sim.cos_at_0 Sim.sin_at_0
           Sim.radians_at_0 Env.default_environment default_camera
           0 hovering 0 80).
  - intros a E. discriminate E.
  - cbn. lia.
Defined.

(** Centre at 70 cm, nothing on the left within 40 cm, the right open. *)
Lemma caution_turns_to_open_side_witness :
  fst (fst (fst (steer [40; 30; 70; 200; 300] hovering 350 80))) = 50%Z.
Proof.
  destruct (caution_turns_to_open_side [40; 30; 70; 200; 300] hovering 350 80)
    as (H & _).
  - split; [intro E; discriminate E | reflexivity].
  - apply H; [intro E; discriminate E | reflexivity].
Defined.

Lemma clear_nudge_witness :
  fst (fst (fst (steer [40; 300; 300; 300; 30] hovering 10 80))) = (- 15)%Z.
Proof.
  destruct (clear_nudge [40; 300; 300; 300; 30] hovering 10 80) as (_ & _ & H).
  - intro E; discriminate E.
  - apply H; reflexivity.
Defined.

Lemma seeking_pass_computed :
  nav_step Env.sqrt_floor Sim.cos_at_0 Sim.sin_at_0 Sim.radians_at_0
    atan2_ahead degrees_ahead Env.default_environment default_camera
    0 seeking Sim.cruising
  = ((fst (fst seeking_pass), snd (fst seeking_pass)), Py.Ok Continue).
Proof. vm_compute. reflexivity. Qed.

Lemma nav_step_command_witness :
  exists frame yaw_cmd fwd_cmd alt_cmd action,
    capture Env.sqrt_floor Sim.cos_at_0 Sim.sin_at_0 Sim.radians_at_0
      default_camera (snd (Sim.get_state 0 Sim.cruising))
      Env.default_environment 0 = Py.Ok frame /\
    _compute_commands frame (snd (Sim.get_state 0 Sim.cruising))
      (Py.fmod (degrees_ahead (atan2_ahead (0 - 0) (300 - 0))) 360) 80
      = Py.Ok ((yaw_cmd, fwd_cmd, alt_cmd), action) /\
    Sim._rc_values (snd (fst seeking_pass))
      = (0, inject_Z fwd_cmd, inject_Z alt_cmd, inject_Z yaw_cmd) /\
    _avoidance_action (fst (fst seeking_pass)) = action.
Proof.
  destruct (nav_step_command _ _ _ _ _ _ _ _ _ _ _ _ _ seeking_pass_computed)
    as (_ & _ & _ & _ & H).
  destruct (H 300 0 80 eq_refl eq_refl)
    as (frame & yc & fc & ac & act & Hcap & _ & Hc & Hrc & _ & Hact).
  exists frame, yc, fc, ac, act. auto.
Defined.

Lemma arriving_pass_computed :
  nav_step Env.sqrt_floor Sim.cos_at_0 Sim.sin_at_0 Sim.radians_at_0
    atan2_ahead degrees_ahead Env.default_environment narrow_camera
    0 arriving Sim.cruising
  = ((mkNav (Some (0, 0, 80)) false (Some narrow_scan) "reached" "none" true,
      fst (Sim.send_rc 0 0 0 0 (fst (Sim.get_state 0 Sim.cruising)))),
     Py.Ok Exit).
Proof. vm_compute. reflexivity. Qed.

Lemma nav_step_exit_idles_witness :
  Sim._rc_values (fst (Sim.send_rc 0 0 0 0 (fst (Sim.get_state 0 Sim.cruising))))
    = (0, 0, 0, 0).
Proof.
  exact (proj1 (nav_step_exit_idles _ _ _ _ _ _ _ _ _ _ _ _ _
                  arriving_pass_computed)).
Defined.

Lemma narrow_scan_captured :
  capture Env.sqrt_floor Sim.cos_at_0 Sim.sin_at_0 Sim.radians_at_0
    narrow_camera (snd (Sim.get_state 0 Sim.cruising))
    Env.default_environment 0 = Py.Ok narrow_scan.
Proof. vm_compute. reflexivity. Qed.

Lemma nav_step_few_rays_witness :
  snd (nav_step Env.sqrt_floor Sim.cos_at_0 Sim.sin_at_0 Sim.radians_at_0
         atan2_ahead degrees_ahead Env.default_environment narrow_camera
         0 seeking Sim.cruising) = Py.Raise Py.ValueError.
Proof.
  refine (proj1 (nav_step_few_rays Env.sqrt_floor Sim.cos_at_0 Sim.sin_at_0
                   Sim.radians_at_0 atan2_ahead degrees_ahead
                   Env.default_environment narrow_camera 0 seeking
                   Sim.cruising 300 0 80 narrow_scan _ eq_refl eq_refl eq_refl
                   narrow_scan_captured eq_refl)).
  simpl. lia.
Defined.

End NavMore.

(* ================================================================= *)
(** ** More on the simulated backend *)

Module SimMore.
Import Drone Sim.

Ltac sim_red := SimFacts.sim_red.
Ltac minmax := SimFacts.minmax.

(** The remainder is the only value of the right size that differs from
    the dividend by a multiple of the modulus. *)
Lemma fmod_unique a m r (k : Z) :
  0 < m -> 0 <= r < m -> a == r + m * inject_Z k -> Py.fmod a m == r.
Proof.
  intros Hm [Hr0 Hr1] Ha. unfold Py.fmod.
  assert (Hq : a / m == r / m + inject_Z k).
  { rewrite Ha. field. lra. }
  assert (Hrm : r / m * m == r) by (field; lra).
  assert (H0 : 0 <= r / m).
  { apply Qle_shift_div_l; [exact Hm|]. lra. }
  assert (H1 : r / m < 1).
  { apply Qlt_shift_div_r; [exact Hm|]. lra. }
  assert (Hf : Qfloor (a / m) = k).
  { pose proof (Qfloor_le (a / m)) as Hlo.
    pose proof (Qlt_floor (a / m)) as Hhi.
    rewrite inject_Z_plus in Hhi. change (inject_Z 1) with 1 in Hhi.
    assert (L1 : inject_Z (Qfloor (a / m)) < inject_Z (k + 1)).
    { rewrite inject_Z_plus. change (inject_Z 1) with 1. lra. }
    assert (L2 : inject_Z k < inject_Z (Qfloor (a / m) + 1)).
    { rewrite inject_Z_plus. change (inject_Z 1) with 1. lra. }
    rewrite <- Zlt_Qlt in L1, L2. lia. }
  rewrite Hf, Ha. ring.
Qed.

Section Libm.

Variables sqrt cos sin radians : Q -> Q.

(** Battery and temperature across a drain of non-negative length. *)
Lemma drain_trend seconds s :
  0 <= seconds -> 0 <= battery s -> temperature s <= 45 ->
  0 <= battery (_drain_battery seconds s) <= battery s /\
  temperature s <= temperature (_drain_battery seconds s) <= 45.
Proof.
  intros Hs Hb Ht. sim_red. split; minmax; split; lra.
Qed.

Lemma go_to_loop_trend tx ty tz spd sx sy sz dt steps range :
  forall d, 0 <= battery (_state d) -> temperature (_state d) <= 45 ->
  let d1 := fst (go_to_loop tx ty tz spd sx sy sz dt steps range d) in
  0 <= battery (_state d1) <= battery (_state d) /\
  temperature (_state d) <= temperature (_state d1) <= 45.
Proof.
  induction range as [|i rest IH]; intros d Hb Ht; cbn [go_to_loop].
  - cbn [fst]. split; split; lra.
  - unfold go_to_step.
    destruct (Py.sleep (Py.min dt (1 # 2))) as [u|e] eqn:Hs.
    + pose proof (SimFacts.sleep_ok_nonneg dt (1 # 2) u ltac:(lra) Hs) as Hdt.
      match goal with
      | |- context [go_to_loop _ _ _ _ _ _ _ _ _ rest ?dd] =>
        assert (Hd : 0 <= battery (_state dd) <= battery (_state d) /\
                     temperature (_state d) <= temperature (_state dd) <= 45);
        [|specialize (IH dd ltac:(tauto) ltac:(tauto))]
      end.
      { sim_red. split; minmax; split; lra. }
      cbv zeta in IH. destruct Hd as [[? ?] [? ?]].
      destruct IH as [[? ?] [? ?]]. split; split; lra.
    + cbn [fst]. split; split; lra.
Qed.

(** X20.  No operation other than [connect] raises the battery level or
    lowers the temperature: from a state with a non-negative battery and
    a temperature of at most 45, the battery after the operation is
    between 0 and what it was, the temperature between what it was and
    45. *)
Theorem battery_never_rises o d :
  o <> Connect ->
  0 <= battery (_state d) -> temperature (_state d) <= 45 ->
  let d1 := run sqrt cos sin radians o d in
  0 <= battery (_state d1) <= battery (_state d) /\
  temperature (_state d) <= temperature (_state d1) <= 45.
Proof.
  intros Ho Hb Ht. cbv zeta.
  assert (Hsame : 0 <= battery (_state d) <= battery (_state d) /\
                  temperature (_state d) <= temperature (_state d) <= 45)
    by (split; split; lra).
  destruct o; unfold run; try congruence.
  - exact Hsame.
  - unfold takeoff. destruct (_ || _); [exact Hsame|].
    unfold _start_rc_loop. sim_red. destruct (_rc_active d); exact Hsame.
  - unfold land. destruct (negb _); exact Hsame.
  - exact Hsame.
  - unfold move. destruct (negb _); [exact Hsame|].
    match goal with
    | |- context [match ?delta with Some _ => _ | None => _ end] =>
      destruct delta as [[[dx dy] dz]|]; [|exact Hsame]
    end.
    destruct (Qeq_bool (_speed d) 0); [exact Hsame|].
    destruct (Py.sleep _) as [u|e] eqn:Hs; [|exact Hsame].
    pose proof (SimFacts.sleep_ok_nonneg _ 2 u ltac:(lra) Hs) as Hdur.
    sim_red. split; minmax; split; lra.
  - unfold rotate. destruct (negb _); [exact Hsame|].
    destruct (Py.sleep _); exact Hsame.
  - exact Hsame.
  - exact Hsame.
  - unfold go_to. destruct (negb _); [exact Hsame|].
    destruct (Py.ltb _ 1); [exact Hsame|].
    match goal with
    | |- context [go_to_loop ?a ?b ?c ?e ?f ?g ?h ?i ?j ?k d] =>
      pose proof (go_to_loop_trend a b c e f g h i j k d Hb Ht) as Hl;
      destruct (go_to_loop a b c e f g h i j k d) as [d1 [u|e']]
    end; exact Hl.
  - exact Hsame.
  - unfold rc_tick. destruct (negb (_rc_active d)); [exact Hsame|].
    destruct (_rc_values d) as [[[lr fb] ud] yr].
    destruct (negb _); [exact Hsame|].
    sim_red. unfold interval. split; minmax; split; lra.
Qed.

Lemma clamp_range lo hi v : lo <= hi -> lo <= Py.max lo (Py.min hi v) <= hi.
Proof.
  intro H.
  destruct (PyFacts.min_spec hi v) as [[H1 E1]|[H1 E1]]; rewrite E1;
    match goal with
    | |- context [Py.max ?a ?b] =>
      destruct (PyFacts.max_spec a b) as [[H2 E2]|[H2 E2]]; rewrite E2
    end; split; lra.
Qed.

(** X21.  The speed setpoint stays within [10, 100] and every latched
    stick within [-100, 100]: true of a fresh drone and kept by every
    operation, whatever arguments [set_speed] and [send_rc] are given. *)
Theorem attrs_ok_kept o d now :
  attrs_ok (init now) /\
  (attrs_ok d -> attrs_ok (run sqrt cos sin radians o d)).
Proof.
  split.
  { unfold attrs_ok, in_rc_range, init, MOVE_SPEED. cbn. repeat split; lra. }
  intro H.
  assert (Hz : attrs_ok (_stop_rc_loop d)).
  { destruct H as (Hs & _). unfold attrs_ok, in_rc_range. cbn.
    repeat split; lra. }
  destruct o; unfold run.
  - exact H.
  - exact Hz.
  - unfold takeoff. destruct (_ || _); [exact H|].
    unfold _start_rc_loop. cbn. destruct (_rc_active d); exact H.
  - unfold land. destruct (negb _); exact Hz.
  - exact Hz.
  - unfold move. destruct (negb _); [exact H|].
    match goal with
    | |- context [match ?delta with Some _ => _ | None => _ end] =>
      destruct delta as [[[dx dy] dz]|]; [|exact H]
    end.
    destruct (Qeq_bool _ 0); [exact H|]. destruct (Py.sleep _); exact H.
  - unfold rotate. destruct (negb _); [exact H|]. destruct (Py.sleep _); exact H.
  - destruct H as (_ & Hr). unfold attrs_ok. cbn.
    split; [apply clamp_range; lra|exact Hr].
  - destruct H as (Hs & _). unfold attrs_ok, in_rc_range. cbn.
    split; [exact Hs|]. repeat split; apply clamp_range; lra.
  - unfold go_to. destruct (negb _); [exact H|].
    destruct (Py.ltb _ 1); [exact H|].
    assert (Hl : forall range dd, attrs_ok dd ->
      attrs_ok (fst (go_to_loop tx ty tz spd (x (_state d)) (y (_state d))
                       (z (_state d))
                       (sqrt ((tx - x (_state d)) ^ 2 + (ty - y (_state d)) ^ 2
                              + (tz - z (_state d)) ^ 2) / Py.max spd 10
                        / inject_Z (Z.max (Py.int
                            (sqrt ((tx - x (_state d)) ^ 2
                                   + (ty - y (_state d)) ^ 2
                                   + (tz - z (_state d)) ^ 2)
                             / Py.max spd 10 * 10)) 1))
                       (Z.max (Py.int
                            (sqrt ((tx - x (_state d)) ^ 2
                                   + (ty - y (_state d)) ^ 2
                                   + (tz - z (_state d)) ^ 2)
                             / Py.max spd 10 * 10)) 1) range dd))).
    { induction range as [|i rest IH]; intros dd Hdd; cbn [go_to_loop];
        [exact Hdd|].
      unfold go_to_step. destruct (Py.sleep _); [|exact Hdd].
      apply IH. exact Hdd. }
    match goal with
    | |- context [go_to_loop ?a ?b ?c ?e ?f ?g ?h ?i ?j ?k d] =>
      pose proof (Hl k d H) as Hk;
      destruct (go_to_loop a b c e f g h i j k d) as [d1 [u|e']]
    end; exact Hk.
  - exact H.
  - unfold rc_tick. destruct (negb (_rc_active d)); [exact H|].
    destruct (_rc_values d) as [[[lr fb] ud] yr] eqn:Erc.
    destruct (negb _); [exact H|].
    unfold attrs_ok in *. cbn. rewrite Erc. rewrite Erc in H. exact H.
Qed.

Lemma delta_some_iff direction :
  In direction directions <->
  (String.eqb direction "forward" || String.eqb direction "back"
   || String.eqb direction "left" || String.eqb direction "right"
   || String.eqb direction "up" || String.eqb direction "down" = true).
Proof.
  unfold directions. split.
  - intros [<-|[<-|[<-|[<-|[<-|[<-|[]]]]]]]; reflexivity.
  - rewrite !orb_true_iff, !String.eqb_eq. cbn. intuition.
Qed.

(** X22.  On a drone whose speed setpoint is positive, [move] raises
    exactly when the drone is flying, the direction is one of the six it
    knows and the distance is negative; the exception is the
    [ValueError] of [time.sleep] and the drone is left as it was. *)
Theorem move_raises_iff direction distance_cm d :
  0 < _speed d ->
  let out := move cos sin radians direction distance_cm d in
  ((exists e, snd out = Py.Raise e) <->
     is_flying (_state d) = true /\ In direction directions /\
     distance_cm < 0) /\
  (forall e, snd out = Py.Raise e -> e = Py.ValueError /\ fst out = d).
Proof.
  intro Hsp. cbv zeta. rewrite delta_some_iff. unfold move.
  destruct (is_flying (_state d)); cbn [negb].
  2:{ cbn. split; [split; [intros [e He]; discriminate|intros [? _]; discriminate]|].
      discriminate. }
  assert (Hsp0 : Qeq_bool (_speed d) 0 = false).
  { destruct (Qeq_bool (_speed d) 0) eqn:E; [|reflexivity].
    apply Qeq_bool_iff in E. lra. }
  assert (Hdur : distance_cm / _speed d < 0 <-> distance_cm < 0).
  { split; intro H.
    - assert (E : distance_cm == distance_cm / _speed d * _speed d)
        by (field; lra).
      rewrite E. nra.
    - apply Qlt_shift_div_r; [exact Hsp|]. lra. }
  assert (Hsl : (exists e, Py.sleep (Py.min (distance_cm / _speed d) 2)
                           = Py.Raise e) <-> distance_cm < 0).
  { rewrite <- Hdur. unfold Py.sleep.
    destruct (Py.ltb (Py.min (distance_cm / _speed d) 2) 0) eqn:E; qprop.
    - split; [|eauto]. intros _. revert E. minmax; intros; lra.
    - split; [intros [e He]; discriminate|].
      intro Hn. exfalso. revert E. minmax; intros; lra. }
  assert (Hval : forall e, Py.sleep (Py.min (distance_cm / _speed d) 2)
                           = Py.Raise e -> e = Py.ValueError).
  { intro e. unfold Py.sleep. destruct (Py.ltb _ 0); [|discriminate].
    now intros [= <-]. }
  match goal with
  | |- context [match ?dl with Some _ => _ | None => _ end] => set (delta := dl)
  end.
  assert (Hdelta : delta <> None <->
            (String.eqb direction "forward" || String.eqb direction "back"
             || String.eqb direction "left" || String.eqb direction "right"
             || String.eqb direction "up" || String.eqb direction "down" = true)).
  { unfold delta.
    destruct (String.eqb direction "forward");
      [|destruct (String.eqb direction "back");
        [|destruct (String.eqb direction "left");
          [|destruct (String.eqb direction "right");
            [|destruct (String.eqb direction "up");
              [|destruct (String.eqb direction "down")]]]]];
      cbn [orb]; split; intros; try reflexivity; try discriminate; congruence. }
  destruct delta as [[[dx dy] dz]|].
  - assert (Hdir : String.eqb direction "forward" || String.eqb direction "back"
             || String.eqb direction "left" || String.eqb direction "right"
             || String.eqb direction "up" || String.eqb direction "down" = true)
      by (apply Hdelta; discriminate).
    rewrite Hsp0.
    destruct (Py.sleep (Py.min (distance_cm / _speed d) 2)) as [u|e0] eqn:Hs;
      cbn [fst snd].
    + split; [split|].
      * intros [e He]. discriminate.
      * intros (_ & _ & Hn). apply Hsl in Hn. destruct Hn as [e He]. discriminate.
      * discriminate.
    + split; [split|].
      * intros _. split; [reflexivity|]. split; [exact Hdir|].
        apply Hsl. eauto.
      * intros _. eauto.
      * intros e [= <-]. split; [now apply Hval|reflexivity].
  - cbn [fst snd]. split; [split|].
    + intros [e He]. discriminate.
    + intros (_ & Hd & _). apply Hdelta in Hd. congruence.
    + discriminate.
Qed.

(** The interpolation loop of [go_to] writes neither the flags nor the
    flight clock. *)
Lemma go_to_loop_flight tx ty tz spd sx sy sz dt steps range :
  forall d,
  let d1 := fst (go_to_loop tx ty tz spd sx sy sz dt steps range d) in
  is_flying (_state d1) = is_flying (_state d) /\
  is_connected (_state d1) = is_connected (_state d) /\
  flight_time (_state d1) = flight_time (_state d) /\
  _flight_start d1 = _flight_start d.
Proof.
  induction range as [|i rest IH]; intro d; cbn [go_to_loop]; [cbn; auto|].
  unfold go_to_step.
  destruct (Py.sleep (Py.min dt (1 # 2))) as [u|e]; [|cbn; auto].
  match goal with
  | |- context [go_to_loop _ _ _ _ _ _ _ _ _ rest ?d'] =>
    specialize (IH d'); cbv zeta in IH; sim_red; exact IH
  end.
Qed.

(** An operation that does not end the flight leaves a flying drone
    flying, with the same take-off time and accumulated flight time, and
    connected if it was. *)
Lemma flight_goes_on o d :
  grounds o = false ->
  is_flying (_state d) = true ->
  let d1 := run sqrt cos sin radians o d in
  is_flying (_state d1) = true /\
  (is_connected (_state d) = true -> is_connected (_state d1) = true) /\
  flight_time (_state d1) = flight_time (_state d) /\
  _flight_start d1 = _flight_start d.
Proof.
  intros Hg Hf. cbv zeta. destruct o; try discriminate Hg; unfold run.
  - (* connect *) cbn. auto.
  - (* takeoff *)
    unfold takeoff. rewrite Hf, orb_true_r. cbn. auto.
  - (* move *)
    unfold move. rewrite Hf. cbn [negb].
    match goal with
    | |- context [match ?delta with Some _ => _ | None => _ end] =>
      destruct delta as [[[dx dy] dz]|]; [|cbn; auto]
    end.
    destruct (Qeq_bool (_speed d) 0); [cbn; auto|].
    destruct (Py.sleep _); cbn; auto.
  - (* rotate *)
    unfold rotate. rewrite Hf. cbn [negb].
    destruct (Py.sleep _); cbn; auto.
  - (* set_speed *) cbn. auto.
  - (* send_rc *) cbn. auto.
  - (* go_to *)
    unfold go_to. rewrite Hf. cbn [negb].
    destruct (Py.ltb _ 1); [cbn; auto|].
    match goal with
    | |- context [go_to_loop ?a ?b ?c ?e ?f ?g ?h ?i ?j ?k d] =>
      pose proof (go_to_loop_flight a b c e f g h i j k d) as Hl;
      destruct (go_to_loop a b c e f g h i j k d) as [d1 [u|e']]
    end; cbv zeta in Hl; cbn [fst] in *;
      destruct Hl as (-> & -> & -> & ->); auto.
  - (* get_state *) cbn. auto.
  - (* one pass of the RC integrator *)
    unfold rc_tick. destruct (negb (_rc_active d)); [auto|].
    destruct (_rc_values d) as [[[lr fb] ud] yaw_rate].
    rewrite Hf. cbn. auto.
Qed.

Lemma flight_goes_on_all ops : forall d,
  Forall (fun o => grounds o = false) ops ->
  is_flying (_state d) = true ->
  let d1 := run_all sqrt cos sin radians ops d in
  is_flying (_state d1) = true /\
  (is_connected (_state d) = true -> is_connected (_state d1) = true) /\
  flight_time (_state d1) = flight_time (_state d) /\
  _flight_start d1 = _flight_start d.
Proof.
  unfold run_all.
  induction ops as [|o ops IH]; intros d Hall Hf; cbn [fold_left]; [auto|].
  inversion Hall as [|? ? Ho Hrest]; subst.
  destruct (flight_goes_on o d Ho Hf) as (Hf1 & Hc1 & Ht1 & Hs1).
  cbv zeta in *.
  destruct (IH _ Hrest Hf1) as (Hf2 & Hc2 & Ht2 & Hs2).
  split; [exact Hf2|]. split; [auto|]. split; congruence.
Qed.

(** X23.  A flight session: on a connected, grounded drone [takeoff] at
    time [t0] (not the zero of the clock) returns [True] and starts the
    integrator; whatever runs before the landing (passes of the
    integrator, stick commands, moves, rotations, [go_to], anything but
    [land], [emergency_stop] and [disconnect]) the drone is still flying;
    [land] at time [t1] then returns [True], and afterwards the drone is
    on the ground with speed 0, still connected, the integrator stopped
    with the sticks at zero, and [flight_time] has grown by [t1 - t0]. *)
Theorem takeoff_land_session t0 t1 ops d :
  is_connected (_state d) = true ->
  is_flying (_state d) = false ->
  ~ t0 == 0 ->
  Forall (fun o => grounds o = false) ops ->
  let d1 := fst (takeoff t0 d) in
  let dk := run_all sqrt cos sin radians ops d1 in
  let d2 := fst (land t1 dk) in
  snd (takeoff t0 d) = Py.Ok true /\
  is_flying (_state d1) = true /\ z (_state d1) = 80 /\ _rc_active d1 = true /\
  is_flying (_state dk) = true /\
  snd (land t1 dk) = Py.Ok true /\
  is_flying (_state d2) = false /\ z (_state d2) = 0 /\
  speed (_state d2) = 0 /\
  flight_time (_state d2) = flight_time (_state d) + (t1 - t0) /\
  _flight_start d2 = None /\
  _rc_active d2 = false /\ _rc_values d2 = (0, 0, 0, 0) /\
  is_connected (_state d2) = true.
Proof.
  intros Hc Hf Ht Hops. cbv zeta.
  assert (Etr : negb (Qeq_bool t0 0) = true).
  { destruct (Qeq_bool t0 0) eqn:E; [|reflexivity].
    apply Qeq_bool_iff in E. contradiction. }
  assert (H1 : snd (takeoff t0 d) = Py.Ok true /\
               is_flying (_state (fst (takeoff t0 d))) = true /\
               z (_state (fst (takeoff t0 d))) = 80 /\
               _rc_active (fst (takeoff t0 d)) = true /\
               is_connected (_state (fst (takeoff t0 d))) = true /\
               flight_time (_state (fst (takeoff t0 d)))
                 = flight_time (_state d) /\
               _flight_start (fst (takeoff t0 d)) = Some t0).
  { unfold takeoff, _start_rc_loop. rewrite Hc, Hf. cbn [negb orb].
    destruct (_rc_active d); cbn; auto 10. }
  destruct H1 as (Hr1 & Hf1 & Hz1 & Ha1 & Hc1 & Hft1 & Hs1).
  destruct (flight_goes_on_all ops (fst (takeoff t0 d)) Hops Hf1)
    as (Hfk & Hck & Hftk & Hsk).
  cbv zeta in *.
  set (dk := run_all sqrt cos sin radians ops (fst (takeoff t0 d))) in *.
  specialize (Hck Hc1). rewrite Hft1 in Hftk. rewrite Hs1 in Hsk.
  split; [exact Hr1|]. split; [exact Hf1|]. split; [exact Hz1|].
  split; [exact Ha1|]. split; [exact Hfk|].
  unfold land. sim_red. rewrite Hfk. cbn [negb fst snd]. unfold ground.
  sim_red. rewrite Hsk. cbn [truthy]. rewrite Etr. sim_red.
  rewrite Hftk, Hck. auto 12.
Qed.

(** X24.  After [land], [emergency_stop] or [disconnect] the next pass
    of the RC integrator leaves its loop without writing, whatever the
    drone was doing. *)
Theorem integrator_stops now d :
  rc_tick sqrt cos sin radians (run sqrt cos sin radians (Land now) d) = None /\
  rc_tick sqrt cos sin radians
    (run sqrt cos sin radians (EmergencyStop now) d) = None /\
  rc_tick sqrt cos sin radians
    (run sqrt cos sin radians (Disconnect now) d) = None.
Proof.
  unfold run, land, emergency_stop, disconnect, rc_tick.
  repeat split; cbn; destruct (negb (is_flying (_state d))); reflexivity.
Qed.

(** X25.  With all four sticks at zero a pass of the integrator holds
    the drone where it is: position and heading are unchanged and the
    speed reads 0 (when [math.sqrt] maps zero to zero). *)
Theorem rc_tick_hover d d1 :
  (forall q, q == 0 -> sqrt q == 0) ->
  _rc_values d = (0, 0, 0, 0) ->
  0 <= z (_state d) -> 0 <= yaw (_state d) < 360 ->
  rc_tick sqrt cos sin radians d = Some d1 ->
  x (_state d1) == x (_state d) /\ y (_state d1) == y (_state d) /\
  z (_state d1) == z (_state d) /\ yaw (_state d1) == yaw (_state d) /\
  speed (_state d1) == 0.
Proof.
  intros Hsq Hrc Hz Hy. unfold rc_tick.
  destruct (negb (_rc_active d)); [discriminate|]. rewrite Hrc.
  destruct (negb _); [discriminate|].
  intros [= <-]. sim_red.
  split; [ring|]. split; [ring|]. split; [|split].
  - minmax; lra.
  - apply (fmod_unique _ 360 _ 0); [lra|exact Hy|].
    unfold interval. change (inject_Z 0) with 0. ring.
  - rewrite (Hsq (0 ^ 2 + 0 ^ 2 + 0 ^ 2)) by reflexivity.
    unfold Qdiv. ring.
Qed.

End Libm.

(** X26.  The message log is a bounded ring: after [_add_log] it never
    holds more than 200 entries, the new entry is its last one, and it
    is the tail of the old log extended by the new entry; nothing is
    dropped while the old log holds fewer than 200 entries. *)
Theorem add_log_bounded stamp msg log :
  let entry := ("[" ++ stamp ++ "] " ++ msg)%string in
  let log1 := _add_log stamp msg log in
  (List.length log1 <= 200)%nat /\
  last log1 EmptyString = entry /\
  (exists dropped, log ++ [entry] = dropped ++ log1 /\
     ((List.length log < 200)%nat -> dropped = [])).
Proof.
  cbv zeta. unfold _add_log.
  set (entry := ("[" ++ stamp ++ "] " ++ msg)%string).
  destruct (200 <? List.length (log ++ [entry]))%nat eqn:E.
  - apply Nat.ltb_lt in E. unfold last_n.
    set (k := (List.length (log ++ [entry]) - 200)%nat).
    assert (Hk : (k <= List.length log)%nat).
    { unfold k. rewrite length_app in *. cbn [List.length] in *. lia. }
    split; [rewrite length_skipn; lia|]. split.
    + rewrite skipn_app.
      replace (k - List.length log)%nat with 0%nat by lia.
      cbn [skipn]. apply last_last.
    + exists (firstn k (log ++ [entry])). split.
      * symmetry. apply firstn_skipn.
      * intro Hl. rewrite length_app in E. cbn [List.length] in E. lia.
  - apply Nat.ltb_ge in E. split; [exact E|]. split; [apply last_last|].
    exists []. split; [reflexivity|auto].
Qed.

(** *** Concrete runs *)

Ltac qdec := first [ reflexivity | let E := fresh in intro E; discriminate E ].

Lemma battery_never_rises_witness :
  0 <= battery (_state (run Env.sqrt_floor cos_at_0 sin_at_0 radians_at_0
                          (Move "forward" 50) cruising))
    <= battery (_state cruising).
Proof.
  refine (proj1 (battery_never_rises Env.sqrt_floor cos_at_0 sin_at_0
                   radians_at_0 (Move "forward" 50) cruising _ _ _)).
  - discriminate.
  - qdec.
  - qdec.
Defined.

Lemma attrs_ok_kept_witness :
  attrs_ok (run Env.sqrt_floor cos_at_0 sin_at_0 radians_at_0
              (SetSpeed 500) cruising).
Proof.
  refine (proj2 (attrs_ok_kept Env.sqrt_floor cos_at_0 sin_at_0 radians_at_0
                   (SetSpeed 500) cruising 0) _).
  unfold attrs_ok, in_rc_range, cruising. cbn.
  repeat split; qdec.
Defined.

Lemma move_raises_iff_witness :
  exists e, snd (move cos_at_0 sin_at_0 radians_at_0 "forward" (- (10)) cruising)
            = Py.Raise e.
Proof.
  refine (proj2 (proj1 (move_raises_iff cos_at_0 sin_at_0 radians_at_0
                          "forward" (- (10)) cruising _)) _).
  - reflexivity.
  - split; [reflexivity|]. split; [left; reflexivity|reflexivity].
Defined.

(** A session with two passes of the integrator, a stick command and a
    move between take-off and landing. *)
Lemma takeoff_land_session_witness :
  flight_time
    (_state (fst (land 11
       (run_all Env.sqrt_floor cos_at_0 sin_at_0 radians_at_0
          [RcTick; SendRc 0 50 0 0; RcTick; Move "forward" 50]
          (fst (takeoff 1 grounded))))))
    = flight_time (_state grounded) + (11 - 1).
Proof.
  assert (Ht : ~ 1 == 0) by (intro E; discriminate E).
  assert (Hops : Forall (fun o => grounds o = false)
                   [RcTick; SendRc 0 50 0 0; RcTick; Move "forward" 50])
    by (repeat constructor).
  destruct (takeoff_land_session Env.sqrt_floor cos_at_0 sin_at_0
              radians_at_0 1 11 _ grounded eq_refl eq_refl Ht Hops)
    as (_ & _ & _ & _ & _ & _ & _ & _ & _ & Hft & _).
  exact Hft.
Defined.

Lemma rc_tick_hover_witness :
  exists d1,
    rc_tick Env.sqrt_floor cos_at_0 sin_at_0 radians_at_0 hover_drone = Some d1 /\
    x (_state d1) == x (_state hover_drone) /\
    yaw (_state d1) == yaw (_state hover_drone).
Proof.
  eexists. split; [reflexivity|].
  refine ((fun H => conj (proj1 H) (proj1 (proj2 (proj2 (proj2 H)))))
            (rc_tick_hover Env.sqrt_floor cos_at_0 sin_at_0 radians_at_0
               hover_drone _ EnvFacts.sqrt_floor_zero eq_refl _ _ eq_refl)).
  - qdec.
  - split; qdec.
Defined.

End SimMore.

(* ================================================================= *)
(** ** More on the waypoint executor *)

Module PlanMore.
Import Plan.

Lemma nth_error_mark s : forall ws i k,
  nth_error (mark i s ws) k =
  if Nat.eqb k i then option_map (set_wp_status s) (nth_error ws k)
  else nth_error ws k.
Proof.
  induction ws as [|w t IH]; intros [|i] [|k]; cbn; auto;
    try apply IH; destruct (Nat.eqb _ _); reflexivity.
Qed.

Lemma length_mark s : forall ws i, List.length (mark i s ws) = List.length ws.
Proof.
  induction ws as [|w t IH]; intros [|i]; cbn; auto.
Qed.

Lemma assign_same : forall h r p, deref h r = Some p -> assign h r p = h.
Proof.
  unfold deref. induction h as [|q h IH]; intros [|r] p; cbn;
    try discriminate.
  - now intros [= ->].
  - intro H. now rewrite IH.
Qed.

Lemma assign_assign : forall h r p q, assign (assign h r p) r q = assign h r q.
Proof.
  induction h as [|a h IH]; intros [|r] p q; cbn; auto. now rewrite IH.
Qed.

Lemma set_status_same p : set_status (status p) p = p.
Proof. now destruct p. Qed.

Section Worker.

Variable D : Type.
Variable go_to : Z -> Z -> Z -> Z -> D -> D * bool.

(** What [abort] does to the plan object behind any reference: at most
    its status changes. *)
Lemma abort_keeps e r p :
  deref (heap (ap e)) r = Some p ->
  exists p1, deref (heap (ap (abort e))) r = Some p1 /\
    current_index p1 = current_index p /\ waypoints p1 = waypoints p /\
    loop p1 = loop p /\
    (_plan (ap e) = Some r -> status p1 = ABORTED) /\
    _stop_event (abort e) = true /\ _plan (ap (abort e)) = _plan (ap e).
Proof.
  intro Hp. unfold abort, loaded.
  destruct (_plan (ap e)) as [c|] eqn:Hc.
  - destruct (deref (heap (ap e)) c) as [q|] eqn:Hq.
    + cbn. destruct (Nat.eq_dec r c) as [->|Hne].
      * rewrite (PlanFacts.deref_assign_same _ _ _ _ Hq).
        rewrite Hq in Hp. injection Hp as <-.
        eexists. split; [reflexivity|]. cbn. auto 10.
      * rewrite (PlanFacts.deref_assign_other _ _ _ _ Hne).
        exists p. repeat split; auto. intros [= E]. congruence.
    + cbn. exists p. repeat split; auto. intros [= E]. subst c. congruence.
  - cbn. exists p. repeat split; auto. discriminate.
Qed.

(** X27.  A pass of the worker keeps [current_index] at most the number
    of waypoints, never changes that number, and moves the index in one
    of three ways: not at all, forward by one, or back to 0 when the
    plan loops and the index had reached the end. *)
Theorem worker_pass_index plan interrupted e drone p :
  deref (heap (ap e)) plan = Some p ->
  (current_index p <= List.length (waypoints p))%nat ->
  let e1 := fst (fst (worker_pass D go_to plan interrupted e drone)) in
  exists p1, deref (heap (ap e1)) plan = Some p1 /\
    List.length (waypoints p1) = List.length (waypoints p) /\
    (current_index p1 <= List.length (waypoints p1))%nat /\
    (current_index p1 = current_index p \/
     current_index p1 = (current_index p + 1)%nat \/
     (current_index p1 = 0%nat /\ loop p = true /\
      (List.length (waypoints p) <= current_index p)%nat)).
Proof.
  intros Hp Hi. cbv zeta. unfold worker_pass.
  assert (Hsame : exists p1, deref (heap (ap e)) plan = Some p1 /\
            List.length (waypoints p1) = List.length (waypoints p) /\
            (current_index p1 <= List.length (waypoints p1))%nat /\
            (current_index p1 = current_index p \/
             current_index p1 = (current_index p + 1)%nat \/
             (current_index p1 = 0%nat /\ loop p = true /\
              (List.length (waypoints p) <= current_index p)%nat)))
    by (exists p; auto).
  destruct (_stop_event e) eqn:Hs; [exact Hsame|].
  rewrite Hp.
  destruct (status_eqb (status p) PAUSED); [exact Hsame|].
  destruct (negb _); [exact Hsame|].
  destruct (List.length (waypoints p) <=? current_index p)%nat eqn:Hend.
  - apply Nat.leb_le in Hend.
    destruct (loop p) eqn:Hl; cbn [fst snd ap heap];
      rewrite (PlanFacts.deref_assign_same _ _ _ _ Hp);
      eexists; (split; [reflexivity|]); cbn; rewrite ?length_map.
    + split; [reflexivity|]. split; [lia|]. right. right. auto.
    + split; [reflexivity|]. split; [lia|]. left. reflexivity.
  - apply Nat.leb_gt in Hend.
    destruct (nth_error (waypoints p) (current_index p)) as [wp|] eqn:Hw;
      [|exact Hsame].
    set (p1 := set_waypoints (mark (current_index p) ACTIVE (waypoints p)) p).
    set (e1 := mkExecutor (mkAutopilot (assign (heap (ap e)) plan p1)
                             (_plan (ap e))) false).
    assert (Hp1 : deref (heap (ap e1)) plan = Some p1)
      by (cbn; apply (PlanFacts.deref_assign_same _ _ _ _ Hp)).
    destruct interrupted; cbv iota.
    + destruct (abort_keeps e1 plan p1 Hp1)
        as (q & Hq & Hqi & Hqw & _ & _ & Hstop & _).
      rewrite Hstop. cbn [fst snd]. exists q. split; [exact Hq|].
      rewrite Hqw, Hqi. cbn. rewrite length_mark.
      split; [reflexivity|]. split; [lia|]. left. reflexivity.
    + clear Hp1. subst e1. cbn [_stop_event ap heap].
      rewrite (PlanFacts.deref_assign_same _ _ _ _ Hp).
      cbn [fst snd ap heap]. rewrite assign_assign.
      rewrite (PlanFacts.deref_assign_same _ _ _ _ Hp).
      eexists. split; [reflexivity|]. cbn. rewrite !length_mark.
      split; [reflexivity|]. split; [lia|]. right. left. reflexivity.
Qed.

(** The worker on a running plan that does not loop, left alone: it ends
    within one pass more than there are waypoints left. *)
Lemma worker_completes plan :
  forall m e drone p,
  deref (heap (ap e)) plan = Some p ->
  _stop_event e = false ->
  status p = RUNNING -> loop p = false ->
  (current_index p + m = List.length (waypoints p))%nat ->
  forall extra,
  exists e1 drone1 p1,
    worker_run D go_to plan (repeat false (S m + extra)) e drone
      = Some (e1, drone1) /\
    deref (heap (ap e1)) plan = Some p1 /\
    status p1 = COMPLETED /\
    current_index p1 = List.length (waypoints p) /\
    List.length (waypoints p1) = List.length (waypoints p) /\
    _stop_event e1 = false /\ _plan (ap e1) = _plan (ap e) /\
    (forall r, r <> plan -> deref (heap (ap e1)) r = deref (heap (ap e)) r) /\
    forall k w, nth_error (waypoints p) k = Some w ->
      exists w1, nth_error (waypoints p1) k = Some w1 /\
        set_wp_status PENDING w1 = set_wp_status PENDING w /\
        ((k < current_index p)%nat -> w1 = w) /\
        ((current_index p <= k)%nat ->
           wp_status w1 = REACHED \/ wp_status w1 = SKIPPED) /\
        ((forall a b c s d, snd (go_to a b c s d) = true) ->
           (current_index p <= k)%nat -> wp_status w1 = REACHED).
Proof.
  induction m as [|m IH]; intros e drone p Hp Hs Hst Hl Hi extra.
  - cbn [repeat Nat.add worker_run]. unfold worker_pass.
    rewrite Hs, Hp, Hst. cbn [status_eqb negb].
    assert (E : (List.length (waypoints p) <=? current_index p)%nat = true)
      by (apply Nat.leb_le; lia).
    rewrite E, Hl.
    eexists. eexists. eexists. split; [reflexivity|]. cbn [ap heap _plan _stop_event].
    split; [apply (PlanFacts.deref_assign_same _ _ _ _ Hp)|].
    cbn. split; [reflexivity|]. split; [lia|]. split; [reflexivity|].
    split; [reflexivity|]. split; [reflexivity|]. split.
    { intros r Hr. now apply PlanFacts.deref_assign_other. }
    intros k w Hk. exists w. split; [exact Hk|]. split; [reflexivity|].
    assert (Hlt : (k < List.length (waypoints p))%nat)
      by (apply nth_error_Some; congruence).
    split; [auto|]. split; intros; lia.
  - cbn [repeat Nat.add worker_run]. unfold worker_pass.
    rewrite Hs, Hp, Hst. cbn [status_eqb negb].
    assert (E : (List.length (waypoints p) <=? current_index p)%nat = false)
      by (apply Nat.leb_gt; lia).
    rewrite E.
    destruct (nth_error (waypoints p) (current_index p)) as [wp|] eqn:Hw.
    2:{ apply nth_error_None in Hw. lia. }
    cbv zeta. cbn [_stop_event ap heap].
    rewrite (PlanFacts.deref_assign_same _ _ _ _ Hp).
    set (ok := snd (go_to (wp_x wp) (wp_y wp) (wp_z wp) (wp_speed wp) drone)).
    set (st := if ok then REACHED else SKIPPED).
    set (q2 := set_index (current_index p + 1)
                 (set_waypoints
                    (mark (current_index p) st
                       (waypoints (set_waypoints
                          (mark (current_index p) ACTIVE (waypoints p)) p)))
                    (set_waypoints
                       (mark (current_index p) ACTIVE (waypoints p)) p))).
    set (e3 := mkExecutor _ _).
    assert (Hq2 : deref (heap (ap e3)) plan = Some q2).
    { unfold e3. cbn [ap heap]. rewrite PlanMore.assign_assign.
      apply (PlanFacts.deref_assign_same _ _ _ _ Hp). }
    assert (Hlen : List.length (waypoints q2) = List.length (waypoints p))
      by (cbn; now rewrite !length_mark).
    destruct (IH e3 (fst (go_to (wp_x wp) (wp_y wp) (wp_z wp) (wp_speed wp) drone))
                q2 Hq2 eq_refl Hst Hl
                ltac:(cbn; rewrite !length_mark; lia) extra)
      as (e1 & drone1 & p1 & Hrun & Hp1 & Hst1 & Hi1 & Hlen1 & Hs1 & Hpl1
          & Hoth & Hws).
    exists e1, drone1, p1. split; [exact Hrun|]. split; [exact Hp1|].
    split; [exact Hst1|]. split; [congruence|]. split; [congruence|].
    split; [exact Hs1|]. split; [exact Hpl1|]. split.
    { intros r Hr. rewrite (Hoth r Hr). unfold e3. cbn [ap heap].
      rewrite PlanMore.assign_assign. now apply PlanFacts.deref_assign_other. }
    intros k w Hk.
    assert (Hk2 : nth_error (waypoints q2) k =
                  Some (if Nat.eqb k (current_index p)
                        then set_wp_status st w else w)).
    { cbn [q2 set_index set_waypoints waypoints].
      rewrite !nth_error_mark, Hk.
      destruct (Nat.eqb k (current_index p)); reflexivity. }
    destruct (Hws k _ Hk2) as (w1 & Hw1 & Her & Hlt & Hge & Hok).
    cbn [q2 set_index current_index] in Hlt, Hge, Hok.
    exists w1. split; [exact Hw1|].
    destruct (Nat.eqb k (current_index p)) eqn:Ek.
    + apply Nat.eqb_eq in Ek. subst k.
      rewrite (Hlt ltac:(lia)). cbn.
      split; [reflexivity|]. split; [lia|]. split.
      * intros _. unfold st. destruct ok; auto.
      * intros Hall _. unfold st, ok. now rewrite Hall.
    + apply Nat.eqb_neq in Ek.
      split; [exact Her|]. split; [intro; apply Hlt; lia|].
      split; [intro; apply Hge; lia|]. intros Hall ?. apply Hok; [exact Hall|lia].
Qed.

(** X28.  Left alone, the worker finishes a running plan that does not
    loop: within one pass more than there are waypoints left it ends
    with status COMPLETED and [current_index] at the end; waypoints
    before the starting index are untouched, each one from the index on
    is REACHED or SKIPPED (REACHED when every [go_to] of the drone
    succeeds) with its coordinates, speed and hover time unchanged; no
    other plan object is touched. *)
Theorem mission_completes plan e drone p passes :
  deref (heap (ap e)) plan = Some p ->
  _stop_event e = false ->
  status p = RUNNING -> loop p = false ->
  (current_index p <= List.length (waypoints p))%nat ->
  (List.length (waypoints p) - current_index p < passes)%nat ->
  exists e1 drone1 p1,
    worker_run D go_to plan (repeat false passes) e drone = Some (e1, drone1) /\
    deref (heap (ap e1)) plan = Some p1 /\
    status p1 = COMPLETED /\
    current_index p1 = List.length (waypoints p) /\
    List.length (waypoints p1) = List.length (waypoints p) /\
    _stop_event e1 = false /\ _plan (ap e1) = _plan (ap e) /\
    (forall r, r <> plan -> deref (heap (ap e1)) r = deref (heap (ap e)) r) /\
    forall k w, nth_error (waypoints p) k = Some w ->
      exists w1, nth_error (waypoints p1) k = Some w1 /\
        set_wp_status PENDING w1 = set_wp_status PENDING w /\
        ((k < current_index p)%nat -> w1 = w) /\
        ((current_index p <= k)%nat ->
           wp_status w1 = REACHED \/ wp_status w1 = SKIPPED) /\
        ((forall a b c s d, snd (go_to a b c s d) = true) ->
           (current_index p <= k)%nat -> wp_status w1 = REACHED).
Proof.
  intros Hp Hs Hst Hl Hi Hpass.
  replace passes with
    (S (List.length (waypoints p) - current_index p)
     + (passes - S (List.length (waypoints p) - current_index p)))%nat by lia.
  apply worker_completes; auto. lia.
Qed.

(** X29.  [abort] called while the worker is blocked in [go_to] on
    waypoint [i] of the loaded, running plan: the pass ends the worker
    with the plan ABORTED, [current_index] still [i] and waypoint [i]
    left ACTIVE; every later pass ends at once without writing; and a
    [load_plan] that follows is accepted. *)
Theorem abort_interrupts plan e drone p wp q :
  _plan (ap e) = Some plan ->
  deref (heap (ap e)) plan = Some p ->
  _stop_event e = false ->
  status p = RUNNING ->
  nth_error (waypoints p) (current_index p) = Some wp ->
  let out := worker_pass D go_to plan true e drone in
  let e1 := fst (fst out) in
  snd out = Done /\
  _stop_event e1 = true /\
  (exists p1, deref (heap (ap e1)) plan = Some p1 /\
     status p1 = ABORTED /\ current_index p1 = current_index p /\
     nth_error (waypoints p1) (current_index p)
       = Some (set_wp_status ACTIVE wp)) /\
  (forall b drone1,
     worker_pass D go_to plan b e1 drone1 = ((e1, drone1), Done)) /\
  snd (load_plan_ex q e1) = Py.Ok tt.
Proof.
  intros Hpl Hp Hs Hst Hw. cbv zeta.
  assert (Hlt : (current_index p < List.length (waypoints p))%nat)
    by (apply nth_error_Some; congruence).
  assert (E : (List.length (waypoints p) <=? current_index p)%nat = false)
    by (apply Nat.leb_gt; lia).
  set (p1 := set_waypoints (mark (current_index p) ACTIVE (waypoints p)) p).
  set (e1 := mkExecutor (mkAutopilot (assign (heap (ap e)) plan p1)
                           (_plan (ap e))) false).
  assert (Hp1 : deref (heap (ap e1)) plan = Some p1)
    by (cbn; apply (PlanFacts.deref_assign_same _ _ _ _ Hp)).
  destruct (abort_keeps e1 plan p1 Hp1)
    as (p2 & Hp2 & Hi2 & Hw2 & _ & Hab & Hstop & Hpl2).
  assert (Hout : worker_pass D go_to plan true e drone =
            ((abort e1,
              fst (go_to (wp_x wp) (wp_y wp) (wp_z wp) (wp_speed wp) drone)),
             Done)).
  { unfold worker_pass. rewrite Hs, Hp, Hst. cbn [status_eqb negb].
    rewrite E, Hw. cbv zeta. fold p1. fold e1. now rewrite Hstop. }
  rewrite Hout. cbn [fst snd].
  split; [reflexivity|]. split; [exact Hstop|]. split; [|split].
  - exists p2. split; [exact Hp2|]. split; [apply Hab; exact Hpl|].
    split; [exact Hi2|]. rewrite Hw2. cbn.
    rewrite nth_error_mark, Nat.eqb_refl, Hw. reflexivity.
  - intros b drone1. unfold worker_pass. now rewrite Hstop.
  - unfold load_plan_ex. cbn [snd]. unfold load_plan, plan_running.
    rewrite Hpl2. cbn [e1 ap _plan]. rewrite Hpl, Hp2.
    rewrite (Hab Hpl). cbn [status_eqb].
    destruct (deref (heap (ap (abort e1))) q) eqn:Hq2; reflexivity.
Qed.

End Worker.

(** X30.  On a loaded, running plan [pause] followed by [resume] puts
    everything back as it was; while the plan is paused a pass of the
    worker changes nothing and asks for another pass, and [load_plan] is
    accepted although the worker is still alive. *)
Theorem pause_resume (D : Type) (go_to : Z -> Z -> Z -> Z -> D -> D * bool)
    plan e p q interrupted (drone : D) :
  _plan (ap e) = Some plan ->
  deref (heap (ap e)) plan = Some p ->
  status p = RUNNING ->
  _stop_event e = false ->
  resume (pause e) = e /\
  (exists p1, deref (heap (ap (pause e))) plan = Some p1 /\
     status p1 = PAUSED /\ current_index p1 = current_index p /\
     waypoints p1 = waypoints p) /\
  worker_pass D go_to plan interrupted (pause e) drone
    = ((pause e, drone), Again) /\
  snd (load_plan_ex q (pause e)) = Py.Ok tt.
Proof.
  intros Hpl Hp Hst Hs.
  assert (Epause : pause e = with_plan plan (set_status PAUSED p) e).
  { unfold pause, loaded. now rewrite Hpl, Hp, Hst. }
  assert (Hp1 : deref (heap (ap (pause e))) plan = Some (set_status PAUSED p)).
  { rewrite Epause. cbn. apply (PlanFacts.deref_assign_same _ _ _ _ Hp). }
  split; [|split; [|split]].
  - unfold resume, loaded.
    replace (_plan (ap (pause e))) with (Some plan)
      by (rewrite Epause; cbn; auto).
    rewrite Hp1.
    cbn [status set_status status_eqb]. rewrite Epause.
    unfold with_plan. cbn [ap heap _plan _stop_event].
    rewrite assign_assign.
    replace (set_status RUNNING (set_status PAUSED p)) with p
      by (destruct p; cbn in *; now subst).
    rewrite (assign_same _ _ _ Hp). destruct e as [[h pl] s]. reflexivity.
  - exists (set_status PAUSED p). auto.
  - unfold worker_pass.
    replace (_stop_event (pause e)) with false
      by (rewrite Epause; cbn; auto).
    now rewrite Hp1.
  - unfold load_plan_ex. cbn [snd]. unfold load_plan, plan_running.
    replace (_plan (ap (pause e))) with (Some plan)
      by (rewrite Epause; cbn; auto).
    rewrite Hp1. cbn [status set_status status_eqb].
    destruct (deref (heap (ap (pause e))) q); reflexivity.
Qed.

(** *** Concrete missions *)

Lemma worker_pass_index_witness :
  exists p1,
    deref (heap (ap (fst (fst (worker_pass unit obedient 0%nat false flying tt)))))
      0%nat = Some p1 /\
    current_index p1 = 2%nat.
Proof.
  destruct (worker_pass_index unit obedient 0%nat false flying tt mission
              eq_refl ltac:(cbn; lia)) as (p1 & H1 & _ & _ & H4).
  exists p1. split; [exact H1|].
  cbv in H1. injection H1 as <-. reflexivity.
Defined.

Lemma mission_completes_witness :
  exists e1 drone1 p1,
    worker_run unit obedient 0%nat (repeat false 4) flying tt = Some (e1, drone1) /\
    deref (heap (ap e1)) 0%nat = Some p1 /\
    status p1 = COMPLETED /\ current_index p1 = 4%nat.
Proof.
  destruct (mission_completes unit obedient 0%nat flying tt mission 4
              eq_refl eq_refl eq_refl eq_refl ltac:(cbn; lia) ltac:(cbn; lia))
    as (e1 & drone1 & p1 & H1 & H2 & H3 & H4 & _).
  exists e1, drone1, p1. auto.
Defined.

Lemma abort_interrupts_witness :
  snd (worker_pass unit obedient 0%nat true flying tt) = Done /\
  _stop_event (fst (fst (worker_pass unit obedient 0%nat true flying tt))) = true.
Proof.
  destruct (abort_interrupts unit obedient 0%nat flying tt mission
              (mkWaypoint (-100) 100 100 40 1 None PENDING) 1%nat
              eq_refl eq_refl eq_refl eq_refl eq_refl) as (H1 & H2 & _).
  split; [exact H1 | exact H2].
Defined.

Lemma pause_resume_witness : resume (pause flying) = flying.
Proof.
  exact (proj1 (pause_resume unit obedient 0%nat flying mission 1%nat false tt
                  eq_refl eq_refl eq_refl eq_refl)).
Defined.

End PlanMore.
